(** * QianLu provider layer: factory, parameter resolver, REST and streaming adapters

    A shallow embedding of the provider handler abstraction of the QianLu
    backend (src/providers/factory.py, src/providers/base.py,
    src/providers/handlers/{deepseek_ai,silicon_flow,ollama_local,
    ollama_report_handler}.py, src/utils/retry.py and
    src/validation/error_handler.py), followed by the properties of the
    design document that can be stated over it.

    Conventions.
    - A Python [str] is a [string]; case mapping and whitespace are modelled on
      ASCII, other characters pass through unchanged.
    - A Python [dict] that is only looked up is a [gmap]; a dict whose
      iteration order is observed is an association list.
    - A function that can raise returns a [result]; module-level state and
      the outside world (files, process environment) are passed explicitly.
    - Builtins whose definition is not part of the repository ([int], [float],
      [str] of a value, [json.loads]) are the fields of a [builtins] record.
    - Logging calls are left out, except in [get_current_param], whose
      warnings are part of its documented behaviour.
    - An async generator is the run its consumer sees when it iterates to
      the end ([Gen.run]); a consumer that leaves earlier sees
      [Gen.closed]. *)

From Stdlib Require Import ZArith List String Ascii Bool Lia Floats DecimalString.
From stdpp Require Import base option gmap strings list fin_maps.

Set Warnings "-register-all,-inexact-float,-clear-no-such-hyp".
Open Scope string_scope.

(* ===================================================================== *)
(** ** Python strings                                                     *)
(* ===================================================================== *)

Module Py.

(** [str.isspace] on one character: TAB..CR, FS..US and the space. *)
Definition is_space (c : ascii) : bool :=
  let n := nat_of_ascii c in
  ((9 <=? n)%nat && (n <=? 13)%nat) || ((28 <=? n)%nat && (n <=? 32)%nat).

Definition lower_char (c : ascii) : ascii :=
  let n := nat_of_ascii c in
  if ((65 <=? n)%nat && (n <=? 90)%nat) then ascii_of_nat (n + 32) else c.

Definition upper_char (c : ascii) : ascii :=
  let n := nat_of_ascii c in
  if ((97 <=? n)%nat && (n <=? 122)%nat) then ascii_of_nat (n - 32) else c.

Fixpoint map_chars (f : ascii -> ascii) (s : string) : string :=
  match s with
  | EmptyString => EmptyString
  | String c s' => String (f c) (map_chars f s')
  end.

(** [s.lower()] and [s.upper()]. *)
Definition lower (s : string) : string := map_chars lower_char s.
Definition upper (s : string) : string := map_chars upper_char s.

(** [s.replace(old, new)] for a one-character [old]. *)
Fixpoint replace_char (old : ascii) (new : string) (s : string) : string :=
  match s with
  | EmptyString => EmptyString
  | String c s' =>
      if Ascii.eqb c old then new ++ replace_char old new s'
      else String c (replace_char old new s')
  end.

(** [s.lstrip()], [s.rstrip()], [s.strip()]. *)
Fixpoint lstrip (s : string) : string :=
  match s with
  | EmptyString => EmptyString
  | String c s' => if is_space c then lstrip s' else s
  end.

Fixpoint rstrip (s : string) : string :=
  match s with
  | EmptyString => EmptyString
  | String c s' =>
      match rstrip s' with
      | EmptyString => if is_space c then EmptyString else String c EmptyString
      | r => String c r
      end
  end.

Definition strip (s : string) : string := rstrip (lstrip s).

(** [s.rstrip(c)] for one character [c]. *)
Fixpoint rstrip_char (c : ascii) (s : string) : string :=
  match s with
  | EmptyString => EmptyString
  | String d s' =>
      match rstrip_char c s' with
      | EmptyString => if Ascii.eqb d c then EmptyString else String d EmptyString
      | r => String d r
      end
  end.

(** [s.endswith(c)] for one character [c]. *)
Fixpoint endswith_char (c : ascii) (s : string) : bool :=
  match s with
  | EmptyString => false
  | String d EmptyString => Ascii.eqb d c
  | String _ s' => endswith_char c s'
  end.

(** [s.startswith(p)]. *)
Definition startswith (s p : string) : bool := String.prefix p s.

(** [s[n:]]. *)
Fixpoint drop (n : nat) (s : string) : string :=
  match n, s with
  | O, _ => s
  | S n', String _ s' => drop n' s'
  | S _, EmptyString => EmptyString
  end.

(** [sub in s]. *)
Fixpoint contains (sub s : string) : bool :=
  String.prefix sub s ||
  match s with
  | EmptyString => false
  | String _ s' => contains sub s'
  end.

(** [c in s] for one character. *)
Fixpoint has_char (c : ascii) (s : string) : bool :=
  match s with
  | EmptyString => false
  | String d s' => Ascii.eqb c d || has_char c s'
  end.

(** Truth value of a string: [bool(s)]. *)
Definition nonempty (s : string) : bool :=
  match s with EmptyString => false | _ => true end.

End Py.

(* ===================================================================== *)
(** ** Python values, builtins and exceptions                             *)
(* ===================================================================== *)

(** The values that travel through configuration dictionaries, keyword
    arguments and decoded JSON documents.  A dictionary keeps its insertion
    order. *)
Inductive value : Type :=
  | VNone
  | VBool (b : bool)
  | VInt (z : Z)
  | VFloat (f : float)
  | VStr (s : string)
  | VList (items : list value)
  | VDict (entries : list (string * value)).

(** [bool(v)]. *)
Definition truthy (v : value) : bool :=
  match v with
  | VNone => false
  | VBool b => b
  | VInt z => negb (z =? 0)%Z
  | VFloat f => negb (PrimFloat.eqb f 0%float)
  | VStr s => Py.nonempty s
  | VList items => match items with [] => false | _ => true end
  | VDict entries => match entries with [] => false | _ => true end
  end.

(** [v is not None]. *)
Definition is_not_none (v : value) : bool :=
  match v with VNone => false | _ => true end.

(** [a or b]. *)
Definition py_or (a b : value) : value := if truthy a then a else b.

(** [d.get(k)] on an insertion-ordered dictionary. *)
Fixpoint dict_get {A : Type} (k : string) (entries : list (string * A)) : option A :=
  match entries with
  | [] => None
  | (k', v) :: rest => if String.eqb k k' then Some v else dict_get k rest
  end.

(** [d[k] = v]: an existing key keeps its position. *)
Fixpoint dict_set {A : Type} (k : string) (v : A) (entries : list (string * A))
  : list (string * A) :=
  match entries with
  | [] => [(k, v)]
  | (k', v') :: rest =>
      if String.eqb k k' then (k, v) :: rest else (k', v') :: dict_set k v rest
  end.

(** [d.update(other)]. *)
Definition dict_update {A : Type} (d other : list (string * A)) : list (string * A) :=
  fold_left (fun acc kv => dict_set (fst kv) (snd kv) acc) other d.

(** Builtins and library functions that are not part of the repository:
    [int(s)], [float(s)], [str(v)], [a + b],
    [int(datetime.fromisoformat(s).timestamp())] and [json.loads(s)].
    [None] stands for the [ValueError], [TypeError] or [JSONDecodeError]
    they raise. *)
Record builtins : Type := {
  py_int : string -> option Z;
  py_float : string -> option float;
  py_repr : value -> string;
  py_add : value -> value -> option value;
  iso_timestamp : string -> option Z;
  json_loads : string -> option value
}.

(** [str(v)] as an f-string renders it; containers and floats are left to
    [py_repr]. *)
Definition fmt (B : builtins) (v : value) : string :=
  match v with
  | VStr s => s
  | VNone => "None"
  | VBool true => "True"
  | VBool false => "False"
  | VInt z => DecimalString.NilZero.string_of_int (Z.to_int z)
  | _ => py_repr B v
  end.

(** Exception classes: builtins, aiohttp, tenacity, and the two error
    modules of the repository.  [TimeoutError_] is both the builtin and
    [asyncio.TimeoutError] (one class since Python 3.11). *)
Inductive exn_class : Set :=
  | Exception_
  | TypeError_
  | ValueError_
  | RuntimeError_
  | AttributeError_
  | KeyError_
  | UnicodeDecodeError_
  | JSONDecodeError_
  | OSError_
  | ConnectionError_
  | TimeoutError_
  | ClientError
  | ClientConnectorError
  | RetryError
  (* src/validation/error_handler.py *)
  | BaseText2AlpacaError
  | ConfigurationError
  | APIConnectionError
  | APIResponseError
  | APICallError
  | APIResponseFormatError
  | APITimeoutError
  | APIError
  (* src/utils/error_handler.py *)
  | GlyphMindError
  | GlyphMindAPIError.

Definition exn_class_eqb (a b : exn_class) : bool :=
  match a, b with
  | Exception_, Exception_ | TypeError_, TypeError_ | ValueError_, ValueError_
  | RuntimeError_, RuntimeError_ | AttributeError_, AttributeError_
  | KeyError_, KeyError_
  | UnicodeDecodeError_, UnicodeDecodeError_ | JSONDecodeError_, JSONDecodeError_
  | OSError_, OSError_ | ConnectionError_, ConnectionError_
  | TimeoutError_, TimeoutError_ | ClientError, ClientError
  | ClientConnectorError, ClientConnectorError | RetryError, RetryError
  | BaseText2AlpacaError, BaseText2AlpacaError
  | ConfigurationError, ConfigurationError
  | APIConnectionError, APIConnectionError | APIResponseError, APIResponseError
  | APICallError, APICallError | APIResponseFormatError, APIResponseFormatError
  | APITimeoutError, APITimeoutError | APIError, APIError
  | GlyphMindError, GlyphMindError | GlyphMindAPIError, GlyphMindAPIError => true
  | _, _ => false
  end.

(** The classes an exception class derives from, itself included. *)
Definition mro (c : exn_class) : list exn_class :=
  match c with
  | Exception_ => [Exception_]
  | TypeError_ => [TypeError_; Exception_]
  | ValueError_ => [ValueError_; Exception_]
  | RuntimeError_ => [RuntimeError_; Exception_]
  | AttributeError_ => [AttributeError_; Exception_]
  | KeyError_ => [KeyError_; Exception_]
  | UnicodeDecodeError_ => [UnicodeDecodeError_; ValueError_; Exception_]
  | JSONDecodeError_ => [JSONDecodeError_; ValueError_; Exception_]
  | OSError_ => [OSError_; Exception_]
  | ConnectionError_ => [ConnectionError_; OSError_; Exception_]
  | TimeoutError_ => [TimeoutError_; OSError_; Exception_]
  | ClientError => [ClientError; Exception_]
  | ClientConnectorError => [ClientConnectorError; ClientError; OSError_; Exception_]
  | RetryError => [RetryError; Exception_]
  | BaseText2AlpacaError => [BaseText2AlpacaError; Exception_]
  | ConfigurationError => [ConfigurationError; BaseText2AlpacaError; Exception_]
  | APIConnectionError => [APIConnectionError; BaseText2AlpacaError; Exception_]
  | APIResponseError => [APIResponseError; BaseText2AlpacaError; Exception_]
  | APICallError => [APICallError; BaseText2AlpacaError; Exception_]
  | APIResponseFormatError =>
      [APIResponseFormatError; BaseText2AlpacaError; Exception_]
  | APITimeoutError => [APITimeoutError; BaseText2AlpacaError; Exception_]
  | APIError => [APIError; BaseText2AlpacaError; Exception_]
  | GlyphMindError => [GlyphMindError; Exception_]
  | GlyphMindAPIError => [GlyphMindAPIError; GlyphMindError; Exception_]
  end.

Definition class_name (c : exn_class) : string :=
  match c with
  | Exception_ => "Exception"
  | TypeError_ => "TypeError"
  | ValueError_ => "ValueError"
  | RuntimeError_ => "RuntimeError"
  | AttributeError_ => "AttributeError"
  | KeyError_ => "KeyError"
  | UnicodeDecodeError_ => "UnicodeDecodeError"
  | JSONDecodeError_ => "JSONDecodeError"
  | OSError_ => "OSError"
  | ConnectionError_ => "ConnectionError"
  | TimeoutError_ => "TimeoutError"
  | ClientError => "ClientError"
  | ClientConnectorError => "ClientConnectorError"
  | RetryError => "RetryError"
  | BaseText2AlpacaError => "BaseText2AlpacaError"
  | ConfigurationError => "ConfigurationError"
  | APIConnectionError => "APIConnectionError"
  | APIResponseError => "APIResponseError"
  | APICallError => "APICallError"
  | APIResponseFormatError => "APIResponseFormatError"
  | APITimeoutError => "APITimeoutError"
  | APIError => "APIError"
  | GlyphMindError => "GlyphMindError"
  | GlyphMindAPIError => "APIError"
  end.

(** An exception object: its class, [str(e)], and the attributes its
    constructor stored. *)
Record exn : Type := {
  exn_cls : exn_class;
  exn_str : string;
  exn_attrs : list (string * value)
}.

(** [isinstance(e, c)]. *)
Definition isinstance (e : exn) (c : exn_class) : bool :=
  existsb (exn_class_eqb c) (mro (exn_cls e)).

(** The outcome of a call that may raise. *)
Inductive result (A : Type) : Type :=
  | Ok (a : A)
  | Raise (e : exn).
Arguments Ok {A} a.
Arguments Raise {A} e.

Definition bind {A B : Type} (r : result A) (k : A -> result B) : result B :=
  match r with
  | Ok a => k a
  | Raise e => Raise e
  end.

Notation "'let*' x ':=' r 'in' k" := (bind r (fun x => k))
  (at level 10, x name, r at level 100, k at level 200).

(* ===================================================================== *)
(** ** src/validation/error_handler.py                                    *)
(* ===================================================================== *)

Module Errors.

(** The parameters of each class's [__init__] after [self].  Call sites
    are written with keyword arguments only: a positional argument of the
    source is given the name of the parameter it binds. *)
Definition init_params (c : exn_class) : list string :=
  match c with
  | ConfigurationError => ["message"; "details"]
  | APIConnectionError => ["provider_name"; "details"]
  | APIResponseError => ["provider_name"; "status_code"; "response_body"; "details"]
  | APICallError => ["message"; "provider_name"; "details"]
  | APIResponseFormatError => ["provider_name"; "details"]
  | APITimeoutError =>
      ["message"; "timeout_value"; "timeout_seconds"; "provider";
       "provider_name"; "details"]
  | APIError => ["message"; "provider_name"; "details"]
  | _ => []
  end.

(** The default of a parameter. *)
Definition init_default (c : exn_class) (param : string) : value :=
  match c, param with
  | ConfigurationError, "message" => VStr "Configuration error"
  | APICallError, "message" => VStr "API call failed"
  | APIError, "message" => VStr "API error occurred"
  | APITimeoutError, _ => VNone
  | _, "provider_name" => VStr "Unknown Provider"
  | _, _ => VNone
  end.

(** The first keyword of a call that names no parameter. *)
Definition unexpected_keyword (c : exn_class) (kwargs : list (string * value))
  : option string :=
  fst <$> List.find (fun kv => negb (existsb (String.eqb (fst kv)) (init_params c))) kwargs.

(** What the interpreter raises for it. *)
Definition unexpected_keyword_error (c : exn_class) (k : string) : exn :=
  {| exn_cls := TypeError_;
     exn_str := class_name c ++ ".__init__() got an unexpected keyword argument '"
                ++ k ++ "'";
     exn_attrs := [] |}.

Definition arg (c : exn_class) (kwargs : list (string * value)) (param : string)
  : value :=
  match dict_get param kwargs with
  | Some v => v
  | None => init_default c param
  end.

(** [f": {details}" if details else ""]. *)
Definition suffix (B : builtins) (sep : string) (v : value) : string :=
  if truthy v then sep ++ fmt B v else "".

(** The bodies of the [__init__] methods: the message handed to
    [Exception.__init__] and the attributes set on [self]. *)
Definition init_body (B : builtins) (c : exn_class) (kwargs : list (string * value))
  : exn :=
  let a := arg c kwargs in
  match c with
  | ConfigurationError =>
      {| exn_cls := c;
         exn_str := fmt B (a "message") ++ suffix B ": " (a "details");
         exn_attrs := [("message", a "message"); ("details", a "details")] |}
  | APIConnectionError =>
      {| exn_cls := c;
         exn_str := "API Connection Error (" ++ fmt B (a "provider_name") ++ ")"
                    ++ suffix B ": " (a "details");
         exn_attrs := [("provider_name", a "provider_name"); ("details", a "details")] |}
  | APIResponseError =>
      {| exn_cls := c;
         exn_str := "API Response Error (" ++ fmt B (a "provider_name") ++ ")"
                    ++ suffix B " Status Code: " (a "status_code")
                    ++ suffix B " Details: " (a "details")
                    ++ (if truthy (a "response_body")
                        then " Response Body Preview: "
                             ++ String.substring 0 200 (fmt B (a "response_body"))
                             ++ "..."
                        else "");
         exn_attrs := [("provider_name", a "provider_name");
                       ("status_code", a "status_code");
                       ("response_body", a "response_body");
                       ("details", a "details")] |}
  | APIResponseFormatError =>
      {| exn_cls := c;
         exn_str := "API Response Format Error (" ++ fmt B (a "provider_name") ++ ")"
                    ++ suffix B ": " (a "details");
         exn_attrs := [("provider_name", a "provider_name"); ("details", a "details")] |}
  | APITimeoutError =>
      let provider_name :=
        py_or (a "provider") (py_or (a "provider_name") (VStr "Unknown Provider")) in
      let timeout_seconds := py_or (a "timeout_value") (a "timeout_seconds") in
      let msg :=
        py_or (a "message")
              (VStr ("API Timeout Error (" ++ fmt B provider_name ++ ")")) in
      {| exn_cls := c;
         exn_str := fmt B msg
                    ++ (if truthy timeout_seconds
                        then " after " ++ fmt B timeout_seconds ++ "s" else "")
                    ++ suffix B ": " (a "details");
         exn_attrs := [("provider_name", provider_name);
                       ("timeout_seconds", timeout_seconds);
                       ("details", a "details")] |}
  | APICallError | APIError =>
      {| exn_cls := c;
         exn_str := fmt B (a "message") ++ " (" ++ fmt B (a "provider_name") ++ ")"
                    ++ suffix B ": " (a "details");
         exn_attrs := [("provider_name", a "provider_name");
                       ("message", a "message");
                       ("details", a "details")] |}
  | _ => {| exn_cls := c; exn_str := ""; exn_attrs := [] |}
  end.

(** Evaluating the expression [C(k1=v1, ...)]: the new exception object,
    or the [TypeError] of a call that does not fit the signature. *)
Definition new (B : builtins) (c : exn_class) (kwargs : list (string * value))
  : result exn :=
  match unexpected_keyword c kwargs with
  | Some k => Raise (unexpected_keyword_error c k)
  | None => Ok (init_body B c kwargs)
  end.

(** The statement [raise C(k1=v1, ...)]. *)
Definition raise_new {A : Type} (B : builtins) (c : exn_class)
    (kwargs : list (string * value)) : result A :=
  match new B c kwargs with
  | Ok e => Raise e
  | Raise e => Raise e
  end.

End Errors.

(* ===================================================================== *)
(** ** Operations on values of unknown type                               *)
(* ===================================================================== *)

Module Dyn.

(** [type(v).__name__] *)
Definition type_name (v : value) : string :=
  match v with
  | VNone => "NoneType"
  | VBool _ => "bool"
  | VInt _ => "int"
  | VFloat _ => "float"
  | VStr _ => "str"
  | VList _ => "list"
  | VDict _ => "dict"
  end.

(** The error of [v.attr] when [v] has no such attribute. *)
Definition attribute_error (v : value) (attr : string) : exn :=
  {| exn_cls := AttributeError_;
     exn_str := "'" ++ type_name v ++ "' object has no attribute '" ++ attr ++ "'";
     exn_attrs := [] |}.

(** [config.get(k, d)] on a handler configuration. *)
Definition cfg_get (cfg : gmap string value) (k : string) (d : value) : value :=
  default d (cfg !! k).

(** A [TypeError] the interpreter raises on an operation the operand does
    not support.  The text of such messages is not modelled. *)
Definition ill_typed : exn :=
  {| exn_cls := TypeError_; exn_str := ""; exn_attrs := [] |}.

Definition key_error (k : string) : exn :=
  {| exn_cls := KeyError_; exn_str := "'" ++ k ++ "'"; exn_attrs := [] |}.

Definition is_str (k : string) (v : value) : bool :=
  match v with VStr s => String.eqb k s | _ => false end.

(** [k in v] for a string [k]. *)
Definition contains (k : string) (v : value) : result bool :=
  match v with
  | VDict entries =>
      Ok (match dict_get k entries with Some _ => true | None => false end)
  | VList items => Ok (existsb (is_str k) items)
  | VStr s => Ok (Py.contains k s)
  | _ => Raise ill_typed
  end.

(** [v[k]] for a string [k]. *)
Definition getitem (v : value) (k : string) : result value :=
  match v with
  | VDict entries =>
      match dict_get k entries with
      | Some x => Ok x
      | None => Raise (key_error k)
      end
  | _ => Raise ill_typed
  end.

End Dyn.

(* ===================================================================== *)
(** ** src/providers/factory.py                                           *)
(* ===================================================================== *)

Module Factory.

(** One entry of [providers_meta.json].  A key that is absent, [null] or
    empty is the empty string: the code only tests these fields for truth. *)
Record ProviderMetadata : Type := {
  standard_name : string;
  display_name : string;
  handler_module_path : string;
  handler_class_name : string;
  aliases : list string;
  env_prefix : string
}.

Inductive meta_entry : Type :=
  | NotADict
  | Entry (meta : ProviderMetadata).

(** What reading [METADATA_FILE] gives. *)
Inductive metadata_source : Type :=
  | MetaMissing
  | MetaUnreadable
  | MetaBadJson
  | MetaNotAList
  | MetaList (entries : list meta_entry).

(** The world outside the process state: the metadata file, the [.env]
    file found from the module's directory ([find_dotenv()]) and the one
    found from the working directory ([find_dotenv(usecwd=True)]), each
    as [dotenv_values] parses it ([None] when no file is found; a key
    written without [=] has no value), and [os.environ].  A file that is
    found need not be readable: [dotenv_values] opens it and decodes it as
    UTF-8, and raises ([OSError], [UnicodeDecodeError]) when it cannot;
    the two last fields hold that exception. *)
Record world : Type := {
  metadata_file : metadata_source;
  dotenv_from_module : option (gmap string (option string));
  dotenv_from_cwd : option (gmap string (option string));
  os_environ : gmap string string;
  dotenv_from_module_raises : option exn;
  dotenv_from_cwd_raises : option exn
}.

(** [dotenv_values(dotenv_path)]: the exception it raises.  Without a file
    ([dotenv_path] is the empty string) nothing is opened. *)
Definition dotenv_values_raises (found : option (gmap string (option string)))
    (unreadable : option exn) : option exn :=
  match found with
  | Some _ => unreadable
  | None => None
  end.

(** Handler classes.  [import_class] is [importlib.import_module],
    [getattr] and the [issubclass] check together: [None] when one of them
    fails.  [init_raises] tells whether the constructor raises on a
    configuration. *)
Record runtime (Class : Type) : Type := {
  import_class : string -> string -> option Class;
  init_raises : Class -> gmap string value -> option exn
}.
Arguments import_class {Class} _ _ _.
Arguments init_raises {Class} _ _ _.

(** A handler instance as [BaseAPIHandler.__init__] leaves it. *)
Record handler (Class : Type) : Type := {
  handler_class : Class;
  config : gmap string value
}.
Arguments handler_class {Class} _.
Arguments config {Class} _.

(** The three module-level dictionaries. *)
Record registry (Class : Type) : Type := {
  handlers : gmap string Class;
  provider_aliases : gmap string string;
  provider_metadata_map : list (string * ProviderMetadata)
}.
Arguments handlers {Class} _.
Arguments provider_aliases {Class} _.
Arguments provider_metadata_map {Class} _.

(** Module state.  [shared] holds the dictionaries created when the module
    is imported: the class attributes of [APIHandlerFactory] refer to them
    for ever.  The module globals refer to them too, until
    [_initialize_factory] binds the globals to fresh dictionaries
    ([rebound]). *)
Record state (Class : Type) : Type := {
  shared : registry Class;
  rebound : option (registry Class);
  initialized : bool;
  project_root : bool
}.
Arguments shared {Class} _.
Arguments rebound {Class} _.
Arguments initialized {Class} _.
Arguments project_root {Class} _.

Section WithClasses.
Context {Class : Type}.

Definition empty_registry : registry Class :=
  {| handlers := ∅; provider_aliases := ∅; provider_metadata_map := [] |}.

Definition initial_state : state Class :=
  {| shared := empty_registry; rebound := None;
     initialized := false; project_root := false |}.

(** The dictionaries the module globals name. *)
Definition globals (st : state Class) : registry Class :=
  match rebound st with
  | Some r => r
  | None => shared st
  end.

(** Mutating the dictionaries the module globals name. *)
Definition set_globals (st : state Class) (r : registry Class) : state Class :=
  match rebound st with
  | Some _ =>
      {| shared := shared st; rebound := Some r;
         initialized := initialized st; project_root := project_root st |}
  | None =>
      {| shared := r; rebound := None;
         initialized := initialized st; project_root := project_root st |}
  end.

Definition set_flags (st : state Class) (init root : bool) : state Class :=
  {| shared := shared st; rebound := rebound st;
     initialized := init; project_root := root |}.

(** [provider.lower().replace(" ", "").replace("-", "_")] *)
Definition normalize (provider : string) : string :=
  Py.replace_char "-" "_" (Py.replace_char " " "" (Py.lower provider)).

(** [provider_name_or_alias.lower().replace("-", "_")] *)
Definition normalize_hyphens (provider : string) : string :=
  Py.replace_char "-" "_" (Py.lower provider).

(** The alias loop of [initialize_handlers]: the last registration of an
    alias wins. *)
Definition register_aliases (std : string) (als : list string)
    (table : gmap string string) : gmap string string :=
  fold_left (fun t alias => <[normalize alias := std]> t) als table.

(** [all([standard_name, module_path, class_name, env_prefix])] *)
Definition complete (m : ProviderMetadata) : bool :=
  Py.nonempty (standard_name m) && Py.nonempty (handler_module_path m)
  && Py.nonempty (handler_class_name m) && Py.nonempty (env_prefix m).

(** The body of the loop over the metadata entries in
    [initialize_handlers]. *)
Definition register_entry (R : runtime Class) (r : registry Class)
    (e : meta_entry) : registry Class :=
  match e with
  | NotADict => r
  | Entry m =>
      if complete m then
        match import_class R (handler_module_path m) (handler_class_name m) with
        | None => r
        | Some cls =>
            {| handlers := <[standard_name m := cls]> (handlers r);
               provider_aliases :=
                 register_aliases (standard_name m) (aliases m) (provider_aliases r);
               provider_metadata_map :=
                 dict_set (standard_name m) m (provider_metadata_map r) |}
        end
      else r
  end.

Definition initialize_handlers (R : runtime Class) (w : world)
    (st : state Class) : state Class :=
  if initialized st then st
  else
    match metadata_file w with
    | MetaList entries =>
        set_flags (set_globals st (fold_left (register_entry R) entries empty_registry))
                  true true
    | _ => set_flags (set_globals st empty_registry) false true
    end.

Definition unknown_provider_error (provider : string) : exn :=
  {| exn_cls := ValueError_;
     exn_str := "未知的提供商: '" ++ provider ++ "'。请检查可用的提供商和别名。";
     exn_attrs := [] |}.

Definition empty_provider_error : exn :=
  {| exn_cls := ValueError_; exn_str := "提供商名称不能为空。"; exn_attrs := [] |}.

(** [APIHandlerFactory.standardize_provider_name] *)
Definition standardize_provider_name (R : runtime Class) (w : world)
    (st : state Class) (provider : string) : result string * state Class :=
  if negb (Py.nonempty provider) then (Raise empty_provider_error, st)
  else
    let normalized := normalize provider in
    let st := if initialized st then st else initialize_handlers R w st in
    match provider_aliases (shared st) !! normalized with
    | Some std => (Ok std, st)
    | None =>
        match handlers (shared st) !! normalized with
        | Some _ => (Ok normalized, st)
        | None => (Raise (unknown_provider_error provider), st)
        end
    end.

(** [{**dotenv_values(dotenv_path), **os.environ}]: on a key of both, the
    right operand's value stays. *)
Definition all_env_vars (w : world) : gmap string (option string) :=
  (Some <$> os_environ w) ∪ default ∅ (dotenv_from_module w).

(** The conversion of one environment value in [get_handler]. *)
Definition process_value (B : builtins) (v : option string) : value :=
  match v with
  | None => VNone
  | Some s =>
      let l := Py.lower s in
      if String.eqb l "true" || String.eqb l "false" then VBool (String.eqb l "true")
      else if Py.has_char "." s then
        match py_float B s with Some f => VFloat f | None => VStr s end
      else
        match py_int B s with Some z => VInt z | None => VStr s end
  end.

(** The configuration loop of [get_handler], then
    [config['provider_name'] = standard_name]. *)
Definition load_config (B : builtins) (w : world) (prefix : string)
    (std : string) : gmap string value :=
  let from_env : gmap string value :=
    if Py.nonempty prefix then
      process_value B <$>
        filter (fun kv => Py.startswith (fst kv) prefix = true) (all_env_vars w)
    else ∅ in
  <["provider_name" := VStr std]> from_env.

(** The read of the [.env] file under [if env_prefix:], which no [try]
    statement encloses: the exception it raises, if any. *)
Definition read_env_raises (w : world) (prefix : string) : option exn :=
  if Py.nonempty prefix then
    dotenv_values_raises (dotenv_from_module w) (dotenv_from_module_raises w)
  else None.

(** [try: return handler_class(config) except Exception: return None] *)
Definition instantiate (R : runtime Class) (cls : Class)
    (cfg : gmap string value) : option (handler Class) :=
  match init_raises R cls cfg with
  | Some _ => None
  | None => Some {| handler_class := cls; config := cfg |}
  end.

Definition init_failed_error : exn :=
  {| exn_cls := RuntimeError_; exn_str := "处理器初始化失败。无法获取处理器。";
     exn_attrs := [] |}.

Definition no_class_error (std : string) : exn :=
  {| exn_cls := ValueError_;
     exn_str := "内部错误: 对于已知提供商 " ++ std ++ " 未找到处理器类";
     exn_attrs := [] |}.

(** [APIHandlerFactory.get_handler] *)
Definition APIHandlerFactory_get_handler (B : builtins) (R : runtime Class)
    (w : world) (st : state Class) (provider : string)
  : result (option (handler Class)) * state Class :=
  let st := if initialized st then st else initialize_handlers R w st in
  if negb (initialized st) then (Raise init_failed_error, st)
  else
    match standardize_provider_name R w st provider with
    | (Raise e, st) => (Raise e, st)
    | (Ok std, st) =>
        match handlers (shared st) !! std with
        | None => (Raise (no_class_error std), st)
        | Some cls =>
            match dict_get std (provider_metadata_map (shared st)) with
            | None => (Ok None, st)
            | Some meta =>
                match read_env_raises w (env_prefix meta) with
                | Some e => (Raise e, st)
                | None =>
                    (Ok (instantiate R cls (load_config B w (env_prefix meta) std)),
                     st)
                end
            end
        end
    end.


(** The first loop of [_initialize_factory]: the list of the file as a
    dictionary keyed by [standard_name]. *)
Definition load_metadata_map (w : world) : list (string * ProviderMetadata) :=
  match metadata_file w with
  | MetaList entries =>
      fold_left
        (fun acc e =>
           match e with
           | Entry m =>
               if Py.nonempty (standard_name m) then dict_set (standard_name m) m acc
               else acc
           | NotADict => acc
           end)
        entries []
  | _ => []
  end.

(** The alias loop of [_initialize_factory]: an alias that already names
    another provider is left alone, and a provider's own name is not
    entered as its alias. *)
Definition map_aliases (std : string) (als : list string)
    (table : gmap string string) : gmap string string :=
  fold_left
    (fun t alias =>
       let n := normalize_hyphens alias in
       match t !! n with
       | Some other =>
           if negb (String.eqb other std) then t
           else if negb (String.eqb n std) then <[n := std]> t else t
       | None => if negb (String.eqb n std) then <[n := std]> t else t
       end)
    als table.

(** The registration loop of [_initialize_factory] over the values of
    the loaded map. *)
Definition register_loaded (R : runtime Class) (r : registry Class)
    (kv : string * ProviderMetadata) : registry Class :=
  let m := snd kv in
  if Py.nonempty (standard_name m) && Py.nonempty (handler_module_path m)
     && Py.nonempty (handler_class_name m) then
    match import_class R (handler_module_path m) (handler_class_name m) with
    | None => r
    | Some cls =>
        {| handlers := <[standard_name m := cls]> (handlers r);
           provider_aliases :=
             map_aliases (standard_name m) (aliases m) (provider_aliases r);
           provider_metadata_map := provider_metadata_map r |}
    end
  else r.

Definition _initialize_factory (R : runtime Class) (w : world)
    (st : state Class) : state Class :=
  match provider_metadata_map (globals st) with
  | _ :: _ => st
  | [] =>
      let st := set_flags st (initialized st) true in
      match load_metadata_map w with
      | [] => st
      | loaded =>
          let fresh : registry Class :=
            {| handlers := ∅; provider_aliases := ∅;
               provider_metadata_map := loaded |} in
          {| shared := shared st;
             rebound := Some (fold_left (register_loaded R) loaded fresh);
             initialized := initialized st;
             project_root := true |}
      end
  end.

(** [next((meta for meta in _provider_metadata_map.values()
           if meta.get("standard_name") == standard_name), None)] *)
Definition find_meta (std : string) (metas : list (string * ProviderMetadata))
  : option ProviderMetadata :=
  snd <$> List.find (fun kv => String.eqb (standard_name (snd kv)) std) metas.

(** The module-level [get_handler]. *)
Definition get_handler (B : builtins) (R : runtime Class) (w : world)
    (st : state Class) (provider_name_or_alias : string)
  : result (option (handler Class)) * state Class :=
  let st := _initialize_factory R w st in
  if negb (project_root st) then (Ok None, st)
  else
    let normalized_name := normalize_hyphens provider_name_or_alias in
    let std := default normalized_name
                       (provider_aliases (globals st) !! normalized_name) in
    match handlers (globals st) !! std with
    | None => (Ok None, st)
    | Some cls =>
        match find_meta std (provider_metadata_map (globals st)) with
        | None => (Ok None, st)
        | Some meta =>
            match read_env_raises w (env_prefix meta) with
            | Some e => (Raise e, st)
            | None =>
                (Ok (instantiate R cls (load_config B w (env_prefix meta) std)), st)
            end
        end
    end.

(** [get_provider_metadata] *)
Definition get_provider_metadata (R : runtime Class) (w : world)
    (st : state Class) (provider_name_or_alias : string)
  : option ProviderMetadata * state Class :=
  let st := if initialized st then st else initialize_handlers R w st in
  match standardize_provider_name R w st provider_name_or_alias with
  | (Ok std, st) => (dict_get std (provider_metadata_map (globals st)), st)
  | (Raise _, st) => (None, st)
  end.





End WithClasses.
End Factory.

(* ===================================================================== *)
(** ** src/providers/base.py                                              *)
(* ===================================================================== *)

Module Base.
Import Factory.

Inductive log_level : Set := WARNING | ERROR.

Definition log_record : Type := log_level * string.

(** [env_values.get(name)]: a key without a value reads as [None], like an
    absent key. *)
Definition env_get (env_values : gmap string (option string)) (name : string)
  : option string :=
  mjoin (env_values !! name).

(** [value.lower() in ('true', '1', 'yes', 'y', 'on')] *)
Definition bool_of_env (v : string) : bool :=
  existsb (String.eqb (Py.lower v)) ["true"; "1"; "yes"; "y"; "on"].

(** The conversion at the end of [get_current_param]. *)
Definition convert (B : builtins) (runtime_param_name : string)
    (param_type : option string) (v : string) (default_value : value)
  : value * list log_record :=
  match param_type with
  | Some "int" =>
      match py_int B v with
      | Some z => (VInt z, [])
      | None =>
          (default_value,
           [(WARNING, "无法将 " ++ runtime_param_name ++ " 的值 '" ++ v
                      ++ "' 转换为整数，使用默认值")])
      end
  | Some "float" =>
      match py_float B v with
      | Some f => (VFloat f, [])
      | None =>
          (default_value,
           [(WARNING, "无法将 " ++ runtime_param_name ++ " 的值 '" ++ v
                      ++ "' 转换为浮点数，使用默认值")])
      end
  | Some "bool" => (VBool (bool_of_env v), [])
  | _ => (VStr v, [])
  end.

Section WithClasses.
Context {Class : Type}.

(** [BaseAPIHandler.get_current_param].  [provider_name] is
    [self.provider_name]; the result comes with the records logged and
    the module state of the factory after the call. *)
Definition get_current_param (B : builtins) (R : runtime Class) (w : world)
    (st : state Class) (provider_name : value) (param_name : string)
    (param_type : option string) (default_value : value)
  : value * list log_record * state Class :=
  match provider_name with
  | VStr name =>
      match get_provider_metadata R w st name with
      | (None, st) =>
          (default_value,
           [(WARNING, "无法获取提供商 '" ++ name ++ "' 的元数据，使用默认值")], st)
      | (Some meta, st) =>
          let prefix := env_prefix meta in
          if negb (Py.nonempty prefix) then
            (default_value,
             [(WARNING, "提供商 '" ++ name ++ "' 元数据中没有env_prefix，使用默认值")],
             st)
          else
            match dotenv_from_cwd w with
            | None => (default_value, [(WARNING, "无法找到.env文件，使用默认值")], st)
            | Some env_values =>
                match dotenv_from_cwd_raises w with
                | Some e =>
                    (* [dotenv_values] raises inside the [try] statement *)
                    (default_value,
                     [(ERROR, "获取参数 " ++ param_name ++ " 时出错: " ++ exn_str e)],
                     st)
                | None =>
                let runtime_param_name := prefix ++ Py.upper param_name in
                let v :=
                  match env_get env_values runtime_param_name with
                  | Some v => Some v
                  | None =>
                      env_get env_values (prefix ++ "DEFAULT_" ++ Py.upper param_name)
                  end in
                match v with
                | None => (default_value, [], st)
                | Some v =>
                    let '(r, logs) :=
                      convert B runtime_param_name param_type v default_value in
                    (r, logs, st)
                end
                end
            end
      end
  | other =>
      (* [get_provider_metadata] on a name that is not a string *)
      let st := if initialized st then st else initialize_handlers R w st in
      if truthy other then
        (default_value,
         [(ERROR, "获取参数 " ++ param_name ++ " 时出错: '" ++ Dyn.type_name other
                  ++ "' object has no attribute 'lower'")], st)
      else
        (default_value,
         [(WARNING, "无法获取提供商 '" ++ fmt B other ++ "' 的元数据，使用默认值")], st)
  end.

(** Vocabulary for statements about [get_current_param]: the prefix and
    the parsed [.env] file it looks its keys up in.  There is one when
    [get_provider_metadata] resolves the provider's name to metadata
    with a non-empty [env_prefix], and a [.env] file is found from the
    working directory and can be read. *)
Definition store (R : runtime Class) (w : world) (st : state Class)
    (provider_name : string) : option (string * gmap string (option string)) :=
  match fst (get_provider_metadata R w st provider_name) with
  | None => None
  | Some meta =>
      if Py.nonempty (env_prefix meta) then
        match dotenv_from_cwd w, dotenv_from_cwd_raises w with
        | Some env_values, None => Some (env_prefix meta, env_values)
        | _, _ => None
        end
      else None
  end.

End WithClasses.
End Base.

(* ===================================================================== *)
(** ** tenacity and src/utils/retry.py                                    *)
(* ===================================================================== *)

Module Retry.

(** The objects a retry predicate can be handed: tenacity's
    [RetryCallState] (the attempt number and the outcome of the attempt),
    or an exception. *)
Inductive pyobj : Type :=
  | RetryCallState (attempt_number : nat) (outcome : result value)
  | ExnObj (e : exn).

(** [is_retryable_exception]: an [isinstance] test against the builtin
    [ConnectionError] and [TimeoutError] and the [APIError] of
    src/utils/error_handler.py. *)
Definition is_retryable_exception (o : pyobj) : bool :=
  match o with
  | ExnObj e =>
      isinstance e ConnectionError_ || isinstance e TimeoutError_
      || isinstance e GlyphMindAPIError
  | RetryCallState _ _ => false
  end.

(** tenacity's [retry_if_exception(predicate)]: the predicate applied to
    the exception of a failed attempt. *)
Definition retry_if_exception (predicate : pyobj -> bool) (o : pyobj) : bool :=
  match o with
  | RetryCallState _ (Raise e) => predicate (ExnObj e)
  | _ => false
  end.

(** The arguments of tenacity's [@retry] that decide control flow.  The
    [retry] callable is called with the [RetryCallState]; [before_sleep]
    can itself raise ([Some e]). *)
Record retrying : Type := {
  stop_max_attempt : nat;
  retry : pyobj -> bool;
  reraise : bool;
  before_sleep : nat -> result value -> option exn
}.

Definition retry_error : exn :=
  {| exn_cls := RetryError; exn_str := "RetryError"; exn_attrs := [] |}.

(** The loop of [Retrying.__call__], from attempt [attempt_number] with
    [remaining] further attempts allowed by [stop_after_attempt]: the
    outcome, and the number of the last attempt made. *)
Fixpoint attempts (T : retrying) (fn : nat -> result value) (remaining : nat)
    (attempt_number : nat) : result value * nat :=
  let outcome := fn attempt_number in
  if negb (retry T (RetryCallState attempt_number outcome)) then
    (outcome, attempt_number)
  else
    match remaining with
    | O =>
        match outcome with
        | Raise e => (Raise (if reraise T then e else retry_error), attempt_number)
        | Ok _ => (Raise retry_error, attempt_number)
        end
    | S remaining' =>
        match before_sleep T attempt_number outcome with
        | Some e => (Raise e, attempt_number)
        | None => attempts T fn remaining' (S attempt_number)
        end
    end.

(** Calling the decorated function. *)
Definition call (T : retrying) (fn : nat -> result value) : result value * nat :=
  attempts T fn (stop_max_attempt T - 1) 1.

End Retry.

(* ===================================================================== *)
(** ** HTTP transport                                                     *)
(* ===================================================================== *)

Module Http.

Record request : Type := {
  req_method : string;
  req_url : string;
  req_headers : list (string * string);
  req_json : option value
}.

(** What one non-streaming exchange gives: an exception out of the client
    library, or a status and a body. *)
Inductive outcome : Type :=
  | Fails (e : exn)
  | Responds (status : Z) (text : string).

(** What one streaming exchange gives: an exception before any response,
    or a status, the body (read when the status is not 200), the lines
    received, and the exception that interrupted the stream, if any. *)
Inductive stream : Type :=
  | StreamFails (e : exn)
  | Streams (status : Z) (text : string) (lines : list string)
            (interrupted : option exn).

End Http.

(* ===================================================================== *)
(** ** src/providers/handlers/deepseek_ai.py                              *)
(* ===================================================================== *)

Module Deepseek.
Import Factory.

Record handler : Type := {
  provider_name : value;
  api_key : value;
  endpoint : value;
  default_model : value;
  default_api_params : list (string * value);
  request_timeout : value
}.

(** [DeepseekAIHandler.__init__] *)
Definition __init__ (cfg : gmap string value) : result handler :=
  let endpoint := Dyn.cfg_get cfg "DEEPSEEK_ENDPOINT" (VStr "https://api.deepseek.com/v1") in
  let* endpoint :=
    (if truthy endpoint then
       match endpoint with
       | VStr s => Ok (VStr (if Py.endswith_char "/" s then Py.rstrip_char "/" s else s))
       | v => Raise (Dyn.attribute_error v "endswith")
       end
     else Ok endpoint) in
  Ok {| provider_name := Dyn.cfg_get cfg "provider_name" (VStr "deepseek_ai");
        api_key := Dyn.cfg_get cfg "DEEPSEEK_API_KEY" VNone;
        endpoint := endpoint;
        default_model := Dyn.cfg_get cfg "DEEPSEEK_DEFAULT_MODEL" VNone;
        default_api_params :=
          [("temperature", Dyn.cfg_get cfg "DEEPSEEK_TEMPERATURE" (VFloat 0.7%float));
           ("top_p", Dyn.cfg_get cfg "DEEPSEEK_TOP_P" (VFloat 1.0%float));
           ("max_tokens", Dyn.cfg_get cfg "DEEPSEEK_MAX_TOKENS" (VInt 2000))];
        request_timeout := Dyn.cfg_get cfg "DEEPSEEK_REQUEST_TIMEOUT" (VInt 30) |}.

Definition _get_headers (B : builtins) (h : handler) : result (list (string * string)) :=
  if negb (truthy (api_key h)) then
    Errors.raise_new B ConfigurationError
      [("message",
        VStr "API key (DEEPSEEK_API_KEY) is missing for DeepseekAIHandler headers.")]
  else
    Ok [("Content-Type", "application/json");
        ("Authorization", "Bearer " ++ fmt B (api_key h))].

(** The [except] clauses of [_make_request]. *)
Definition _make_request_except (B : builtins) (h : handler) (e : exn)
  : result value :=
  if isinstance e ClientConnectorError then
    Errors.raise_new B APIConnectionError
      [("message", VStr ("Network connection error: " ++ exn_str e));
       ("detail", VStr (exn_str e));
       ("provider", provider_name h)]
  else if isinstance e TimeoutError_ then
    Errors.raise_new B APITimeoutError
      [("message",
        VStr ("Request timed out after " ++ fmt B (request_timeout h) ++ "s"));
       ("timeout_value", request_timeout h);
       ("provider", provider_name h)]
  else if isinstance e ClientError then
    Errors.raise_new B APIError
      [("message", VStr ("API client error: " ++ exn_str e));
       ("detail", VStr (exn_str e));
       ("provider", provider_name h)]
  else Raise e.

(** The body of [_make_request]: one attempt. *)
Definition _make_request_body (B : builtins) (h : handler)
    (transport : nat -> Http.request -> Http.outcome)
    (endpoint_path : string) (payload : value) (method : string)
    (attempt_number : nat) : result value :=
  let request_url :=
    fmt B (endpoint h)
    ++ (if Py.startswith endpoint_path "/" then endpoint_path
        else "/" ++ endpoint_path) in
  let body : result value :=
    let* headers := _get_headers B h in
    match transport attempt_number
            {| Http.req_method := method; Http.req_url := request_url;
               Http.req_headers := headers;
               Http.req_json :=
                 if String.eqb method "POST" then Some payload else None |} with
    | Http.Fails e => Raise e
    | Http.Responds status response_text =>
        if negb (status =? 200)%Z then
          let response_json :=
            match json_loads B response_text with
            | Some j => j
            | None => VDict [("error", VStr response_text)]
            end in
          Errors.raise_new B APIResponseError
            [("provider_name", provider_name h);
             ("status_code", VInt status);
             ("response_body", response_json);
             ("details", VStr ("HTTP " ++ fmt B (VInt status)))]
        else
          match json_loads B response_text with
          | Some j => Ok j
          | None =>
              Errors.raise_new B APIResponseFormatError
                [("message", VStr "Invalid JSON in successful response");
                 ("response_body", VDict [("raw_response", VStr response_text)]);
                 ("provider", provider_name h)]
          end
    end in
  match body with
  | Ok v => Ok v
  | Raise e => _make_request_except B h e
  end.

(** The [before_sleep] callback of the decorator formats
    [retry_state.stop.stop_max_attempt]; a [RetryCallState] has no
    attribute [stop]. *)
Definition before_sleep (attempt_number : nat) (outcome : result value)
  : option exn :=
  Some {| exn_cls := AttributeError_;
          exn_str := "'RetryCallState' object has no attribute 'stop'";
          exn_attrs := [] |}.

(** The arguments of [@retry] on [_make_request]. *)
Definition retrying : Retry.retrying :=
  {| Retry.stop_max_attempt := 3;
     Retry.retry := Retry.is_retryable_exception;
     Retry.reraise := true;
     Retry.before_sleep := before_sleep |}.

(** [_make_request] as decorated: the outcome and the number of attempts. *)
Definition _make_request (B : builtins) (h : handler)
    (transport : nat -> Http.request -> Http.outcome)
    (endpoint_path : string) (payload : value) (method : string)
  : result value * nat :=
  Retry.call retrying (_make_request_body B h transport endpoint_path payload method).

Definition valid_params : list string :=
  ["temperature"; "top_p"; "max_tokens"; "frequency_penalty";
   "presence_penalty"; "stop"].

(** [self.default_api_params.get(name)] *)
Definition default_param (h : handler) (name : string) : value :=
  default VNone (dict_get name (default_api_params h)).

(** The type [generate_text] asks [get_current_param] for: "int" for
    [max_tokens], "float" for [temperature] and [top_p]. *)
Definition expected_type (name : string) : string :=
  if String.eqb name "max_tokens" then "int" else "float".

Section WithClasses.
Context {Class : Type}.

(** [final_api_params] of [generate_text], after [update(kwargs)]. *)
Definition final_api_params (B : builtins) (R : runtime Class) (w : world)
    (st : state Class) (h : handler) (kwargs : list (string * value))
  : list (string * value) * list Base.log_record * state Class :=
  let '(temperature, l1, st) :=
    Base.get_current_param B R w st (provider_name h) "temperature"
      (Some "float") (default_param h "temperature") in
  let '(max_tokens, l2, st) :=
    Base.get_current_param B R w st (provider_name h) "max_tokens"
      (Some "int") (default_param h "max_tokens") in
  let '(top_p, l3, st) :=
    Base.get_current_param B R w st (provider_name h) "top_p"
      (Some "float") (default_param h "top_p") in
  (dict_update [("temperature", temperature); ("max_tokens", max_tokens);
                ("top_p", top_p)] kwargs,
   (l1 ++ l2 ++ l3)%list, st).

(** The request payload: the fixed keys, then each valid parameter
    whose value is not [None]. *)
Definition build_payload (target_model : value) (messages : value)
    (params : list (string * value)) : list (string * value) :=
  fold_left
    (fun payload kv =>
       if existsb (String.eqb (fst kv)) valid_params && is_not_none (snd kv)
       then dict_set (fst kv) (snd kv) payload else payload)
    params
    [("model", target_model); ("messages", messages); ("stream", VBool false)].

(** The loop over [result["choices"]]. *)
Fixpoint concat_contents (choices : list value) (content : string)
  : result string :=
  match choices with
  | [] => Ok content
  | choice :: rest =>
      let* has_message := Dyn.contains "message" choice in
      if has_message then
        let* message := Dyn.getitem choice "message" in
        let* has_content := Dyn.contains "content" message in
        if has_content then
          let* c := Dyn.getitem message "content" in
          match c with
          | VStr s => concat_contents rest (content ++ s)
          | _ => Raise Dyn.ill_typed
          end
        else concat_contents rest content
      else concat_contents rest content
  end.

Definition unexpected_format (B : builtins) (h : handler) (response : value)
  : result string :=
  Errors.raise_new B APIResponseFormatError
    [("message", VStr "Unexpected response format");
     ("response_body", response);
     ("provider", provider_name h)].

(** What [generate_text] does with the decoded response. *)
Definition read_response (B : builtins) (h : handler) (response : value)
  : result string :=
  let* has_choices := Dyn.contains "choices" response in
  if has_choices then
    let* choices := Dyn.getitem response "choices" in
    match choices with
    | VList (c :: cs) =>
        let* content := concat_contents (c :: cs) "" in
        if Py.nonempty content then Ok (Py.strip content)
        else unexpected_format B h response
    | _ => unexpected_format B h response
    end
  else unexpected_format B h response.

(** The [except] clauses of [generate_text]. *)
Definition generate_text_except (B : builtins) (h : handler) (e : exn)
  : result string :=
  if isinstance e APIError then Raise e
  else if isinstance e RetryError then
    Errors.raise_new B APIError
      [("message", VStr ("API request failed after retries: " ++ exn_str e));
       ("detail", VStr (exn_str e));
       ("provider", provider_name h)]
  else
    Errors.raise_new B APIError
      [("provider_name", provider_name h);
       ("message", VStr ("Unexpected internal error: " ++ exn_str e));
       ("details", VStr (exn_str e))].

(** What [generate_text] raises when a constructor call inside
    [_make_request] failed for its keyword [message]: the catch-all
    [APIError] around that [TypeError]. *)
Definition wrapped (B : builtins) (h : handler) (c : exn_class) : exn :=
  let text := exn_str (Errors.unexpected_keyword_error c "message") in
  Errors.init_body B APIError
    [("provider_name", provider_name h);
     ("message", VStr ("Unexpected internal error: " ++ text));
     ("details", VStr text)].

(** What a call of [generate_text] leaves behind. *)
Record run : Type := {
  returned : result string;
  attempts_made : nat;
  payload_sent : option (list (string * value));
  logged : list Base.log_record;
  state_after : state Class
}.

(** [DeepseekAIHandler.generate_text] *)
Definition generate_text (B : builtins) (R : runtime Class) (w : world)
    (st : state Class) (h : handler)
    (transport : nat -> Http.request -> Http.outcome)
    (prompt : string) (model : value) (kwargs : list (string * value)) : run :=
  let target_model := py_or model (default_model h) in
  if negb (truthy target_model) then
    {| returned :=
         Errors.raise_new B ConfigurationError
           [("message",
             VStr ("No model specified and no default_model configured for "
                   ++ fmt B (provider_name h) ++ "."))];
       attempts_made := 0; payload_sent := None; logged := [];
       state_after := st |}
  else
    let messages :=
      VList [VDict [("role", VStr "user"); ("content", VStr prompt)]] in
    let '(params, logs, st) := final_api_params B R w st h kwargs in
    let payload := build_payload target_model messages params in
    let '(response, n) :=
      _make_request B h transport "/chat/completions" (VDict payload) "POST" in
    {| returned :=
         match (let* decoded := response in read_response B h decoded) with
         | Ok content => Ok content
         | Raise e => generate_text_except B h e
         end;
       attempts_made := n; payload_sent := Some payload; logged := logs;
       state_after := st |}.

End WithClasses.
End Deepseek.

(* ===================================================================== *)
(** ** Asynchronous generators and chat messages                          *)
(* ===================================================================== *)

Module Gen.

(** A finished run of an async generator, as its consumer sees it: the
    items yielded, in order, and the exception that ended the iteration,
    if it did not end normally. *)
Record run : Type := {
  yielded : list value;
  raised : option exn
}.

Definition returns (items : list value) : run :=
  {| yielded := items; raised := None |}.

Definition raises (items : list value) (e : exn) : run :=
  {| yielded := items; raised := Some e |}.

(** Leaving a generator before its end.  [await gen.aclose()] raises
    [GeneratorExit] at the [yield] where the generator is suspended; a
    generator that has not started is closed without running.  The
    [except] and [finally] clauses around that [yield] either let the
    exception pass ([Unwinds]: no clause catches a [BaseException], and
    none yields), or one of them yields again ([YieldsAgain]): then the
    item is dropped and [aclose()] raises [RuntimeError]. *)
Inductive at_exit : Set := Unwinds | YieldsAgain.

Definition ignored_exit : exn :=
  {| exn_cls := RuntimeError_;
     exn_str := "async generator ignored GeneratorExit";
     exn_attrs := [] |}.

(** What the consumer has seen once it has taken [taken] items of the run
    [r] and awaited [aclose()]: the items received, and the exception
    raised to it.  [points] tells, for each item of [r], what
    [GeneratorExit] meets at its [yield].  A consumer that asks for more
    items than the run has sees the run end, and [aclose()] does nothing
    more. *)
Definition closed (r : run) (points : list at_exit) (taken : nat) : run :=
  match taken with
  | O => returns []
  | S k =>
      match nth_error points k with
      | Some YieldsAgain => raises (firstn taken (yielded r)) ignored_exit
      | Some Unwinds => returns (firstn taken (yielded r))
      | None => r
      end
  end.

(** The uniform chat message [{role, content}]. *)
Record message : Type := {
  role : string;
  content : string
}.

Definition message_dict (m : message) : value :=
  VDict [("role", VStr (role m)); ("content", VStr (content m))].

(** [{"choices": [{"delta": {key: v}}]}] *)
Definition delta (key : string) (v : value) : value :=
  VDict [("choices", VList [VDict [("delta", VDict [(key, v)])]])].

(** [{"error": text}] *)
Definition error_chunk (text : value) : value := VDict [("error", text)].

End Gen.

(* ===================================================================== *)
(** ** src/providers/handlers/silicon_flow.py                             *)
(* ===================================================================== *)

Module SiliconFlow.
Import Factory.

Record handler : Type := {
  provider_name : value;
  api_key : value;
  endpoint : value;
  default_model : value;
  default_api_params : list (string * value);
  request_timeout : value
}.

(** [SiliconFlowHandler.__init__] *)
Definition __init__ (cfg : gmap string value) : result handler :=
  let endpoint :=
    Dyn.cfg_get cfg "SILICONFLOW_ENDPOINT" (VStr "https://api.siliconflow.com/v1") in
  let* endpoint :=
    (if truthy endpoint then
       match endpoint with
       | VStr s => Ok (VStr (if Py.endswith_char "/" s then Py.rstrip_char "/" s else s))
       | v => Raise (Dyn.attribute_error v "endswith")
       end
     else Ok endpoint) in
  Ok {| provider_name := Dyn.cfg_get cfg "provider_name" (VStr "silicon_flow");
        api_key := Dyn.cfg_get cfg "SILICONFLOW_API_KEY" VNone;
        endpoint := endpoint;
        default_model := Dyn.cfg_get cfg "SILICONFLOW_DEFAULT_MODEL" VNone;
        default_api_params :=
          [("temperature", Dyn.cfg_get cfg "SILICONFLOW_TEMPERATURE" (VFloat 0.7%float));
           ("top_p", Dyn.cfg_get cfg "SILICONFLOW_TOP_P" (VFloat 1.0%float));
           ("max_tokens", Dyn.cfg_get cfg "SILICONFLOW_MAX_TOKENS" (VInt 2000))];
        request_timeout := Dyn.cfg_get cfg "SILICONFLOW_REQUEST_TIMEOUT" (VInt 60) |}.

Definition _get_headers (B : builtins) (h : handler) : list (string * string) :=
  [("Content-Type", "application/json");
   ("Authorization", "Bearer " ++ fmt B (api_key h))].

(** [{"status": "done"}] *)
Definition done_marker : value := VDict [("status", VStr "done")].

(** [self.request_timeout * 5] *)
Definition times5 (v : value) : result value :=
  match v with
  | VInt z => Ok (VInt (z * 5))
  | VFloat f => Ok (VFloat (f * 5)%float)
  | VBool b => Ok (VInt (if b then 5 else 0))
  | VStr s => Ok (VStr (s ++ s ++ s ++ s ++ s))
  | VList l => Ok (VList (l ++ l ++ l ++ l ++ l)%list)
  | VNone | VDict _ => Raise Dyn.ill_typed
  end.

(** The loop over the lines of the response: the chunks yielded, and
    whether the loop was left through [break]. *)
Fixpoint read_lines (B : builtins) (lines : list string) : list value * bool :=
  match lines with
  | [] => ([], false)
  | line :: rest =>
      if Py.nonempty line then
        let line_str := Py.strip line in
        if Py.startswith line_str "data:" then
          let line_data := Py.strip (Py.drop 5 line_str) in
          if String.eqb line_data "[DONE]" then ([done_marker], true)
          else
            match json_loads B line_data with
            | Some chunk =>
                let '(chunks, stopped) := read_lines B rest in
                (chunk :: chunks, stopped)
            | None => read_lines B rest
            end
        else read_lines B rest
      else read_lines B rest
  end.

(** Whether a line of the response is the [data: [DONE]] line. *)
Definition is_done_line (line : string) : bool :=
  Py.nonempty line && Py.startswith (Py.strip line) "data:"
  && String.eqb (Py.strip (Py.drop 5 (Py.strip line))) "[DONE]".

(** The [except] clauses around the exchange. *)
Definition stream_except (B : builtins) (h : handler) (request_url : string)
    (e : exn) : exn :=
  let raised : result unit :=
    if isinstance e TimeoutError_ then
      let* total := times5 (request_timeout h) in
      Errors.raise_new B APITimeoutError
        [("message", VStr "Stream request timed out");
         ("provider_name", provider_name h);
         ("timeout_seconds", total)]
    else if isinstance e ClientError then
      Errors.raise_new B APIConnectionError
        [("message", VStr ("Connection error: " ++ exn_str e));
         ("provider_name", provider_name h);
         ("details", VStr (exn_str e))]
    else
      Errors.raise_new B APIError
        [("message", VStr ("Unexpected streaming error: " ++ exn_str e));
         ("provider_name", provider_name h);
         ("details", VStr (exn_str e))] in
  match raised with
  | Raise e' => e'
  | Ok _ => e
  end.

Definition valid_params : list string :=
  ["temperature"; "top_p"; "max_tokens"; "presence_penalty";
   "frequency_penalty"; "stop"].

Section WithClasses.
Context {Class : Type}.

Definition final_api_params (B : builtins) (R : runtime Class) (w : world)
    (st : state Class) (h : handler) (kwargs : list (string * value))
  : list (string * value) * list Base.log_record * state Class :=
  let '(temperature, l1, st) :=
    Base.get_current_param B R w st (provider_name h) "temperature"
      (Some "float") (default VNone (dict_get "temperature" (default_api_params h))) in
  let '(max_tokens, l2, st) :=
    Base.get_current_param B R w st (provider_name h) "max_tokens"
      (Some "int") (default VNone (dict_get "max_tokens" (default_api_params h))) in
  let '(top_p, l3, st) :=
    Base.get_current_param B R w st (provider_name h) "top_p"
      (Some "float") (default VNone (dict_get "top_p" (default_api_params h))) in
  (dict_update [("temperature", temperature); ("max_tokens", max_tokens);
                ("top_p", top_p)] kwargs,
   (l1 ++ l2 ++ l3)%list, st).


Definition build_payload (target_model : string) (messages : list Gen.message)
    (params : list (string * value)) : list (string * value) :=
  fold_left
    (fun payload kv =>
       if existsb (String.eqb (fst kv)) valid_params && is_not_none (snd kv)
       then dict_set (fst kv) (snd kv) payload else payload)
    params
    [("model", VStr target_model);
     ("messages", VList (map Gen.message_dict messages));
     ("stream", VBool true)].

(** What a call of [stream_chat], iterated to its end, leaves behind. *)
Record streamed : Type := {
  generated : Gen.run;
  logged : list Base.log_record;
  state_after : state Class
}.

(** The [try] statement of [stream_chat]. *)
Definition exchange_stream (B : builtins) (h : handler)
    (exchange : Http.request -> Http.stream) (request_url : string)
    (request_payload : list (string * value)) : Gen.run :=
  match times5 (request_timeout h) with
  | Raise e => Gen.raises [] (stream_except B h request_url e)
  | Ok _ =>
      match exchange {| Http.req_method := "POST"; Http.req_url := request_url;
                        Http.req_headers := _get_headers B h;
                        Http.req_json := Some (VDict request_payload) |} with
      | Http.StreamFails e => Gen.raises [] (stream_except B h request_url e)
      | Http.Streams status error_text lines interrupted =>
          if negb (status =? 200)%Z then
            match Errors.new B APIResponseError
                    [("provider_name", provider_name h);
                     ("status_code", VInt status);
                     ("response_body", VDict [("error", VStr error_text)]);
                     ("details",
                      VStr ("Stream chat error: HTTP " ++ fmt B (VInt status)))] with
            | Ok e | Raise e => Gen.raises [] (stream_except B h request_url e)
            end
          else
            let '(chunks, stopped) := read_lines B lines in
            if stopped then Gen.returns chunks
            else
              match interrupted with
              | Some e => Gen.raises chunks (stream_except B h request_url e)
              | None => Gen.returns chunks
              end
      end
  end.

(** [SiliconFlowHandler.stream_chat] *)
Definition stream_chat (B : builtins) (R : runtime Class) (w : world)
    (st : state Class) (h : handler) (exchange : Http.request -> Http.stream)
    (messages : list Gen.message) (model : value) (kwargs : list (string * value))
  : streamed :=
  match py_or model (py_or (default_model h) (VStr "")) with
  | VStr s =>
      let target_model := Py.strip s in
      if negb (Py.nonempty target_model) then
        {| generated :=
             Gen.returns
               [Gen.error_chunk
                  (VStr ("No model specified and no default_model configured for "
                         ++ fmt B (provider_name h) ++ " streaming."))];
           logged := []; state_after := st |}
      else
        let '(params, logs, st) := final_api_params B R w st h kwargs in
        let request_payload := build_payload target_model messages params in
        if negb (truthy (endpoint h)) then
          {| generated :=
               Gen.returns
                 [Gen.error_chunk (VStr "SiliconFlow Endpoint is not configured.")];
             logged := logs; state_after := st |}
        else
          {| generated :=
               exchange_stream B h exchange
                 (fmt B (endpoint h) ++ "/chat/completions") request_payload;
             logged := logs; state_after := st |}
  | v =>
      {| generated := Gen.raises [] (Dyn.attribute_error v "strip");
         logged := []; state_after := st |}
  end.

(** [stream_chat] left after [taken] items.  Its [except] clauses name
    [asyncio.TimeoutError], [aiohttp.ClientError] and [Exception], none
    of which [GeneratorExit] derives from, and its [finally] clause
    only logs: every [yield] unwinds. *)
Definition abandoned (B : builtins) (R : runtime Class) (w : world)
    (st : state Class) (h : handler) (exchange : Http.request -> Http.stream)
    (messages : list Gen.message) (model : value) (kwargs : list (string * value))
    (taken : nat) : Gen.run :=
  let r := generated (stream_chat B R w st h exchange messages model kwargs) in
  Gen.closed r (map (fun _ => Gen.Unwinds) (Gen.yielded r)) taken.

End WithClasses.
End SiliconFlow.

(* ===================================================================== *)
(** ** src/providers/handlers/ollama_local.py                             *)
(* ===================================================================== *)

Module Ollama.

Record handler : Type := {
  provider_name : value;
  endpoint : value;
  default_model : value;
  default_api_params : list (string * value);
  request_timeout : value
}.

(** One of the three overrides read from [os.environ] in [__init__]. *)
Definition env_override (environ : gmap string string) (name : string)
    (parse : string -> option value) (current : value) : value :=
  match environ !! name with
  | Some s =>
      if Py.nonempty s then
        match parse s with Some v => v | None => current end
      else current
  | None => current
  end.

(** [OllamaLocalHandler.__init__] *)
Definition __init__ (B : builtins) (environ : gmap string string)
    (cfg : gmap string value) : result handler :=
  let endpoint := py_or (Dyn.cfg_get cfg "endpoint" (VStr ""))
                        (VStr "http://localhost:11434") in
  let* endpoint :=
    match endpoint with
    | VStr s => Ok (VStr (if Py.endswith_char "/" s then Py.rstrip_char "/" s else s))
    | v => Raise (Dyn.attribute_error v "endswith")
    end in
  Ok {| provider_name := Dyn.cfg_get cfg "provider_name" (VStr "ollama_local");
        endpoint := endpoint;
        default_model := Dyn.cfg_get cfg "default_model" (VStr "deepseek-r1:8b");
        default_api_params :=
          [("temperature",
            env_override environ "OLLAMA_TEMPERATURE"
              (fun s => VFloat <$> py_float B s) (VFloat 0.7%float));
           ("top_p",
            env_override environ "OLLAMA_TOP_P"
              (fun s => VFloat <$> py_float B s) (VFloat 1.0%float));
           ("max_tokens",
            env_override environ "OLLAMA_MAX_TOKENS"
              (fun s => VInt <$> py_int B s) (VInt 16000))];
        request_timeout := Dyn.cfg_get cfg "request_timeout" (VInt 60) |}.

(** [{"done": True}] *)
Definition done_marker : value := VDict [("done", VBool true)].

(** [_filter_messages] on uniform messages. *)
Definition _filter_messages (messages : list Gen.message) : list value :=
  omap
    (fun m =>
       let role := Py.lower (Gen.role m) in
       if existsb (String.eqb role) ["system"; "user"; "assistant"] then
         Some (VDict [("role", VStr role); ("content", VStr (Gen.content m))])
       else None)
    messages.

Definition is_nonempty_str (v : value) : bool :=
  match v with VStr s => Py.nonempty s | _ => false end.

(** The body of the loop of [stream_chat] for one non-blank line: the
    items it yields, or the exception that escapes it. *)
Definition read_line (B : builtins) (line_str : string) : result (list value) :=
  match json_loads B line_str with
  | None => Ok [Gen.delta "content" (VStr line_str)]
  | Some data =>
      let* has_error := Dyn.contains "error" data in
      if has_error then
        let* e := Dyn.getitem data "error" in
        Ok [Gen.error_chunk e]
      else
        let* has_message := Dyn.contains "message" data in
        let* has_content :=
          (if has_message then
             let* message := Dyn.getitem data "message" in
             Dyn.contains "content" message
           else Ok false) in
        if has_content then
          let* message := Dyn.getitem data "message" in
          let* c := Dyn.getitem message "content" in
          Ok [Gen.delta "content" c]
        else
          let* has_done := Dyn.contains "done" data in
          let* finished :=
            (if has_done then
               let* d := Dyn.getitem data "done" in
               Ok (truthy d)
             else Ok false) in
          if finished then Ok [done_marker]
          else
            match data with
            | VDict entries =>
                if existsb (fun kv => truthy (snd kv)) entries then
                  match List.find (fun kv => is_nonempty_str (snd kv)) entries with
                  | Some kv => Ok [Gen.delta "content" (snd kv)]
                  | None => Ok []
                  end
                else Ok []
            | _ => Ok []
            end
  end.

(** The loop over the lines of the response: the items yielded and the
    exception that left the loop, if any. *)
Fixpoint read_lines (B : builtins) (lines : list string)
  : list value * option exn :=
  match lines with
  | [] => ([], None)
  | line :: rest =>
      if negb (Py.nonempty line) then read_lines B rest
      else
        let line_str := Py.strip line in
        if negb (Py.nonempty line_str) then read_lines B rest
        else
          match read_line B line_str with
          | Raise e => ([], Some e)
          | Ok items =>
              let '(more, e) := read_lines B rest in
              ((items ++ more)%list, e)
          end
  end.

(** The body of the [try] statement of [stream_chat]. *)
Definition stream_body (B : builtins) (exchange : Http.request -> Http.stream)
    (api_url : string) (payload : list (string * value))
  : list value * option exn :=
  let first := Gen.delta "role" (VStr "assistant") in
  match exchange {| Http.req_method := "POST"; Http.req_url := api_url;
                    Http.req_headers := [];
                    Http.req_json := Some (VDict payload) |} with
  | Http.StreamFails e => ([first], Some e)
  | Http.Streams status error_text lines interrupted =>
      if negb (status =? 200)%Z then
        ([first;
          Gen.error_chunk (VStr ("Ollama API错误: HTTP " ++ fmt B (VInt status)))],
         None)
      else
        let '(items, e) := read_lines B lines in
        (first :: items,
         match e with
         | Some e => Some e
         | None => interrupted
         end)
  end.

(** [try: ... except aiohttp.ClientError: yield error
    finally: yield {"done": True}] *)
Definition guarded (body : list value * option exn) : Gen.run :=
  let '(items, e) := body in
  match e with
  | None => Gen.returns (items ++ [done_marker])%list
  | Some e =>
      if isinstance e ClientError then
        Gen.returns
          (items ++ [Gen.error_chunk (VStr ("Ollama API连接错误: " ++ exn_str e));
                     done_marker])%list
      else Gen.raises (items ++ [done_marker])%list e
  end.

(** What [GeneratorExit] meets at the [yield] of each item of [guarded
    body]: the [yield]s of the [try] body and the one of the [except]
    clause lie inside the [try] statement, whose [finally] clause yields
    the marker again; at the [yield] of the [finally] clause itself
    nothing is left to run. *)
Definition guarded_exits (body : list value * option exn) : list Gen.at_exit :=
  let '(items, e) := body in
  let inside :=
    match e with
    | None => items
    | Some e =>
        if isinstance e ClientError then
          (items ++ [Gen.error_chunk (VStr ("Ollama API连接错误: " ++ exn_str e))])%list
        else items
    end in
  (map (fun _ => Gen.YieldsAgain) inside ++ [Gen.Unwinds])%list.

(** [kwargs.get(name, self.default_api_params.get(name, fallback))] *)
Definition param (h : handler) (kwargs : list (string * value)) (name : string)
    (fallback : value) : value :=
  default (default fallback (dict_get name (default_api_params h)))
          (dict_get name kwargs).

(** [OllamaLocalHandler.stream_chat] *)
Definition stream_chat (B : builtins) (h : handler)
    (exchange : Http.request -> Http.stream)
    (messages : list Gen.message) (model : value) (kwargs : list (string * value))
  : Gen.run :=
  match py_or model (py_or (default_model h) (VStr "")) with
  | VStr s =>
      let target_model := Py.strip s in
      if negb (Py.nonempty target_model) then
        match Errors.new B ConfigurationError
                [("message",
                  VStr ("No model specified and no default_model configured for "
                        ++ fmt B (provider_name h) ++ "."))] with
        | Ok e | Raise e => Gen.raises [] e
        end
      else
        let payload :=
          [("model", VStr target_model);
           ("messages", VList (_filter_messages messages));
           ("stream", VBool true);
           ("options",
            VDict [("temperature", param h kwargs "temperature" (VFloat 0.7%float));
                   ("max_tokens", param h kwargs "max_tokens" (VInt 16000))])] in
        guarded (stream_body B exchange (fmt B (endpoint h) ++ "/api/chat") payload)
  | v => Gen.raises [] (Dyn.attribute_error v "strip")
  end.

(** The [yield]s of [stream_chat]: none before the [try] statement. *)
Definition stream_chat_exits (B : builtins) (h : handler)
    (exchange : Http.request -> Http.stream)
    (messages : list Gen.message) (model : value) (kwargs : list (string * value))
  : list Gen.at_exit :=
  match py_or model (py_or (default_model h) (VStr "")) with
  | VStr s =>
      let target_model := Py.strip s in
      if negb (Py.nonempty target_model) then []
      else
        let payload :=
          [("model", VStr target_model);
           ("messages", VList (_filter_messages messages));
           ("stream", VBool true);
           ("options",
            VDict [("temperature", param h kwargs "temperature" (VFloat 0.7%float));
                   ("max_tokens", param h kwargs "max_tokens" (VInt 16000))])] in
        guarded_exits (stream_body B exchange (fmt B (endpoint h) ++ "/api/chat") payload)
  | _ => []
  end.

(** [stream_chat] left after [taken] items. *)
Definition abandoned (B : builtins) (h : handler)
    (exchange : Http.request -> Http.stream)
    (messages : list Gen.message) (model : value) (kwargs : list (string * value))
    (taken : nat) : Gen.run :=
  Gen.closed (stream_chat B h exchange messages model kwargs)
             (stream_chat_exits B h exchange messages model kwargs) taken.

End Ollama.

(* ===================================================================== *)
(** ** src/providers/handlers/ollama_report_handler.py                    *)
(* ===================================================================== *)

Module OllamaReport.

(** The pattern [<think>.*?</think>\s*] with [re.DOTALL]. *)

(** The number of characters of [s] up to the end of the first
    [</think>]. *)
Fixpoint close_end (s : string) : option nat :=
  if String.prefix "</think>" s then Some 8
  else
    match s with
    | EmptyString => None
    | String _ s' => S <$> close_end s'
    end.

(** The number of whitespace characters [s] starts with. *)
Fixpoint count_space (s : string) : nat :=
  match s with
  | EmptyString => 0
  | String c s' => if Py.is_space c then S (count_space s') else 0
  end.

(** The length of the match of the pattern at the start of [s]. *)
Definition match_length (s : string) : option nat :=
  if String.prefix "<think>" s then
    match close_end (Py.drop 7 s) with
    | Some n => Some (7 + n + count_space (Py.drop (7 + n) s))
    | None => None
    end
  else None.

(** [re.sub(pattern, "", s)]: scanning from the left, a match is dropped
    ([skip] counts the characters of it still to drop) and any other
    character is kept. *)
Fixpoint re_sub (skip : nat) (s : string) : string :=
  match s with
  | EmptyString => EmptyString
  | String c rest =>
      match skip with
      | S k => re_sub k rest
      | O =>
          match match_length s with
          | Some n => re_sub (n - 1) rest
          | None => String c (re_sub 0 rest)
          end
      end
  end.

(** [OllamaReportHandler._remove_think_tags] on a string. *)
Definition _remove_think_tags (text : string) : string :=
  if negb (Py.nonempty text) then ""
  else Py.strip (re_sub 0 text).

(** Vocabulary for statements about texts with closed blocks: the text
    in which each [(before, inside)] of [blocks] stands for [before], an
    opening tag, [inside] and a closing tag, followed by [rest]; and the
    text left when every block goes, together with the whitespace behind
    it. *)
Fixpoint with_blocks (blocks : list (string * string)) (rest : string) : string :=
  match blocks with
  | [] => rest
  | (before, inside) :: blocks =>
      before ++ "<think>" ++ inside ++ "</think>" ++ with_blocks blocks rest
  end.


(** [_remove_think_tags] on whatever [msg_obj.get('content', '')] is. *)
Definition clean (raw_content : value) : result string :=
  if negb (truthy raw_content) then Ok ""
  else
    match raw_content with
    | VStr s => Ok (_remove_think_tags s)
    | _ => Raise Dyn.ill_typed
    end.

(** [d.get(k, fallback)] *)
Definition get (entries : list (string * value)) (k : string) (fallback : value)
  : value :=
  default fallback (dict_get k entries).

(** The timestamp of the response. *)
Definition created (B : builtins) (now : Z) (created_at : value) : result Z :=
  if negb (truthy created_at) then Ok now
  else
    match created_at with
    | VStr s =>
        let iso :=
          if Py.endswith_char "Z" s
          then String.substring 0 (String.length s - 1) s ++ "+00:00"
          else s in
        Ok (default now (iso_timestamp B iso))
    | v => Raise (Dyn.attribute_error v "endswith")
    end.

Definition format_error (B : builtins) (provider_name : value) (text : string)
    (response : value) : result value :=
  Errors.raise_new B APIResponseFormatError
    [("message", VStr text);
     ("provider_name", provider_name);
     ("response_body", response)].

(** The body of the [try] statement of [chat], from the response of
    [_make_request] on. *)
Definition read_response (B : builtins) (provider_name : value)
    (selected_model : value) (now now_ms : Z) (ollama_response : value)
  : result value :=
  match ollama_response with
  | VDict (e :: es) =>
      let resp := e :: es in
      match dict_get "message" resp with
      | Some (VDict msg_obj) =>
          let raw_content := get msg_obj "content" (VStr "") in
          let role := get msg_obj "role" (VStr "assistant") in
          let* cleaned_content := clean raw_content in
          let* created_ts := created B now (get resp "created_at" VNone) in
          let prompt_tokens := get resp "prompt_eval_count" (VInt 0) in
          let completion_tokens := get resp "eval_count" (VInt 0) in
          let* total_tokens :=
            match py_add B prompt_tokens completion_tokens with
            | Some v => Ok v
            | None => Raise Dyn.ill_typed
            end in
          Ok (VDict
                [("id",
                  get resp "id"
                      (VStr ("ollama-report-" ++ fmt B selected_model ++ "-"
                             ++ fmt B (VInt now_ms))));
                 ("object", VStr "chat.completion");
                 ("created", VInt created_ts);
                 ("model", get resp "model" selected_model);
                 ("choices",
                  VList
                    [VDict
                       [("index", VInt 0);
                        ("message",
                         VDict [("role", role); ("content", VStr cleaned_content)]);
                        ("finish_reason",
                         VStr (if truthy (get resp "done" (VBool true))
                               then "stop" else "length"))]]);
                 ("usage",
                  VDict [("prompt_tokens", prompt_tokens);
                         ("completion_tokens", completion_tokens);
                         ("total_tokens", total_tokens)])])
      | _ =>
          format_error B provider_name
            "Ollama response format did not contain the expected 'message' object."
            ollama_response
      end
  | _ =>
      format_error B provider_name "Ollama response was empty or not a dictionary."
        ollama_response
  end.

(** [OllamaReportHandler.chat], from the outcome [made] of
    [super()._make_request("/api/chat", payload)] on.  [now] and [now_ms]
    are [int(time.time())] and [int(time.time() * 1000)]. *)
Definition chat (B : builtins) (h : Ollama.handler) (model : value)
    (now now_ms : Z) (made : result value) : result value :=
  let selected_model := py_or model (Ollama.default_model h) in
  match (let* ollama_response := made in
         read_response B (Ollama.provider_name h) selected_model now now_ms
           ollama_response) with
  | Ok response_data => Ok response_data
  | Raise e =>
      if isinstance e APIError then Raise e
      else
        Errors.raise_new B APIError
          [("message", VStr ("Ollama Report Handler chat failed: " ++ exn_str e));
           ("provider_name", Ollama.provider_name h);
           ("details", VStr (exn_str e))]
  end.


End OllamaReport.

(* ===================================================================== *)
(** ** src/providers/factory.py: the other public functions               *)
(* ===================================================================== *)

Module FactoryApi.
Import Factory.

Section WithClasses.
Context {Class : Type}.

(** [get_handler_classes]: a copy of the dictionary the module global
    [_handlers] names. *)
Definition get_handler_classes (R : runtime Class) (w : world) (st : state Class)
  : gmap string Class * state Class :=
  let st := if initialized st then st else initialize_handlers R w st in
  (handlers (globals st), st).

Definition no_registered_class_error (std provider : string) : exn :=
  {| exn_cls := ValueError_;
     exn_str := "提供商 " ++ std ++ " (输入: '" ++ provider ++ "') 没有注册处理器类";
     exn_attrs := [] |}.

(** [get_handler_for_provider]: the name is resolved by the class
    method, the class is looked up in the module global. *)
Definition get_handler_for_provider (R : runtime Class) (w : world)
    (st : state Class) (provider : string) : result Class * state Class :=
  let st := if initialized st then st else initialize_handlers R w st in
  match standardize_provider_name R w st provider with
  | (Raise e, st) => (Raise e, st)
  | (Ok std, st) =>
      match handlers (globals st) !! std with
      | None => (Raise (no_registered_class_error std provider), st)
      | Some cls => (Ok cls, st)
      end
  end.

(** [get_all_provider_metadata]:
    [list(_provider_metadata_map.values())] *)
Definition get_all_provider_metadata (R : runtime Class) (w : world)
    (st : state Class) : list ProviderMetadata * state Class :=
  let st := if initialized st then st else initialize_handlers R w st in
  (map snd (provider_metadata_map (globals st)), st).

(** The states of the module: the state at import, and every state
    the two initializers lead to.  The other functions of the module
    change the state through these two only. *)
Inductive reachable (R : runtime Class) : state Class -> Prop :=
  | reachable_initial : reachable R initial_state
  | reachable_initialize_handlers w st :
      reachable R st -> reachable R (initialize_handlers R w st)
  | reachable__initialize_factory w st :
      reachable R st -> reachable R (_initialize_factory R w st).

(** A dictionary of metadata is keyed by the standard names of its
    entries, each key once. *)
Definition keyed (metas : list (string * ProviderMetadata)) : Prop :=
  NoDup (map fst metas)
  /\ Forall (fun kv => standard_name (snd kv) = fst kv) metas.

(** The three dictionaries fit together: an alias leads to a registered
    class, the classes and the metadata have the same keys, and every
    entry of the metadata is complete. *)
Definition consistent (r : registry Class) : Prop :=
  (forall a s, provider_aliases r !! a = Some s -> is_Some (handlers r !! s))
  /\ (forall s, is_Some (handlers r !! s)
                <-> is_Some (dict_get s (provider_metadata_map r)))
  /\ keyed (provider_metadata_map r)
  /\ Forall (fun kv => complete (snd kv) = true) (provider_metadata_map r).

(** Nothing is registered. *)
Definition vacant (r : registry Class) : Prop :=
  handlers r = ∅ /\ provider_aliases r = ∅ /\ provider_metadata_map r = [].

(** What holds of the module state at all times: the dictionaries of
    the class attributes fit together; the metadata the module global
    names is keyed by standard name; once the module globals are bound
    to fresh dictionaries, the class attributes are left with the empty
    ones; and [_initialized] is set only with [_project_root]. *)
Definition settled (st : state Class) : Prop :=
  consistent (shared st)
  /\ keyed (provider_metadata_map (globals st))
  /\ (is_Some (rebound st) -> vacant (shared st))
  /\ (initialized st = true -> project_root st = true).

End WithClasses.
End FactoryApi.

(* ===================================================================== *)
(** ** src/utils/error_handler.py                                         *)
(* ===================================================================== *)

Module GlyphMind.

(** [GlyphMindError.__init__(message, code=500, detail=None)], for the
    class itself and for the classes that inherit it; [extra] holds the
    attributes a subclass sets before it calls [super().__init__]. *)
Definition __init__ (c : exn_class) (extra : list (string * value))
    (message : string) (code detail : value) : exn :=
  {| exn_cls := c;
     exn_str := message;
     exn_attrs := (extra ++ [("message", VStr message); ("code", code);
                             ("detail", detail)])%list |}.

(** [GlyphMindError(message, code, detail)]; [ConfigError],
    [ValidationError] and [ProviderError] add nothing to it. *)
Definition new_GlyphMindError (message : string) (code detail : value) : exn :=
  __init__ GlyphMindError [] message code detail.

(** [APIError(message, code=500, detail=None, provider_name="Unknown")] *)
Definition new_APIError (message : string) (code detail provider_name : value)
  : exn :=
  __init__ GlyphMindAPIError [("provider_name", provider_name)] message code detail.

(** What [handle_error] can be handed: an exception of the modelled
    classes, or FastAPI's [HTTPException]. *)
Inductive error : Type :=
  | Exn (e : exn)
  | HTTPException (status_code detail : value).

(** [error.name] on an exception object. *)
Definition attribute (e : exn) (name : string) : result value :=
  match dict_get name (exn_attrs e) with
  | Some v => Ok v
  | None =>
      Raise {| exn_cls := AttributeError_;
               exn_str := "'" ++ class_name (exn_cls e)
                          ++ "' object has no attribute '" ++ name ++ "'";
               exn_attrs := [] |}
  end.

(** The first branch of [handle_error]:
    [{"error": error.message, "detail": error.detail, "code": error.code}] *)
Definition local_response (e : exn) : result value :=
  let* message := attribute e "message" in
  let* detail := attribute e "detail" in
  let* code := attribute e "code" in
  Ok (VDict [("error", message); ("detail", detail); ("code", code)]).

(** [handle_error].  The two recursive calls are on a freshly built
    [ConfigError] and [APIError], which the first branch answers. *)
Definition handle_error (err : error) : result value :=
  match err with
  | Exn e =>
      if isinstance e GlyphMindError then local_response e
      else if isinstance e BaseText2AlpacaError then
        if isinstance e ConfigurationError then
          local_response (new_GlyphMindError (exn_str e) (VInt 400) VNone)
        else if isinstance e APIError then
          local_response
            (new_APIError (exn_str e) (VInt 502) VNone
               (default (VStr "Unknown") (dict_get "provider_name" (exn_attrs e))))
        else Ok (VDict [("error", VStr (exn_str e)); ("code", VInt 500)])
      else
        Ok (VDict [("error", VStr "Internal server error");
                   ("detail", VStr (exn_str e));
                   ("code", VInt 500)])
  | HTTPException status_code detail =>
      Ok (VDict [("error", detail); ("code", status_code)])
  end.

End GlyphMind.

(* ===================================================================== *)
(** ** src/utils/retry.py: the [retry] decorator                          *)
(* ===================================================================== *)

Module RetryUtil.

(** The arguments of [retry(...)] that decide control flow; the
    [logger] only logs. *)
Record decorator : Type := {
  exceptions : list exn_class;
  max_attempts : Z;
  delay : float;
  backoff : float
}.

(** [except exceptions as e] *)
Definition caught (d : decorator) (e : exn) : bool :=
  existsb (isinstance e) (exceptions d).

(** [APIError(message=f"Operation failed after {max_attempts} attempts",
              detail=str(e), code=500)] *)
Definition failed_error (B : builtins) (d : decorator) (e : exn) : exn :=
  GlyphMind.new_APIError
    ("Operation failed after " ++ fmt B (VInt (max_attempts d)) ++ " attempts")
    (VInt 500) (VStr (exn_str e)) (VStr "Unknown").

(** [APIError(message="Operation failed after maximum retry attempts",
              code=500)] *)
Definition exhausted_error : exn :=
  GlyphMind.new_APIError "Operation failed after maximum retry attempts"
    (VInt 500) VNone (VStr "Unknown").

(** What a call of the decorated function leaves behind: its outcome,
    the number of calls of the wrapped function, and the delays it slept. *)
Record run : Type := {
  returned : result value;
  calls : nat;
  slept : list float
}.

(** The loop [for attempt in range(max_attempts)], from iteration
    [attempt] with [remaining] iterations to go.  [func] gives the
    outcome of each call of the wrapped function; [sleep] is
    [time.sleep], which raises on some arguments. *)
Fixpoint attempts (B : builtins) (d : decorator) (sleep : float -> option exn)
    (func : nat -> result value) (remaining attempt : nat) (current_delay : float)
  : run :=
  match remaining with
  | O => {| returned := Raise exhausted_error; calls := attempt; slept := [] |}
  | S remaining' =>
      match func attempt with
      | Ok v => {| returned := Ok v; calls := S attempt; slept := [] |}
      | Raise e =>
          if caught d e then
            if (Z.of_nat attempt =? max_attempts d - 1)%Z then
              {| returned := Raise (failed_error B d e); calls := S attempt;
                 slept := [] |}
            else
              match sleep current_delay with
              | Some e' =>
                  {| returned := Raise e'; calls := S attempt; slept := [] |}
              | None =>
                  let r := attempts B d sleep func remaining' (S attempt)
                             (current_delay * backoff d)%float in
                  {| returned := returned r; calls := calls r;
                     slept := current_delay :: slept r |}
              end
          else {| returned := Raise e; calls := S attempt; slept := [] |}
      end
  end.

(** The decorated function. *)
Definition wrapper (B : builtins) (d : decorator) (sleep : float -> option exn)
    (func : nat -> result value) : run :=
  attempts B d sleep func (Z.to_nat (max_attempts d)) 0 (delay d).

(** Whether an outcome of the wrapped function ends the loop: a value,
    or an exception the decorator does not catch. *)
Definition decisive (d : decorator) (r : result value) : bool :=
  match r with
  | Ok _ => true
  | Raise e => negb (caught d e)
  end.

(** The first [n] delays of an exponential backoff. *)
Fixpoint schedule (delay backoff : float) (n : nat) : list float :=
  match n with
  | O => []
  | S n' => delay :: schedule (delay * backoff)%float backoff n'
  end.

End RetryUtil.

(* ===================================================================== *)
(** ** src/api/routes/chat.py: the streaming branch of [handle_chat]      *)
(* ===================================================================== *)

Module ChatRoute.

(** The body of a chat request.  An optional field that the request
    leaves out is [None]. *)
Record ChatRequest : Type := {
  provider : string;
  model : string;
  messages : list Gen.message;
  stream : bool;
  temperature : value;
  max_tokens : value;
  top_p : value;
  stop : value
}.

(** The keyword arguments [handle_chat] calls [handler.stream_chat]
    with, besides [messages] and [model]: all four, given or not. *)
Definition stream_chat_kwargs (request : ChatRequest) : list (string * value) :=
  [("temperature", temperature request);
   ("max_tokens", max_tokens request);
   ("top_p", top_p request);
   ("stop", stop request)].

Definition nl : string := String (ascii_of_nat 10) EmptyString.

(** [f"data: {json.dumps(v, ensure_ascii=False)}\n\n"]; [dumps] is
    [json.dumps]. *)
Definition sse (dumps : value -> string) (v : value) : string :=
  "data: " ++ dumps v ++ nl ++ nl.

Definition done_event : string := "data: [DONE]" ++ nl ++ nl.

(** The statement that accumulates the content of a chunk,
    [chunk.get('choices', [{}])[0].get('delta', {}).get('content', '')]
    and [+=], inside [try ... except (IndexError, AttributeError,
    TypeError)]: the exception that escapes it, if any.  Only the
    [KeyError] of indexing a dictionary with [0] is not caught. *)
Definition content_delta_escapes (chunk : value) : option exn :=
  match chunk with
  | VDict entries =>
      match default (VList [VDict []]) (dict_get "choices" entries) with
      | VDict _ => Some {| exn_cls := KeyError_; exn_str := "0"; exn_attrs := [] |}
      | _ => None
      end
  | _ => None
  end.

(** The [error_response] of the two [except] clauses: the first one is
    for the [APIError] of src/utils/error_handler.py. *)
Definition error_response (e : exn) : value :=
  if isinstance e GlyphMindAPIError then
    VDict [("error",
            VDict [("message",
                    default (VStr (exn_str e)) (dict_get "message" (exn_attrs e)));
                   ("detail", default (VStr "") (dict_get "details" (exn_attrs e)));
                   ("provider",
                    default (VStr "Unknown Provider")
                            (dict_get "provider_name" (exn_attrs e)));
                   ("type", VStr (class_name (exn_cls e)))])]
  else
    VDict [("error",
            VDict [("message", VStr (exn_str e));
                   ("type", VStr (class_name (exn_cls e)))])].

(** The loop over the chunks of the handler and the [except] clauses:
    the events sent before the [finally] clause. *)
Fixpoint forward (dumps : value -> string) (chunks : list value)
    (raised : option exn) : list string :=
  match chunks with
  | [] =>
      match raised with
      | Some e => [sse dumps (error_response e)]
      | None => []
      end
  | chunk :: rest =>
      match content_delta_escapes chunk with
      | Some e => [sse dumps (error_response e)]
      | None => sse dumps chunk :: forward dumps rest raised
      end
  end.

(** [event_generator] of [handle_chat], iterated to its end.
    [stream_chat] is the method of the handler [factory.get_handler]
    returned, [None] when it returned [None]. *)
Definition event_generator (dumps : value -> string)
    (stream_chat :
       option (list Gen.message -> value -> list (string * value) -> Gen.run))
    (request : ChatRequest) : list string :=
  match stream_chat with
  | None =>
      [sse dumps (error_response (Dyn.attribute_error VNone "stream_chat"));
       done_event]
  | Some stream_chat =>
      let r := stream_chat (messages request) (VStr (model request))
                 (stream_chat_kwargs request) in
      (forward dumps (Gen.yielded r) (Gen.raised r) ++ [done_event])%list
  end.

End ChatRoute.

(* ===================================================================== *)
(** ** More of Python's strings                                           *)
(* ===================================================================== *)

Module PyStr.

(** [s.replace(old, new)] for a non-empty [old]: scanning from the left,
    an occurrence is replaced ([skip] counts the characters of it still
    to drop) and any other character is kept. *)
Fixpoint replace_from (old new : string) (skip : nat) (s : string) : string :=
  match s with
  | EmptyString => EmptyString
  | String c rest =>
      match skip with
      | S k => replace_from old new k rest
      | O =>
          if String.prefix old s
          then new ++ replace_from old new (String.length old - 1) rest
          else String c (replace_from old new 0 rest)
      end
  end.

Definition replace (old new s : string) : string := replace_from old new 0 s.

(** [s.endswith(suffix)] *)
Definition endswith (s suffix : string) : bool :=
  (String.length suffix <=? String.length s)%nat
  && String.eqb (Py.drop (String.length s - String.length suffix) s) suffix.

(** ["".join(parts)] *)
Definition join (parts : list string) : string :=
  fold_right String.append EmptyString parts.

End PyStr.

(* ===================================================================== *)
(** ** src/providers/handlers/deepseek_ai.py: the list of models          *)
(* ===================================================================== *)

Module DeepseekModels.

(** Iterating over a value: the items of a list, the keys of a
    dictionary, the characters of a string. *)
Definition iter (v : value) : result (list value) :=
  match v with
  | VList items => Ok items
  | VDict entries => Ok (map (fun kv => VStr (fst kv)) entries)
  | VStr s => Ok (map (fun c => VStr (String c EmptyString)) (list_ascii_of_string s))
  | _ => Raise Dyn.ill_typed
  end.

(** The URL [get_available_models] asks: the endpoint without "/v1" and
    trailing slashes when that ends in the host of DeepSeek, else the
    official address. *)
Definition models_list_endpoint (h : Deepseek.handler) : result string :=
  match Deepseek.endpoint h with
  | VStr s =>
      let base := Py.rstrip_char "/" (PyStr.replace "/v1" "" s) in
      Ok ((if PyStr.endswith base "api.deepseek.com" then base
           else "https://api.deepseek.com") ++ "/v1/models")
  | v => Raise (Dyn.attribute_error v "replace")
  end.

(** [[str(model['id']) for model in data.get('data', []) if 'id' in model]] *)
Fixpoint model_ids (B : builtins) (models : list value) : result (list value) :=
  match models with
  | [] => Ok []
  | model :: rest =>
      let* has_id := Dyn.contains "id" model in
      if has_id then
        let* id := Dyn.getitem model "id" in
        let* ids := model_ids B rest in
        Ok (VStr (fmt B id) :: ids)
      else model_ids B rest
  end.

Definition parse_models (B : builtins) (data : value) : result (list value) :=
  match data with
  | VDict entries =>
      let* models := iter (default (VList []) (dict_get "data" entries)) in
      model_ids B models
  | v => Raise (Dyn.attribute_error v "get")
  end.

(** The [JSONDecodeError] of [json.loads]; its text is not modelled. *)
Definition json_decode_error : exn :=
  {| exn_cls := JSONDecodeError_; exn_str := ""; exn_attrs := [] |}.

(** [DeepseekAIHandler.get_available_models] *)
Definition get_available_models (B : builtins) (h : Deepseek.handler)
    (transport : Http.request -> Http.outcome) : result (list value) :=
  let* models_list_endpoint := models_list_endpoint h in
  let body : result (list value) :=
    let* headers := Deepseek._get_headers B h in
    match transport {| Http.req_method := "GET";
                       Http.req_url := models_list_endpoint;
                       Http.req_headers := headers;
                       Http.req_json := None |} with
    | Http.Fails e => Raise e
    | Http.Responds status text =>
        if negb (status =? 200)%Z then
          Errors.raise_new B APIResponseError
            [("provider_name", Deepseek.provider_name h);
             ("status_code", VInt status);
             ("response_body", VDict [("error", VStr text)]);
             ("details",
              VStr ("Failed to fetch models: HTTP " ++ fmt B (VInt status)))]
        else
          match json_loads B text with
          | None => Raise json_decode_error
          | Some data => parse_models B data
          end
    end in
  match body with
  | Ok models => Ok models
  | Raise e =>
      if isinstance e ClientConnectorError then
        Errors.raise_new B APIConnectionError
          [("message", VStr ("Connection error: " ++ exn_str e));
           ("detail", VStr (exn_str e));
           ("provider", Deepseek.provider_name h)]
      else if isinstance e TimeoutError_ then
        Errors.raise_new B APITimeoutError
          [("message", VStr "Timeout fetching models");
           ("timeout_value", VInt 10);
           ("provider", Deepseek.provider_name h)]
      else if isinstance e JSONDecodeError_ then
        Errors.raise_new B APIResponseFormatError
          [("message", VStr "Invalid JSON response from models endpoint");
           ("response_body", VDict [("error", VStr (exn_str e))]);
           ("provider", Deepseek.provider_name h)]
      else if isinstance e APIError then Raise e
      else Ok []
  end.


End DeepseekModels.

(* ===================================================================== *)
(** ** src/providers/handlers/deepseek_ai.py: the errors of a request     *)
(* ===================================================================== *)

Module DeepseekErrors.

(** What [generate_text] makes of an exception that is neither an
    [APIError] nor a [RetryError]. *)
Definition unexpected (B : builtins) (h : Deepseek.handler) (e : exn) : exn :=
  Errors.init_body B APIError
    [("provider_name", Deepseek.provider_name h);
     ("message", VStr ("Unexpected internal error: " ++ exn_str e));
     ("details", VStr (exn_str e))].

(** The error of [_get_headers] for a handler without API key. *)
Definition missing_key_error (B : builtins) : exn :=
  Errors.init_body B ConfigurationError
    [("message",
      VStr "API key (DEEPSEEK_API_KEY) is missing for DeepseekAIHandler headers.")].

(** The error of [_make_request] for an answer with a status other
    than 200. *)
Definition status_error (B : builtins) (h : Deepseek.handler) (status : Z)
    (text : string) : exn :=
  Errors.init_body B APIResponseError
    [("provider_name", Deepseek.provider_name h);
     ("status_code", VInt status);
     ("response_body",
      match json_loads B text with
      | Some j => j
      | None => VDict [("error", VStr text)]
      end);
     ("details", VStr ("HTTP " ++ fmt B (VInt status)))].

(** The error of [_make_request] for a request that timed out. *)
Definition timeout_error (B : builtins) (h : Deepseek.handler) : exn :=
  Errors.init_body B APITimeoutError
    [("message",
      VStr ("Request timed out after " ++ fmt B (Deepseek.request_timeout h) ++ "s"));
     ("timeout_value", Deepseek.request_timeout h);
     ("provider", Deepseek.provider_name h)].

End DeepseekErrors.

(* ===================================================================== *)
(** ** src/config/api_manager.py and [BaseAPIHandler.check_status]        *)
(* ===================================================================== *)

Module ApiManager.
Import Factory.

(** The variable a provider needs: its endpoint for "ollama_local",
    its API key for any other. *)
Definition required_var (standard_name prefix : string) : string :=
  prefix ++ (if String.eqb standard_name "ollama_local" then "ENDPOINT"
             else "API_KEY").

Section WithClasses.
Context {Class : Type}.

(** [APIManager.is_provider_configured].  [env_values] is what
    [dotenv_values(self.env_file_path)] reads at the call. *)
Definition is_provider_configured (B : builtins) (R : runtime Class) (w : world)
    (st : state Class) (env_values : gmap string (option string))
    (provider_name : value) : (bool * string) * state Class :=
  match provider_name with
  | VStr name =>
      match standardize_provider_name R w st name with
      | (Raise e, st) =>
          ((false, "检查提供商 '" ++ name ++ "' 配置时出错: " ++ exn_str e), st)
      | (Ok standard_name, st) =>
          match get_provider_metadata R w st standard_name with
          | (None, st) =>
              ((false, "找不到提供商 '" ++ name ++ "' 的元数据。"), st)
          | (Some metadata, st) =>
              let env_prefix := env_prefix metadata in
              if negb (Py.nonempty env_prefix) then
                ((false, "提供商 '" ++ name ++ "' 的元数据中缺少 env_prefix。"), st)
              else if bool_decide (env_values = ∅) then
                ((false, "未找到或无法读取 .env 文件。"), st)
              else
                let var := required_var standard_name env_prefix in
                match env_values !! var with
                | None =>
                    ((false, "提供商 '" ++ standard_name
                             ++ "' 未配置，缺少环境变量: " ++ var ++ "。"), st)
                | Some v =>
                    if Py.nonempty (default EmptyString v) then
                      ((true, "提供商 '" ++ standard_name ++ "' 已配置。"), st)
                    else
                      ((false, "提供商 '" ++ standard_name
                               ++ "' 配置不完整，环境变量值为空: " ++ var ++ "。"), st)
                end
          end
      end
  | other =>
      if truthy other then
        ((false, "检查配置时发生内部错误: '" ++ Dyn.type_name other
                 ++ "' object has no attribute 'lower'"), st)
      else
        ((false, "检查提供商 '" ++ fmt B other ++ "' 配置时出错: "
                 ++ exn_str (@empty_provider_error)), st)
  end.

End WithClasses.

(** [BaseAPIHandler.check_status], from the answer [configured] of
    [is_provider_configured] and the outcome [models] of
    [self.get_available_models()], which is called only for a configured
    provider. *)
Definition check_status (configured : bool * string) (models : result (list value))
  : value :=
  let status := [("is_configured", VBool (fst configured));
                 ("status_message", VStr (snd configured))] in
  VDict
    (status ++
     if fst configured then
       match models with
       | Ok (m :: ms) =>
           [("models_available", VInt (Z.of_nat (length (m :: ms))));
            ("models_list", VList (firstn 5 (m :: ms)));
            ("connection_test", VStr "success")]
       | Ok [] =>
           [("models_available", VInt 0);
            ("connection_test", VStr "warning");
            ("connection_warning", VStr "获取模型列表成功，但模型列表为空")]
       | Raise e =>
           [("connection_test", VStr "error");
            ("connection_error", VStr (exn_str e))]
       end
     else [])%list.

End ApiManager.

(* ===================================================================== *)
(** ** src/providers/handlers/ollama_local.py: the calls without stream   *)
(* ===================================================================== *)

(** [generate_text], [chat] and [get_available_models] of
    [OllamaLocalHandler].  The decorated [_make_request] is a parameter:
    [request endpoint payload] is what the call returns or raises. *)
Module OllamaText.

Definition valid_options : list string :=
  ["num_keep"; "seed"; "num_predict"; "top_k"; "top_p";
   "tfs_z"; "typical_p"; "repeat_last_n"; "temperature";
   "repeat_penalty"; "presence_penalty"; "frequency_penalty";
   "mirostat"; "mirostat_tau"; "mirostat_eta"; "penalize_newline";
   "stop"; "numa"; "num_ctx"; "num_batch"; "num_gpu"; "main_gpu";
   "low_vram"; "f16_kv"; "vocab_only"; "use_mmap"; "use_mlock";
   "num_thread"].

(** One environment default: the value of [name] in [os.environ], when
    it is set, not empty and parses, is stored under [key]. *)
Definition env_default (environ : gmap string string) (name : string)
    (parse : string -> option value) (key : string)
    (params : list (string * value)) : list (string * value) :=
  match environ !! name with
  | Some s =>
      if Py.nonempty s then
        match parse s with
        | Some v => dict_set key v params
        | None => params
        end
      else params
  | None => params
  end.

(** [final_params]: the defaults of the handler, the two environment
    defaults, then [update(kwargs)]. *)
Definition final_params (B : builtins) (environ : gmap string string)
    (h : Ollama.handler) (kwargs : list (string * value)) : list (string * value) :=
  let params := Ollama.default_api_params h in
  let params :=
    env_default environ "OLLAMA_TEMPERATURE" (fun s => VFloat <$> py_float B s)
      "temperature" params in
  let params :=
    env_default environ "OLLAMA_MAX_TOKENS" (fun s => VInt <$> py_int B s)
      "num_predict" params in
  dict_update params kwargs.

(** The name a parameter is sent under: [max_tokens] becomes
    [num_predict] when [final_params] holds no [num_predict]. *)
Definition option_name (final_params : list (string * value)) (param : string)
  : string :=
  if String.eqb param "max_tokens" then
    match dict_get "num_predict" final_params with
    | None => "num_predict"
    | Some _ => param
    end
  else param.

(** The loop that fills [payload["options"]]. *)
Definition options (final_params : list (string * value)) : list (string * value) :=
  fold_left
    (fun opts kv =>
       let param := option_name final_params (fst kv) in
       if existsb (String.eqb param) valid_options && is_not_none (snd kv)
       then dict_set param (snd kv) opts else opts)
    final_params [].

(** [(model or self.default_model or "").strip()] *)
Definition target_model (h : Ollama.handler) (model : value) : result string :=
  match py_or model (py_or (Ollama.default_model h) (VStr "")) with
  | VStr s => Ok (Py.strip s)
  | v => Raise (Dyn.attribute_error v "strip")
  end.

(** What a call leaves behind: its outcome and the payload of the
    request it made, if it made one. *)
Record run (A : Type) : Type := {
  returned : result A;
  payload_sent : option (list (string * value))
}.
Arguments returned {A} _.
Arguments payload_sent {A} _.

(** The statements of [generate_text] after the request. *)
Definition read_generation (B : builtins) (h : Ollama.handler) (answer : value)
  : result string :=
  let* has_response := Dyn.contains "response" answer in
  if has_response then
    let* response := Dyn.getitem answer "response" in
    match response with
    | VStr s => Ok (Py.strip s)
    | v => Raise (Dyn.attribute_error v "strip")
    end
  else
    let* has_error := Dyn.contains "error" answer in
    if has_error then
      let* error_msg := Dyn.getitem answer "error" in
      Errors.raise_new B APIResponseError
        [("provider_name", Ollama.provider_name h); ("details", error_msg)]
    else
      Errors.raise_new B APIResponseError
        [("provider_name", Ollama.provider_name h);
         ("details",
          VStr ("Unknown response format from Ollama. Preview: "
                ++ String.substring 0 200 (fmt B answer) ++ "..."))].

(** [OllamaLocalHandler.generate_text] *)
Definition generate_text (B : builtins) (environ : gmap string string)
    (h : Ollama.handler)
    (request : string -> list (string * value) -> result value)
    (prompt : string) (model : value) (kwargs : list (string * value))
  : run string :=
  match target_model h model with
  | Raise e => {| returned := Raise e; payload_sent := None |}
  | Ok target_model =>
      if negb (Py.nonempty target_model) then
        {| returned :=
             Errors.raise_new B ConfigurationError
               [("message",
                 VStr ("No model specified and no default_model configured for "
                       ++ fmt B (Ollama.provider_name h) ++ "."))];
           payload_sent := None |}
      else
        let request_payload :=
          [("model", VStr target_model);
           ("prompt", VStr prompt);
           ("stream", VBool false);
           ("options", VDict (options (final_params B environ h kwargs)))] in
        {| returned :=
             match (let* answer := request "/api/generate" request_payload in
                    read_generation B h answer) with
             | Ok content => Ok content
             | Raise e =>
                 if isinstance e RetryError then
                   Errors.raise_new B APIConnectionError
                     [("provider_name", Ollama.provider_name h);
                      ("details",
                       VStr ("API request failed after retries: " ++ exn_str e))]
                 else Raise e
             end;
           payload_sent := Some request_payload |}
  end.

(** The message [chat] sends when the filter leaves none. *)
Definition hello : value :=
  VDict [("role", VStr "user"); ("content", VStr "Hello")].

(** The statements of [chat] after the request. *)
Definition read_chat (B : builtins) (h : Ollama.handler) (target_model : string)
    (answer : value) : result value :=
  let* has_message := Dyn.contains "message" answer in
  let* has_content :=
    (if has_message then
       let* message := Dyn.getitem answer "message" in
       Dyn.contains "content" message
     else Ok false) in
  if has_content then
    let* message := Dyn.getitem answer "message" in
    let* content := Dyn.getitem message "content" in
    Ok (VDict [("role", VStr "assistant");
               ("content", content);
               ("model", VStr target_model);
               ("provider", Ollama.provider_name h);
               ("usage", VDict [("prompt_tokens", VInt 0);
                                ("completion_tokens", VInt 0);
                                ("total_tokens", VInt 0)])])
  else
    Errors.raise_new B APIResponseError
      [("provider_name", Ollama.provider_name h);
       ("details", VStr "Unexpected response format")].

(** [OllamaLocalHandler.chat] on uniform messages. *)
Definition chat (B : builtins) (environ : gmap string string)
    (h : Ollama.handler)
    (request : string -> list (string * value) -> result value)
    (messages : list Gen.message) (model : value) (kwargs : list (string * value))
  : run value :=
  match target_model h model with
  | Raise e => {| returned := Raise e; payload_sent := None |}
  | Ok target_model =>
      if negb (Py.nonempty target_model) then
        {| returned :=
             Errors.raise_new B ConfigurationError
               [("message",
                 VStr ("No model specified and no default model configured for "
                       ++ fmt B (Ollama.provider_name h) ++ "."))];
           payload_sent := None |}
      else
        let filtered_messages :=
          match Ollama._filter_messages messages with
          | [] => [hello]
          | filtered => filtered
          end in
        let payload :=
          [("model", VStr target_model);
           ("messages", VList filtered_messages);
           ("stream", VBool false);
           ("options", VDict (options (final_params B environ h kwargs)))] in
        {| returned :=
             match (let* answer := request "/api/chat" payload in
                    read_chat B h target_model answer) with
             | Ok response => Ok response
             | Raise e =>
                 Errors.raise_new B APIConnectionError
                   [("provider_name", Ollama.provider_name h);
                    ("details", VStr (exn_str e))]
             end;
           payload_sent := Some payload |}
  end.

(** The entry [get_available_models] makes of a model of the answer. *)
Definition model_entry (h : Ollama.handler) (model_name : value) : value :=
  VDict [("id", model_name); ("name", model_name);
         ("provider", Ollama.provider_name h)].

(** The loop over [response.get("models", [])]. *)
Fixpoint model_entries (h : Ollama.handler) (models : list value)
  : result (list value) :=
  match models with
  | [] => Ok []
  | VDict model :: rest =>
      let model_name := default VNone (dict_get "name" model) in
      let* entries := model_entries h rest in
      Ok (if truthy model_name then model_entry h model_name :: entries
          else entries)
  | v :: _ => Raise (Dyn.attribute_error v "get")
  end.

(** [OllamaLocalHandler.get_available_models], from the outcome [made]
    of [self._make_request("/api/tags", method="GET", payload=None)]
    on. *)
Definition get_available_models (h : Ollama.handler) (made : result value)
  : list value :=
  match made with
  | Raise _ => []
  | Ok (VDict (e :: es)) =>
      match dict_get "models" (e :: es) with
      | None => []
      | Some models =>
          match (let* items := DeepseekModels.iter models in
                 model_entries h items) with
          | Ok entries => entries
          | Raise _ => []
          end
      end
  | Ok _ => []
  end.

(** Vocabulary for statements about these functions.  [to_num_predict]
    is the renaming of [max_tokens]; [sent v] is what the loop of
    [options] stores for a parameter that is absent or holds [v]: a
    [None] is left out; [listed h model] is the entry of a model of the
    answer, if it is a dictionary with a name that is not empty. *)
Definition to_num_predict (param : string) : string :=
  if String.eqb param "max_tokens" then "num_predict" else param.

Definition sent (v : option value) : option value :=
  match v with
  | Some v => if is_not_none v then Some v else None
  | None => None
  end.

Definition is_dict (v : value) : bool :=
  match v with VDict _ => true | _ => false end.

Definition listed (h : Ollama.handler) (model : value) : option value :=
  match model with
  | VDict entries =>
      let model_name := default VNone (dict_get "name" entries) in
      if truthy model_name then Some (model_entry h model_name) else None
  | _ => None
  end.

End OllamaText.

(* ===================================================================== *)
(** ** src/providers/handlers/silicon_flow.py: [generate_text]            *)
(* ===================================================================== *)

Module SiliconFlowText.
Import Factory.

(** The [except] clauses of [_make_request]. *)
Definition _make_request_except (B : builtins) (h : SiliconFlow.handler) (e : exn)
  : result value :=
  if isinstance e ClientConnectorError then
    Errors.raise_new B APIConnectionError
      [("message", VStr ("Connection error: " ++ exn_str e));
       ("provider_name", SiliconFlow.provider_name h);
       ("details", VStr (exn_str e))]
  else if isinstance e TimeoutError_ then
    Errors.raise_new B APITimeoutError
      [("message",
        VStr ("Request timed out after "
              ++ fmt B (SiliconFlow.request_timeout h) ++ "s"));
       ("provider_name", SiliconFlow.provider_name h);
       ("timeout_seconds", SiliconFlow.request_timeout h)]
  else if isinstance e APIError then Raise e
  else
    Errors.raise_new B APIError
      [("message", VStr ("Unexpected error: " ++ exn_str e));
       ("provider_name", SiliconFlow.provider_name h);
       ("details", VStr (exn_str e))].

(** The body of [_make_request]: one attempt. *)
Definition _make_request_body (B : builtins) (h : SiliconFlow.handler)
    (transport : nat -> Http.request -> Http.outcome)
    (endpoint_path : string) (payload : value) (method : string)
    (attempt_number : nat) : result value :=
  if negb (truthy (SiliconFlow.endpoint h)) then
    Errors.raise_new B ConfigurationError
      [("message",
        VStr ("Endpoint not configured for " ++ fmt B (SiliconFlow.provider_name h)))]
  else
    let request_url :=
      fmt B (SiliconFlow.endpoint h)
      ++ (if Py.startswith endpoint_path "/" then endpoint_path
          else "/" ++ endpoint_path) in
    let body : result value :=
      match transport attempt_number
              {| Http.req_method := method; Http.req_url := request_url;
                 Http.req_headers := SiliconFlow._get_headers B h;
                 Http.req_json :=
                   if String.eqb method "POST" then Some payload else None |} with
      | Http.Fails e => Raise e
      | Http.Responds status response_text =>
          if negb (status =? 200)%Z then
            let response_json :=
              match json_loads B response_text with
              | Some j => j
              | None => VDict [("error", VStr response_text)]
              end in
            Errors.raise_new B APIResponseError
              [("provider_name", SiliconFlow.provider_name h);
               ("status_code", VInt status);
               ("response_body", response_json);
               ("details", VStr ("HTTP Error " ++ fmt B (VInt status)))]
          else
            match json_loads B response_text with
            | Some j => Ok j
            | None =>
                Errors.raise_new B APIResponseFormatError
                  [("message", VStr "Invalid JSON in successful response");
                   ("provider_name", SiliconFlow.provider_name h);
                   ("response_body",
                    VDict [("raw_response",
                            VStr (String.substring 0 500 response_text))])]
            end
      end in
    match body with
    | Ok v => Ok v
    | Raise e => _make_request_except B h e
    end.

(** The arguments of [@retry] on [_make_request]; its [before_sleep]
    formats [retry_state.stop.stop_max_attempt] as that of
    [DeepseekAIHandler] does. *)
Definition retrying : Retry.retrying :=
  {| Retry.stop_max_attempt := 3;
     Retry.retry := Retry.is_retryable_exception;
     Retry.reraise := true;
     Retry.before_sleep := Deepseek.before_sleep |}.

(** [_make_request] as decorated: the outcome and the number of
    attempts. *)
Definition _make_request (B : builtins) (h : SiliconFlow.handler)
    (transport : nat -> Http.request -> Http.outcome)
    (endpoint_path : string) (payload : value) (method : string)
  : result value * nat :=
  Retry.call retrying (_make_request_body B h transport endpoint_path payload method).

(** The payload of [generate_text]. *)
Definition build_payload (target_model : string) (prompt : string)
    (params : list (string * value)) : list (string * value) :=
  fold_left
    (fun payload kv =>
       if existsb (String.eqb (fst kv)) SiliconFlow.valid_params
          && is_not_none (snd kv)
       then dict_set (fst kv) (snd kv) payload else payload)
    params
    [("model", VStr target_model);
     ("messages", VList [VDict [("role", VStr "user"); ("content", VStr prompt)]]);
     ("stream", VBool false)].

Definition unknown_format (B : builtins) (h : SiliconFlow.handler) (answer : value)
  : result string :=
  Errors.raise_new B APIResponseFormatError
    [("message", VStr "Unknown success response format");
     ("provider_name", SiliconFlow.provider_name h);
     ("response_body", answer)].

(** What [generate_text] does with the decoded response. *)
Definition read_response (B : builtins) (h : SiliconFlow.handler) (answer : value)
  : result string :=
  let* has_choices := Dyn.contains "choices" answer in
  if has_choices then
    let* choices := Dyn.getitem answer "choices" in
    match choices with
    | VList (first_choice :: _) =>
        let* has_message := Dyn.contains "message" first_choice in
        let* has_content :=
          (if has_message then
             let* message := Dyn.getitem first_choice "message" in
             Dyn.contains "content" message
           else Ok false) in
        if has_content then
          let* message := Dyn.getitem first_choice "message" in
          let* content := Dyn.getitem message "content" in
          match content with
          | VStr s => Ok (Py.strip s)
          | v => Raise (Dyn.attribute_error v "strip")
          end
        else unknown_format B h answer
    | _ => unknown_format B h answer
    end
  else unknown_format B h answer.

(** The [except] clauses of [generate_text].  The exception of the last
    attempt of a [RetryError], if that attempt raised one, is kept under
    "last_attempt" among its attributes. *)
Definition generate_text_except (B : builtins) (h : SiliconFlow.handler) (e : exn)
  : result string :=
  if isinstance e APIError then Raise e
  else if isinstance e RetryError then
    Errors.raise_new B APIError
      [("message", VStr ("API request failed after retries: " ++ exn_str e));
       ("provider_name", SiliconFlow.provider_name h);
       ("details",
        VStr (fmt B (default VNone (dict_get "last_attempt" (exn_attrs e)))))]
  else
    Errors.raise_new B APIError
      [("message", VStr ("Unexpected internal error: " ++ exn_str e));
       ("provider_name", SiliconFlow.provider_name h);
       ("details", VStr (exn_str e))].

Section WithClasses.
Context {Class : Type}.

(** What a call of [generate_text] leaves behind. *)
Record run : Type := {
  returned : result string;
  attempts_made : nat;
  payload_sent : option (list (string * value));
  logged : list Base.log_record;
  state_after : state Class
}.

(** [SiliconFlowHandler.generate_text] *)
Definition generate_text (B : builtins) (R : runtime Class) (w : world)
    (st : state Class) (h : SiliconFlow.handler)
    (transport : nat -> Http.request -> Http.outcome)
    (prompt : string) (model : value) (kwargs : list (string * value)) : run :=
  match py_or model (py_or (SiliconFlow.default_model h) (VStr "")) with
  | VStr s =>
      let target_model := Py.strip s in
      if negb (Py.nonempty target_model) then
        {| returned :=
             Errors.raise_new B ConfigurationError
               [("message",
                 VStr ("No model specified and no default_model configured for "
                       ++ fmt B (SiliconFlow.provider_name h) ++ "."))];
           attempts_made := 0; payload_sent := None; logged := [];
           state_after := st |}
      else
        let '(params, logs, st) := SiliconFlow.final_api_params B R w st h kwargs in
        let request_payload := build_payload target_model prompt params in
        let '(response, n) :=
          _make_request B h transport "/chat/completions" (VDict request_payload)
            "POST" in
        {| returned :=
             match (let* decoded := response in read_response B h decoded) with
             | Ok content => Ok content
             | Raise e => generate_text_except B h e
             end;
           attempts_made := n; payload_sent := Some request_payload;
           logged := logs; state_after := st |}
  | v =>
      {| returned := Raise (Dyn.attribute_error v "strip");
         attempts_made := 0; payload_sent := None; logged := [];
         state_after := st |}
  end.

End WithClasses.

(** Vocabulary for statements about [stream_chat]: the chunk a line of
    the response carries, if it is a [data:] line that decodes. *)
Definition chunk_of (B : builtins) (line : string) : option value :=
  if Py.nonempty line && Py.startswith (Py.strip line) "data:"
  then json_loads B (Py.strip (Py.drop 5 (Py.strip line)))
  else None.

End SiliconFlowText.

(* ===================================================================== *)
(** ** src/providers/handlers/ollama_local.py: [get_current_param]        *)
(* ===================================================================== *)

Module OllamaParam.

(** [env_values[key]]: a key written without [=] is in the dictionary,
    with the value [None]. *)
Definition text (v : option string) : value :=
  match v with
  | Some s => VStr s
  | None => VNone
  end.

(** [OllamaLocalHandler.get_current_param(self, param_name, default=None)],
    which overrides the method of [BaseAPIHandler]: the body, on the
    values [dotenv_values] parses from the [.env] file of the project
    root. *)
Definition get_current_param (env_values : gmap string (option string))
    (param_name default : value) : result value :=
  match param_name with
  | VStr name =>
      match env_values !! ("OLLAMA_" ++ Py.upper name) with
      | Some v => Ok (text v)
      | None =>
          match env_values !! name with
          | Some v => Ok (text v)
          | None => Ok default
          end
      end
  | v => Raise (Dyn.attribute_error v "upper")
  end.

Definition type_error (text : string) : exn :=
  {| exn_cls := TypeError_;
     exn_str := "OllamaLocalHandler.get_current_param() " ++ text;
     exn_attrs := [] |}.

Definition positional (args : list value) (name : string) : option value :=
  if String.eqb name "param_name" then nth_error args 0
  else if String.eqb name "default" then nth_error args 1
  else None.

(** The keyword arguments of a call, in order: a name that is no
    parameter, or one that a positional argument has bound already, is a
    [TypeError]. *)
Fixpoint bind_keywords (args : list value) (keywords : list (string * value))
  : option exn :=
  match keywords with
  | [] => None
  | (k, _) :: rest =>
      if negb (String.eqb k "param_name" || String.eqb k "default") then
        Some (type_error ("got an unexpected keyword argument '" ++ k ++ "'"))
      else
        match positional args k with
        | Some _ =>
            Some (type_error ("got multiple values for argument '" ++ k ++ "'"))
        | None => bind_keywords args rest
        end
  end.

Definition positional_count (B : builtins) (args : list value) : string :=
  fmt B (VInt (Z.of_nat (S (length args)))).

(** A call of [handler.get_current_param] on an Ollama handler, with
    positional arguments [args] and keyword arguments [keywords]. *)
Definition call (B : builtins) (env_values : gmap string (option string))
    (args : list value) (keywords : list (string * value)) : result value :=
  match bind_keywords args keywords with
  | Some e => Raise e
  | None =>
      if (2 <? length args)%nat then
        Raise (type_error ("takes from 2 to 3 positional arguments but "
                           ++ positional_count B args ++ " were given"))
      else
        match (match positional args "param_name" with
               | Some v => Some v
               | None => dict_get "param_name" keywords
               end) with
        | None =>
            Raise (type_error "missing 1 required positional argument: 'param_name'")
        | Some param_name =>
            get_current_param env_values param_name
              (default VNone
                 (match positional args "default" with
                  | Some v => Some v
                  | None => dict_get "default" keywords
                  end))
        end
  end.

End OllamaParam.

(* ===================================================================== *)
(** ** The wording of the design document                                 *)
(* ===================================================================== *)

(** Definitions that follow the document's sentences rather than the code,
    for comparison with the code. *)
Module Spec.

(** "Normalize: lowercase; replace spaces and hyphens with underscore." *)
Definition normalize (provider : string) : string :=
  Py.replace_char "-" "_" (Py.replace_char " " "_" (Py.lower provider)).




(** "the effective value used by generate_text/chat is O if O is provided,
    else E if present in the backing store, else D" *)
Definition effective_value (O E : option value) (D : value) : value :=
  match O with
  | Some o => o
  | None =>
      match E with
      | Some e => e
      | None => D
      end
  end.

(** "looks up {prefix}{NAME} first, then {prefix}DEFAULT_{NAME}" *)
Definition stored (env_values : gmap string (option string)) (prefix name : string)
  : option string :=
  match Base.env_get env_values (prefix ++ Py.upper name) with
  | Some v => Some v
  | None => Base.env_get env_values (prefix ++ "DEFAULT_" ++ Py.upper name)
  end.

(** The environment default of a parameter of the expected type: the
    stored text, coerced; a text that cannot be coerced gives none. *)
Definition environment_default (B : builtins)
    (env_values : gmap string (option string)) (prefix name expected_type : string)
  : option value :=
  match stored env_values prefix name with
  | Some v =>
      if String.eqb expected_type "int" then VInt <$> py_int B v
      else if String.eqb expected_type "float" then VFloat <$> py_float B v
      else if String.eqb expected_type "bool" then Some (VBool (Base.bool_of_env v))
      else Some (VStr v)
  | None => None
  end.

(** The environment default where [get_current_param] has a store to
    read, and none where it has not. *)
Definition environment_default_in (B : builtins)
    (store : option (string * gmap string (option string)))
    (name expected_type : string) : option value :=
  match store with
  | Some (prefix, env_values) =>
      environment_default B env_values prefix name expected_type
  | None => None
  end.

End Spec.

(* ===================================================================== *)
(** ** Sample data                                                        *)
(* ===================================================================== *)

(** Concrete inputs on which the properties below are instantiated. *)
Module Sample.

(** Stand-ins for the builtins, sufficient for the sample inputs:
    decimal integers, three float literals, sums of integers, and a few
    JSON documents. *)
Definition builtins : builtins :=
  {| py_int := fun s => Z.of_int <$> NilZero.int_of_string s;
     py_float := fun s =>
       match s with
       | "0.2" => Some 0.2%float
       | "0.5" => Some 0.5%float
       | "1.0" => Some 1.0%float
       | _ => None
       end;
     py_repr := fun _ => "<object>";
     py_add := fun a b =>
       match a, b with
       | VInt x, VInt y => Some (VInt (x + y))
       | _, _ => None
       end;
     iso_timestamp := fun _ => None;
     json_loads := fun s =>
       match s with
       | "{}" => Some (VDict [])
       | "[1]" => Some (VList [VInt 1])
       | "7" => Some (VInt 7)
       | _ => None
       end |}.


(** Three handler classes; the constructor of the last one raises. *)
Inductive cls : Set := DeepseekClass | SiliconFlowClass | FailingClass.

Definition runtime : Factory.runtime cls :=
  {| Factory.import_class := fun _ class_name =>
       match class_name with
       | "DeepseekAIHandler" => Some DeepseekClass
       | "SiliconFlowHandler" => Some SiliconFlowClass
       | "FailingHandler" => Some FailingClass
       | _ => None
       end;
     Factory.init_raises := fun c _ =>
       match c with
       | FailingClass =>
           Some {| exn_cls := RuntimeError_; exn_str := "no backend";
                   exn_attrs := [] |}
       | _ => None
       end |}.

Definition deepseek_meta : Factory.ProviderMetadata :=
  {| Factory.standard_name := "deepseek_ai";
     Factory.display_name := "DeepSeek";
     Factory.handler_module_path := "src.providers.handlers.deepseek_ai";
     Factory.handler_class_name := "DeepseekAIHandler";
     Factory.aliases := ["deepseek"; "Deep Seek"];
     Factory.env_prefix := "DEEPSEEK_" |}.

Definition silicon_meta : Factory.ProviderMetadata :=
  {| Factory.standard_name := "silicon_flow";
     Factory.display_name := "Silicon Flow";
     Factory.handler_module_path := "src.providers.handlers.silicon_flow";
     Factory.handler_class_name := "SiliconFlowHandler";
     Factory.aliases := ["silicon"; "siliconflow"];
     Factory.env_prefix := "SILICONFLOW_" |}.

Definition failing_meta : Factory.ProviderMetadata :=
  {| Factory.standard_name := "failing";
     Factory.display_name := "Failing";
     Factory.handler_module_path := "src.providers.handlers.failing";
     Factory.handler_class_name := "FailingHandler";
     Factory.aliases := [];
     Factory.env_prefix := "FAILING_" |}.

Definition entries : list Factory.meta_entry :=
  [Factory.Entry deepseek_meta; Factory.Entry silicon_meta;
   Factory.Entry failing_meta].

(** A [.env] file, the same file after an edit, and a process
    environment that defines one of its keys. *)
Definition dotenv : gmap string (option string) :=
  <["DEEPSEEK_API_KEY" := Some "from-file"]>
    (<["DEEPSEEK_DEFAULT_MODEL" := Some "deepseek-chat"]>
       (<["DEEPSEEK_DEFAULT_TEMPERATURE" := Some "0.2"]>
          (<["DEEPSEEK_MAX_TOKENS" := Some "many"]>
             (<["DEEPSEEK_DEFAULT_STREAMING" := Some "Yes"]> ∅)))).


Definition environ : gmap string string :=
  <["DEEPSEEK_API_KEY" := "from-environment"]> (<["HOME" := "/root"]> ∅).

Definition world : Factory.world :=
  {| Factory.metadata_file := Factory.MetaList entries;
     Factory.dotenv_from_module := Some dotenv;
     Factory.dotenv_from_cwd := Some dotenv;
     Factory.os_environ := environ;
     Factory.dotenv_from_module_raises := None;
     Factory.dotenv_from_cwd_raises := None |}.


(** The instances [get_handler] builds for "deepseek" in the two worlds. *)
Definition deepseek_handler : Factory.handler cls :=
  {| Factory.handler_class := DeepseekClass;
     Factory.config :=
       Factory.load_config builtins world "DEEPSEEK_" "deepseek_ai" |}.


(** The factory state after [initialize_handlers] at start-up. *)
Definition state : Factory.state cls :=
  Factory.initialize_handlers runtime world Factory.initial_state.

(** The Deepseek handler that [DeepseekAIHandler.__init__] makes of the
    configuration of [deepseek_handler]. *)
Definition deepseek : Deepseek.handler :=
  {| Deepseek.provider_name := VStr "deepseek_ai";
     Deepseek.api_key := VStr "from-environment";
     Deepseek.endpoint := VStr "https://api.deepseek.com/v1";
     Deepseek.default_model := VStr "deepseek-chat";
     Deepseek.default_api_params :=
       [("temperature", VFloat 0.7%float);
        ("top_p", VFloat 1.0%float);
        ("max_tokens", VStr "many")];
     Deepseek.request_timeout := VInt 30 |}.

Definition silicon : SiliconFlow.handler :=
  {| SiliconFlow.provider_name := VStr "silicon_flow";
     SiliconFlow.api_key := VStr "sk-sample";
     SiliconFlow.endpoint := VStr "https://api.siliconflow.com/v1";
     SiliconFlow.default_model := VStr "Qwen/Qwen2.5-7B-Instruct";
     SiliconFlow.default_api_params :=
       [("temperature", VFloat 0.7%float);
        ("top_p", VFloat 1.0%float);
        ("max_tokens", VInt 2000)];
     SiliconFlow.request_timeout := VInt 60 |}.

Definition ollama : Ollama.handler :=
  {| Ollama.provider_name := VStr "ollama_local";
     Ollama.endpoint := VStr "http://localhost:11434";
     Ollama.default_model := VStr "deepseek-r1:8b";
     Ollama.default_api_params :=
       [("temperature", VFloat 0.7%float);
        ("top_p", VFloat 1.0%float);
        ("max_tokens", VInt 16000)];
     Ollama.request_timeout := VInt 60 |}.

(** Transports: one that refuses every connection, one that answers 200
    with a body that is no JSON. *)
Definition connection_refused : exn :=
  {| exn_cls := ClientConnectorError;
     exn_str := "Cannot connect to host api.deepseek.com:443";
     exn_attrs := [] |}.

Definition refusing (attempt : nat) (request : Http.request) : Http.outcome :=
  Http.Fails connection_refused.

Definition garbled (attempt : nat) (request : Http.request) : Http.outcome :=
  Http.Responds 200 "not json".

(** Streaming exchanges: a 500 answer, and a 200 answer of one chunk, one
    corrupt line and the [DONE] line. *)
Definition overloaded (request : Http.request) : Http.stream :=
  Http.Streams 500 "overloaded" [] None.

Definition finished (request : Http.request) : Http.stream :=
  Http.Streams 200 EmptyString ["data: [1]"; "data: {not valid json"; "data: [DONE]"]
               None.

Definition question : list Gen.message :=
  [{| Gen.role := "user"; Gen.content := "hi" |}].




End Sample.

(* ===================================================================== *)
(** ** Further sample data                                                *)
(* ===================================================================== *)

Module Cases.

(** A second entry for "deepseek_ai", as a metadata file that repeats a
    standard name would hold. *)
Definition deepseek_again : Factory.ProviderMetadata :=
  {| Factory.standard_name := "deepseek_ai";
     Factory.display_name := "DeepSeek (again)";
     Factory.handler_module_path := "src.providers.handlers.deepseek_ai";
     Factory.handler_class_name := "DeepseekAIHandler";
     Factory.aliases := ["ds"];
     Factory.env_prefix := "DS_" |}.

(** The state of a process in which the module-level [get_handler] was
    the first function of the factory to be called. *)
Definition rebound_state : Factory.state Sample.cls :=
  snd (Factory.get_handler Sample.builtins Sample.runtime Sample.world
         Factory.initial_state "deepseek").

(** The exception of [dotenv_values] on a [.env] file that is not UTF-8,
    and the sample world with such a file. *)
Definition undecodable : exn :=
  {| exn_cls := UnicodeDecodeError_;
     exn_str := "'utf-8' codec can't decode byte 0xff in position 0: invalid start byte";
     exn_attrs := [] |}.

Definition world_undecodable : Factory.world :=
  {| Factory.metadata_file := Factory.MetaList Sample.entries;
     Factory.dotenv_from_module := Some Sample.dotenv;
     Factory.dotenv_from_cwd := Some Sample.dotenv;
     Factory.os_environ := Sample.environ;
     Factory.dotenv_from_module_raises := Some undecodable;
     Factory.dotenv_from_cwd_raises := Some undecodable |}.

(** The state of a process in which [get_provider_metadata] was called
    after the module-level [get_handler]. *)
Definition rebound_initialized_state : Factory.state Sample.cls :=
  snd (Factory.get_provider_metadata Sample.runtime Sample.world rebound_state
         "deepseek_ai").

(** A [.env] file of the project root that stores "true" for the Ollama
    handler's [streaming]. *)
Definition ollama_dotenv : gmap string (option string) :=
  <["OLLAMA_STREAMING" := Some "true"]> ∅.




(** The [retry] decorator with its defaults, a wrapped function that
    always fails, one that fails once, and a [time.sleep] that returns. *)
Definition three_attempts : RetryUtil.decorator :=
  {| RetryUtil.exceptions := [Exception_];
     RetryUtil.max_attempts := 3;
     RetryUtil.delay := 1%float;
     RetryUtil.backoff := 2%float |}.

Definition failing_call (attempt : nat) : result value :=
  Raise {| exn_cls := ConnectionError_; exn_str := "connection reset";
           exn_attrs := [] |}.

Definition second_call_answers (attempt : nat) : result value :=
  match attempt with
  | O => Raise {| exn_cls := TimeoutError_; exn_str := "timed out"; exn_attrs := [] |}
  | S _ => Ok (VStr "pong")
  end.

Definition sleeps (seconds : float) : option exn := None.

(** The error a handler builds for a 404 answer. *)
Definition not_found : exn :=
  Errors.init_body Sample.builtins APIResponseError
    [("provider_name", VStr "deepseek_ai");
     ("status_code", VInt 404);
     ("details", VStr "HTTP 404")].

(** A streaming chat request that gives [max_tokens] and leaves the other
    parameters out. *)
Definition plain_request : ChatRoute.ChatRequest :=
  {| ChatRoute.provider := "silicon_flow";
     ChatRoute.model := "Qwen/Qwen2.5-7B-Instruct";
     ChatRoute.messages := Sample.question;
     ChatRoute.stream := true;
     ChatRoute.temperature := VNone;
     ChatRoute.max_tokens := VInt 100;
     ChatRoute.top_p := VNone;
     ChatRoute.stop := VNone |}.

(** The Deepseek handler of a configuration without API key. *)
Definition keyless : Deepseek.handler :=
  {| Deepseek.provider_name := VStr "deepseek_ai";
     Deepseek.api_key := VNone;
     Deepseek.endpoint := VStr "https://api.deepseek.com/v1";
     Deepseek.default_model := VStr "deepseek-chat";
     Deepseek.default_api_params :=
       [("temperature", VFloat 0.7%float);
        ("top_p", VFloat 1.0%float);
        ("max_tokens", VInt 2000)];
     Deepseek.request_timeout := VInt 30 |}.

(** Transports: one that answers 503, one that times out, and one that
    answers a completion of two choices, the second without message. *)
Definition unavailable (attempt : nat) (request : Http.request) : Http.outcome :=
  Http.Responds 503 "busy".

Definition timed_out : exn :=
  {| exn_cls := TimeoutError_; exn_str := ""; exn_attrs := [] |}.

Definition timing_out (attempt : nat) (request : Http.request) : Http.outcome :=
  Http.Fails timed_out.

Definition quote : string := String "034"%char EmptyString.

Definition completion_text : string :=
  "{" ++ quote ++ "choices" ++ quote ++ ": [{" ++ quote ++ "message" ++ quote
  ++ ": {" ++ quote ++ "content" ++ quote ++ ": " ++ quote ++ " Hello " ++ quote
  ++ "}}, {" ++ quote ++ "index" ++ quote ++ ": 1}]}".

Definition completion : list (string * value) :=
  [("choices",
    VList [VDict [("message", VDict [("content", VStr " Hello ")])];
           VDict [("index", VInt 1)]])].


(** The stand-ins of [Sample.builtins], decoding [completion_text] too. *)
Definition builtins : builtins :=
  {| py_int := py_int Sample.builtins;
     py_float := py_float Sample.builtins;
     py_repr := py_repr Sample.builtins;
     py_add := py_add Sample.builtins;
     iso_timestamp := iso_timestamp Sample.builtins;
     json_loads := fun s =>
       if String.eqb s completion_text then Some (VDict completion)
       else json_loads Sample.builtins s |}.

(** A Deepseek handler whose endpoint is a proxy. *)
Definition proxied : Deepseek.handler :=
  {| Deepseek.provider_name := VStr "deepseek_ai";
     Deepseek.api_key := VStr "sk-sample";
     Deepseek.endpoint := VStr "https://proxy.example.com/v1";
     Deepseek.default_model := VStr "deepseek-chat";
     Deepseek.default_api_params := [];
     Deepseek.request_timeout := VInt 30 |}.

(** A [.env] file that names a model and no key. *)
Definition file_without_key : gmap string (option string) :=
  <["DEEPSEEK_DEFAULT_MODEL" := Some "deepseek-chat"]> ∅.

(** A process environment that sets [OLLAMA_MAX_TOKENS]; a request that
    fails with the error of a 404 answer; the answer of Ollama's
    [/api/tags] with a model without name, and one with an entry that is
    no dictionary. *)
Definition exported : gmap string string := <["OLLAMA_MAX_TOKENS" := "77"]> ∅.

Definition failing_request (endpoint : string) (payload : list (string * value))
  : result value :=
  Raise not_found.

Definition tags : value :=
  VDict [("models",
          VList [VDict [("name", VStr "llama3:8b")];
                 VDict [("name", VStr "")];
                 VDict [("name", VStr "qwen2:7b")]])].

Definition tags_with_a_string : value :=
  VDict [("models", VList [VDict [("name", VStr "llama3:8b")]; VStr "qwen2:7b"])].

(** What [generate_text] of the SiliconFlow handler raises when the
    connection is refused. *)
Definition silicon_refused : exn :=
  let text := exn_str (Errors.unexpected_keyword_error APIConnectionError "message") in
  Errors.init_body Sample.builtins APIError
    [("message", VStr ("Unexpected internal error: " ++ text));
     ("provider_name", VStr "silicon_flow");
     ("details", VStr text)].

(** A streaming exchange that goes on behind the [DONE] line and is then
    interrupted. *)
Definition trailing (request : Http.request) : Http.stream :=
  Http.Streams 200 EmptyString
    ["data: [1]"; "ping"; "data: [DONE]"; "data: [1]"] (Some timed_out).

End Cases.

(* ===================================================================== *)
(** ** Properties of the factory                                          *)
(* ===================================================================== *)

Module FactoryFacts.
Import Factory.

Section Facts.
Context {Class : Type} (R : runtime Class) (B : builtins).

Lemma register_aliases_lookup std als (t : gmap string string) k :
  register_aliases std als t !! k =
  if existsb (fun a => String.eqb (normalize a) k) als then Some std else t !! k.
Proof.
  revert t. induction als as [|a als IH]; intros t; simpl; [done|].
  unfold register_aliases in *. simpl. rewrite IH.
  destruct (existsb _ als) eqn:E.
  - by rewrite orb_true_r.
  - rewrite orb_false_r. destruct (String.eqb_spec (normalize a) k) as [->|Hne].
    + by rewrite lookup_insert_eq.
    + by rewrite lookup_insert_ne.
Qed.



















Lemma load_config_lookup w prefix std k :
  k <> "provider_name" ->
  load_config B w prefix std !! k =
  if Py.nonempty prefix && Py.startswith k prefix
  then process_value B <$> all_env_vars w !! k else None.
Proof.
  intros Hk. unfold load_config. rewrite lookup_insert_ne by done.
  destruct (Py.nonempty prefix); simpl; [|by rewrite lookup_empty].
  rewrite lookup_fmap.
  destruct (Py.startswith k prefix) eqn:E.
  - destruct (all_env_vars w !! k) as [v|] eqn:Hv; simpl.
    + erewrite map_lookup_filter_Some_2; [done|done|done].
    + by rewrite map_lookup_filter_None_2; [|left].
  - rewrite map_lookup_filter_None_2; [done|].
    right. intros v _. simpl. by rewrite E.
Qed.

Lemma all_env_vars_environ w k v :
  os_environ w !! k = Some v -> all_env_vars w !! k = Some (Some v).
Proof.
  intros H. unfold all_env_vars. apply lookup_union_Some_l.
  by rewrite lookup_fmap, H.
Qed.



Lemma get_handler_state w st name :
  snd (get_handler B R w st name) = _initialize_factory R w st.
Proof.
  unfold get_handler. destruct (project_root _); simpl; [|done].
  destruct (handlers _ !! _); [|done]. destruct (find_meta _ _); [|done].
  by destruct (read_env_raises _ _).
Qed.
















End Facts.









End FactoryFacts.

(* ===================================================================== *)
(** ** Dictionaries and request payloads                                  *)
(* ===================================================================== *)

Module BaseFacts.
Import Factory.

Section Facts.
Context {Class : Type} (R : runtime Class) (B : builtins).

Lemma get_provider_metadata_initialized w st name :
  initialized st = true ->
  snd (get_provider_metadata R w st name) = st.
Proof.
  intros Hi. unfold get_provider_metadata, standardize_provider_name.
  rewrite Hi. destruct (negb (Py.nonempty name)); [done|].
  rewrite Hi. destruct (provider_aliases _ !! _); [done|].
  by destruct (handlers (shared st) !! _).
Qed.

Lemma dict_get_set {A} k k' (v : A) d :
  dict_get k (dict_set k' v d) = if String.eqb k k' then Some v else dict_get k d.
Proof.
  induction d as [|[k0 v0] d IH]; simpl.
  - done.
  - destruct (String.eqb_spec k' k0) as [->|Hne]; simpl.
    + by destruct (String.eqb k k0).
    + destruct (String.eqb_spec k k0) as [->|Hne2].
      * destruct (String.eqb_spec k0 k'); [congruence|]. done.
      * apply IH.
Qed.

Lemma dict_get_update {A} k (d other : list (string * A)) :
  NoDup (map fst other) ->
  dict_get k (dict_update d other)
  = match dict_get k other with Some v => Some v | None => dict_get k d end.
Proof.
  revert d. induction other as [|[k0 v0] other IH]; intros d Hnd; [done|].
  unfold dict_update in *. simpl. apply NoDup_cons in Hnd as [Hnotin Hnd].
  rewrite IH by done.
  destruct (String.eqb_spec k k0) as [->|Hne].
  - assert (dict_get k0 other = None) as ->.
    { clear -Hnotin. induction other as [|[k1 v1] o IH]; [done|]. simpl in *.
      destruct (String.eqb_spec k0 k1) as [->|]; [set_solver|].
      apply IH. set_solver. }
    by rewrite dict_get_set, String.eqb_refl.
  - rewrite dict_get_set. apply String.eqb_neq in Hne. by rewrite Hne.
Qed.

Lemma dict_set_keys {A} k (v : A) d k' :
  k' ∈ map fst (dict_set k v d) <-> k' = k \/ k' ∈ map fst d.
Proof.
  induction d as [|[k0 v0] d IH]; simpl.
  - set_solver.
  - destruct (String.eqb_spec k k0) as [->|Hne]; simpl; set_solver.
Qed.

Lemma dict_set_nodup {A} k (v : A) d :
  NoDup (map fst d) -> NoDup (map fst (dict_set k v d)).
Proof.
  induction d as [|[k0 v0] d IH]; simpl; intros Hnd.
  - repeat constructor. set_solver.
  - apply NoDup_cons in Hnd as [Hnotin Hnd].
    destruct (String.eqb_spec k k0) as [->|Hne]; simpl.
    + by apply NoDup_cons.
    + apply NoDup_cons. split; [|by apply IH].
      rewrite dict_set_keys. set_solver.
Qed.

Lemma dict_update_nodup {A} (d other : list (string * A)) :
  NoDup (map fst d) -> NoDup (map fst (dict_update d other)).
Proof.
  revert d. induction other as [|[k v] other IH]; intros d Hnd; [done|].
  unfold dict_update in *. simpl. apply IH. by apply dict_set_nodup.
Qed.

Lemma payload_step_other (valid : list string) k (params init : list (string * value)) :
  k ∉ map fst params ->
  dict_get k (fold_left
                (fun payload kv =>
                   if existsb (String.eqb (fst kv)) valid && is_not_none (snd kv)
                   then dict_set (fst kv) (snd kv) payload else payload)
                params init)
  = dict_get k init.
Proof.
  revert init. induction params as [|[k0 v0] params IH]; intros init Hk; [done|].
  simpl. rewrite IH by set_solver. simpl in Hk.
  destruct (_ && _); [|done]. rewrite dict_get_set.
  destruct (String.eqb_spec k k0); [set_solver|done].
Qed.

Lemma payload_lookup (valid : list string) k (params init : list (string * value)) :
  NoDup (map fst params) ->
  existsb (String.eqb k) valid = true ->
  dict_get k init = None ->
  dict_get k (fold_left
                (fun payload kv =>
                   if existsb (String.eqb (fst kv)) valid && is_not_none (snd kv)
                   then dict_set (fst kv) (snd kv) payload else payload)
                params init)
  = match dict_get k params with
    | Some v => if is_not_none v then Some v else None
    | None => None
    end.
Proof.
  revert init. induction params as [|[k0 v0] params IH]; intros init Hnd Hv Hi; [done|].
  simpl. apply NoDup_cons in Hnd as [Hnotin Hnd]. simpl in Hnotin.
  destruct (String.eqb_spec k k0) as [->|Hne].
  - rewrite payload_step_other by done. rewrite Hv. simpl.
    destruct (is_not_none v0); [|done].
    by rewrite dict_get_set, String.eqb_refl.
  - apply IH; [done|done|].
    destruct (_ && _); [|done]. rewrite dict_get_set.
    apply String.eqb_neq in Hne. by rewrite Hne.
Qed.

End Facts.

(** The sample run sends the stored temperature, and an override wins. *)
Example stored_temperature_is_sent :
  Deepseek.payload_sent
    (Deepseek.generate_text Sample.builtins Sample.runtime Sample.world
       Sample.state Sample.deepseek Sample.refusing "hi" VNone [])
    ≫= dict_get "temperature" = Some (VFloat 0.2%float)
  /\ Deepseek.payload_sent
       (Deepseek.generate_text Sample.builtins Sample.runtime Sample.world
          Sample.state Sample.deepseek Sample.refusing "hi" VNone
          [("temperature", VFloat 0.5%float)])
       ≫= dict_get "temperature" = Some (VFloat 0.5%float).
Proof. split; vm_compute; reflexivity. Qed.

(** The stored "Yes" reads as [True] although the default is [False]. *)
Example stored_yes_is_true :
  fst (fst (Base.get_current_param Sample.builtins Sample.runtime Sample.world
              Sample.state (VStr "deepseek_ai") "streaming" (Some "bool")
              (VBool false))) = VBool true.
Proof. vm_compute. reflexivity. Qed.

End BaseFacts.

(* ===================================================================== *)
(** ** Properties of request execution                                    *)
(* ===================================================================== *)

Module DeepseekFacts.
Import Factory.

Section Facts.
Context {Class : Type} (R : runtime Class) (B : builtins).

(** The decorated [_make_request] makes one attempt, whatever happens in it. *)
Lemma _make_request_single_attempt h transport path payload method :
  Deepseek._make_request B h transport path payload method
  = (Deepseek._make_request_body B h transport path payload method 1, 1).
Proof. reflexivity. Qed.

Lemma _make_request_body_connection_error h transport path payload method n :
  truthy (Deepseek.api_key h) = true ->
  (forall req, exists e, transport n req = Http.Fails e
                         /\ isinstance e ClientConnectorError = true) ->
  Deepseek._make_request_body B h transport path payload method n
  = Raise (Errors.unexpected_keyword_error APIConnectionError "message").
Proof.
  intros Hk Ht. unfold Deepseek._make_request_body, Deepseek._get_headers.
  rewrite Hk. simpl negb. cbv iota. unfold bind.
  match goal with |- context [transport n ?req] => destruct (Ht req) as (e & -> & He) end.
  unfold Deepseek._make_request_except. rewrite He. reflexivity.
Qed.

Lemma _make_request_body_malformed h transport path payload method n :
  truthy (Deepseek.api_key h) = true ->
  (forall req, exists text, transport n req = Http.Responds 200 text
                            /\ json_loads B text = None) ->
  Deepseek._make_request_body B h transport path payload method n
  = Raise (Errors.unexpected_keyword_error APIResponseFormatError "message").
Proof.
  intros Hk Ht. unfold Deepseek._make_request_body, Deepseek._get_headers.
  rewrite Hk. simpl negb. cbv iota. unfold bind.
  match goal with |- context [transport n ?req] => destruct (Ht req) as (t & -> & He) end.
  simpl. rewrite He. reflexivity.
Qed.

Lemma generate_text_single_attempt w st h transport prompt model kwargs :
  truthy (py_or model (Deepseek.default_model h)) = true ->
  Deepseek.attempts_made
    (Deepseek.generate_text B R w st h transport prompt model kwargs) = 1
  /\ exists payload,
      Deepseek.returned
        (Deepseek.generate_text B R w st h transport prompt model kwargs)
      = match (let* decoded :=
                 Deepseek._make_request_body B h transport "/chat/completions"
                   (VDict payload) "POST" 1 in
               Deepseek.read_response B h decoded) with
        | Ok content => Ok content
        | Raise e => Deepseek.generate_text_except B h e
        end.
Proof.
  intros Ht. unfold Deepseek.generate_text. rewrite Ht. simpl negb. cbv iota.
  destruct (Deepseek.final_api_params B R w st h kwargs) as [[params logs] st1].
  rewrite _make_request_single_attempt. simpl. eauto.
Qed.

(** C2 (what the code does).  When the transport raises a connection
    error on every attempt, [generate_text] makes one attempt, not
    three: the retry predicate is handed tenacity's call state, which is
    no exception.  The error raised is the catch-all [APIError] around
    the [TypeError] of the call [APIConnectionError(message=...)], and
    says nothing of the connection error. *)
Theorem connection_error_is_not_retried w st h transport prompt model kwargs :
  truthy (py_or model (Deepseek.default_model h)) = true ->
  truthy (Deepseek.api_key h) = true ->
  (forall n req, exists e, transport n req = Http.Fails e
                           /\ isinstance e ClientConnectorError = true) ->
  Deepseek.attempts_made
    (Deepseek.generate_text B R w st h transport prompt model kwargs) = 1
  /\ Deepseek.returned
       (Deepseek.generate_text B R w st h transport prompt model kwargs)
     = Raise (Deepseek.wrapped B h APIConnectionError).
Proof.
  intros Hm Hk Ht.
  destruct (generate_text_single_attempt w st h transport prompt model kwargs Hm)
    as [Hn [payload Hr]].
  split; [done|]. rewrite Hr.
  rewrite _make_request_body_connection_error by done. reflexivity.
Qed.

(** C8 (what the code does).  When the answer is a 200 whose body is
    no JSON, one attempt is made, and [_make_request] raises the
    [TypeError] of the call [APIResponseFormatError(message=...)] instead
    of the malformed-response error; [generate_text] turns it into the
    catch-all [APIError], which does not carry the body. *)
Theorem malformed_json_is_a_type_error w st h transport prompt model kwargs :
  truthy (py_or model (Deepseek.default_model h)) = true ->
  truthy (Deepseek.api_key h) = true ->
  (forall n req, exists text, transport n req = Http.Responds 200 text
                              /\ json_loads B text = None) ->
  Deepseek.attempts_made
    (Deepseek.generate_text B R w st h transport prompt model kwargs) = 1
  /\ (forall path payload method,
        Deepseek._make_request B h transport path payload method
        = (Raise (Errors.unexpected_keyword_error APIResponseFormatError "message"),
           1))
  /\ Deepseek.returned
       (Deepseek.generate_text B R w st h transport prompt model kwargs)
     = Raise (Deepseek.wrapped B h APIResponseFormatError).
Proof.
  intros Hm Hk Ht.
  destruct (generate_text_single_attempt w st h transport prompt model kwargs Hm)
    as [Hn [payload Hr]].
  split; [done|]. split.
  - intros. rewrite _make_request_single_attempt.
    by rewrite _make_request_body_malformed.
  - rewrite Hr. rewrite _make_request_body_malformed by done. reflexivity.
Qed.

(** Had the predicate been given the exception of the attempt
    ([retry_if_exception(is_retryable_exception)]), the [TypeError] of
    the failed constructor call would still not be retried. *)
Lemma connection_error_not_retried_on_exception h transport path payload method :
  truthy (Deepseek.api_key h) = true ->
  (forall n req, exists e, transport n req = Http.Fails e
                           /\ isinstance e ClientConnectorError = true) ->
  snd (Retry.call
         {| Retry.stop_max_attempt := 3;
            Retry.retry := Retry.retry_if_exception Retry.is_retryable_exception;
            Retry.reraise := true;
            Retry.before_sleep := Deepseek.before_sleep |}
         (Deepseek._make_request_body B h transport path payload method)) = 1.
Proof.
  intros Hk Ht. unfold Retry.call. simpl.
  by rewrite _make_request_body_connection_error.
Qed.

End Facts.

(** C2 (witness): the sample handler over the transport that refuses
    every connection. *)
Lemma connection_error_is_not_retried_witness :
  Deepseek.attempts_made
    (Deepseek.generate_text Sample.builtins Sample.runtime Sample.world Sample.state
       Sample.deepseek Sample.refusing "hi" VNone []) = 1
  /\ Deepseek.returned
       (Deepseek.generate_text Sample.builtins Sample.runtime Sample.world
          Sample.state Sample.deepseek Sample.refusing "hi" VNone [])
     = Raise (Deepseek.wrapped Sample.builtins Sample.deepseek APIConnectionError).
Proof.
  apply (connection_error_is_not_retried Sample.runtime Sample.builtins Sample.world
           Sample.state Sample.deepseek Sample.refusing "hi" VNone []).
  - reflexivity.
  - reflexivity.
  - intros n req. exists Sample.connection_refused. split; reflexivity.
Defined.

(** The message of that error. *)
Example connection_error_message :
  exn_str (Deepseek.wrapped Sample.builtins Sample.deepseek APIConnectionError)
  = "Unexpected internal error: APIConnectionError.__init__() got an unexpected keyword argument 'message' (deepseek_ai): APIConnectionError.__init__() got an unexpected keyword argument 'message'"
  /\ exn_cls (Deepseek.wrapped Sample.builtins Sample.deepseek APIConnectionError)
     = APIError.
Proof. split; vm_compute; reflexivity. Qed.

(** C8 (witness): the sample handler over the transport that answers 200
    with the body "not json". *)
Lemma malformed_json_is_a_type_error_witness :
  Deepseek.attempts_made
    (Deepseek.generate_text Sample.builtins Sample.runtime Sample.world Sample.state
       Sample.deepseek Sample.garbled "hi" VNone []) = 1
  /\ (forall path payload method,
        Deepseek._make_request Sample.builtins Sample.deepseek Sample.garbled
          path payload method
        = (Raise (Errors.unexpected_keyword_error APIResponseFormatError "message"),
           1))
  /\ Deepseek.returned
       (Deepseek.generate_text Sample.builtins Sample.runtime Sample.world
          Sample.state Sample.deepseek Sample.garbled "hi" VNone [])
     = Raise (Deepseek.wrapped Sample.builtins Sample.deepseek
                APIResponseFormatError).
Proof.
  apply (malformed_json_is_a_type_error Sample.runtime Sample.builtins Sample.world
           Sample.state Sample.deepseek Sample.garbled "hi" VNone []).
  - reflexivity.
  - reflexivity.
  - intros n req. exists "not json". split; reflexivity.
Defined.

(** The constructor, called as its signature allows, would have built
    the malformed-response error. *)
Example format_error_with_declared_keywords :
  exn_cls
    <$> match Errors.new Sample.builtins APIResponseFormatError
                [("provider_name", VStr "deepseek_ai");
                 ("details", VStr "Invalid JSON in successful response")] with
        | Ok e => Some e
        | Raise _ => None
        end
  = Some APIResponseFormatError.
Proof. reflexivity. Qed.

End DeepseekFacts.

(* ===================================================================== *)
(** ** Properties of streaming                                            *)
(* ===================================================================== *)

Module StreamFacts.
Import Factory.

Section Facts.
Context {Class : Type} (R : runtime Class) (B : builtins).









End Facts.



(** The sample streams: SiliconFlow passes the chunk on, skips the
    corrupt line and ends with its marker; Ollama ends with its own. *)
Example silicon_flow_finished_stream :
  SiliconFlow.generated
    (SiliconFlow.stream_chat Sample.builtins Sample.runtime Sample.world
       Sample.state Sample.silicon Sample.finished Sample.question VNone [])
  = Gen.returns [VList [VInt 1]; SiliconFlow.done_marker].
Proof. vm_compute. reflexivity. Qed.

Example ollama_overloaded_stream :
  Ollama.stream_chat Sample.builtins Sample.ollama Sample.overloaded
    Sample.question VNone []
  = Gen.returns
      [Gen.delta "role" (VStr "assistant");
       Gen.error_chunk (VStr "Ollama API错误: HTTP 500");
       Ollama.done_marker].
Proof. vm_compute. reflexivity. Qed.

End StreamFacts.

(* ===================================================================== *)
(** ** Properties of the report handler                                   *)
(* ===================================================================== *)

Module ReportFacts.
Import OllamaReport.

Section Facts.
Context (B : builtins).



Lemma append_cons c r s : String c r ++ s = String c (r ++ s).
Proof. reflexivity. Qed.

Lemma prefix_nil s : String.prefix "" s = true.
Proof. by destruct s. Qed.

Lemma prefix_cons a p b s :
  String.prefix (String a p) (String b s) = Ascii.eqb a b && String.prefix p s.
Proof.
  simpl. destruct (ascii_dec a b) as [->|Hne].
  - by rewrite Ascii.eqb_refl.
  - apply Ascii.eqb_neq in Hne. by rewrite Hne.
Qed.

Lemma prefix_append p a : String.prefix p (p ++ a) = true.
Proof.
  induction p as [|c p IH]; [apply prefix_nil|].
  by rewrite append_cons, prefix_cons, Ascii.eqb_refl.
Qed.





Lemma drop_append p s : Py.drop (String.length p) (p ++ s) = s.
Proof. induction p as [|c p IH]; [done|]. by rewrite append_cons. Qed.
























End Facts.



(** Blocks in the middle of a text, one of them with an opening tag
    inside; a closing tag without an opening one stays. *)
Example blocks_in_the_middle :
  with_blocks [("Intro ", "a"); ("middle ", "b <think> c")] "end "
  = "Intro <think>a</think>middle <think>b <think> c</think>end "
  /\ _remove_think_tags "Intro <think>a</think>middle <think>b <think> c</think>end "
     = "Intro middle end"
  /\ _remove_think_tags "a</think>b<think>c</think>  d" = "a</think>bd".
Proof. repeat split; vm_compute; reflexivity. Qed.

(** A block over several lines, with whitespace behind it and at the end. *)
Example multiline_block :
  _remove_think_tags
    ("<think>" ++ String "010" "step one" ++ String "010" "step two</think>"
     ++ String "010" (String "010" "Answer ")) = "Answer".
Proof. vm_compute. reflexivity. Qed.

End ReportFacts.

(* ===================================================================== *)
(** ** Properties of the registry                                         *)
(* ===================================================================== *)

Module RegistryFacts.
Import Factory FactoryApi.

Section Facts.
Context {Class : Type} (R : runtime Class) (B : builtins).

Lemma dict_set_Forall {A} (P : string * A -> Prop) k v d :
  P (k, v) -> Forall P d -> Forall P (dict_set k v d).
Proof.
  intros Hkv Hd. induction Hd as [|[k' v'] d Hx Hd IH]; simpl.
  - by constructor.
  - destruct (String.eqb k k'); constructor; auto.
Qed.

Lemma dict_get_elem {A} k (v : A) d : dict_get k d = Some v -> (k, v) ∈ d.
Proof.
  induction d as [|[k' v'] d IH]; simpl; [done|].
  destruct (String.eqb k k') eqn:E.
  - apply String.eqb_eq in E. intros [= <-]. subst. by left.
  - intros H. right. by apply IH.
Qed.

Lemma dict_get_keyed metas s m :
  keyed metas -> dict_get s metas = Some m -> standard_name m = s.
Proof.
  intros [_ Hk] Hg. apply dict_get_elem in Hg.
  rewrite Forall_forall in Hk. by apply (Hk _ Hg).
Qed.

Lemma find_meta_keyed metas s :
  keyed metas -> find_meta s metas = dict_get s metas.
Proof.
  intros [_ Hk]. unfold find_meta.
  induction Hk as [|[k m] metas Hx Hk IH]; simpl; [done|].
  simpl in Hx. rewrite Hx, (String.eqb_sym k s).
  destruct (String.eqb s k); [done|apply IH].
Qed.

Lemma keyed_names metas :
  keyed metas -> map standard_name (map snd metas) = map fst metas.
Proof.
  intros [_ Hk]. induction Hk as [|[k m] metas Hx Hk IH]; simpl; [done|].
  simpl in Hx. by rewrite Hx, IH.
Qed.

Lemma keyed_dict_set k m metas :
  standard_name m = k -> keyed metas -> keyed (dict_set k m metas).
Proof.
  intros Hm [Hn Hk]. split.
  - by apply BaseFacts.dict_set_nodup.
  - by apply dict_set_Forall.
Qed.

Lemma consistent_empty : consistent (@empty_registry Class).
Proof.
  split; [|split; [|split]]; simpl.
  - intros a s H. by rewrite lookup_empty in H.
  - intros s. rewrite lookup_empty. split; intros [x Hx]; done.
  - split; constructor.
  - constructor.
Qed.

Lemma consistent_register_entry (r : registry Class) e :
  consistent r -> consistent (register_entry R r e).
Proof.
  intros (Ha & Hh & Hk & Hc). destruct e as [|m]; simpl; [done|].
  destruct (complete m) eqn:Hcm; [|done].
  destruct (import_class R _ _) as [cls|]; [|done].
  split; [|split; [|split]]; simpl.
  - intros a s. rewrite FactoryFacts.register_aliases_lookup.
    destruct (existsb _ _).
    + intros [= <-]. rewrite lookup_insert_eq. by eexists.
    + intros H. apply Ha in H. rewrite lookup_insert_is_Some.
      destruct (decide (standard_name m = s)); [by left|by right].
  - intros s. rewrite lookup_insert_is_Some, BaseFacts.dict_get_set.
    destruct (String.eqb s (standard_name m)) eqn:E.
    + apply String.eqb_eq in E. subst. split; [by eexists|by left].
    + apply String.eqb_neq in E. rewrite <- Hh. split.
      * intros [Heq|[_ H]]; [congruence|done].
      * intros H. right. split; [congruence|done].
  - by apply keyed_dict_set.
  - by apply dict_set_Forall.
Qed.

Lemma consistent_fold entries (r : registry Class) :
  consistent r -> consistent (fold_left (register_entry R) entries r).
Proof.
  revert r. induction entries as [|e entries IH]; intros r Hr; simpl; [done|].
  apply IH. by apply consistent_register_entry.
Qed.

Lemma consistent_vacant (r : registry Class) :
  consistent r -> provider_metadata_map r = [] -> vacant r.
Proof.
  intros (Ha & Hh & _ & _) Hm.
  assert (Hnone : handlers r = ∅).
  { apply map_empty. intros s. destruct (handlers r !! s) eqn:E; [|done].
    assert (H : is_Some (handlers r !! s)) by (by eexists).
    apply Hh in H. rewrite Hm in H. by destruct H. }
  split; [done|]. split; [|done].
  apply map_empty. intros a. destruct (provider_aliases r !! a) as [s|] eqn:E; [|done].
  apply Ha in E. rewrite Hnone, lookup_empty in E. by destruct E.
Qed.

Lemma vacant_consistent (r : registry Class) : vacant r -> consistent r.
Proof.
  intros (Hh & Ha & Hm). split; [|split; [|split]].
  - intros a s. by rewrite Ha, lookup_empty.
  - intros s. rewrite Hh, Hm, lookup_empty. simpl. split; intros [x Hx]; done.
  - rewrite Hm. split; constructor.
  - rewrite Hm. constructor.
Qed.

Lemma keyed_load_metadata_map w : keyed (load_metadata_map w).
Proof.
  unfold load_metadata_map. destruct (metadata_file w) as [| | | |entries];
    try (split; constructor).
  assert (H : forall acc, keyed acc ->
              keyed (fold_left
                       (fun acc e =>
                          match e with
                          | Entry m =>
                              if Py.nonempty (standard_name m)
                              then dict_set (standard_name m) m acc else acc
                          | NotADict => acc
                          end) entries acc)).
  { induction entries as [|e entries IH]; intros acc Hacc; simpl; [done|].
    apply IH. destruct e as [|m]; [done|].
    destruct (Py.nonempty _); [|done]. by apply keyed_dict_set. }
  apply H. split; constructor.
Qed.

Lemma fold_register_loaded_map loaded (r : registry Class) :
  provider_metadata_map (fold_left (register_loaded R) loaded r)
  = provider_metadata_map r.
Proof.
  revert r. induction loaded as [|kv loaded IH]; intros r; simpl; [done|].
  rewrite IH. unfold register_loaded.
  destruct (_ && _); [|done]. by destruct (import_class R _ _).
Qed.

Lemma consistent_keyed (r : registry Class) :
  consistent r -> keyed (provider_metadata_map r).
Proof. by intros (_ & _ & H & _). Qed.

Lemma settled_set_globals (st : state Class) g b :
  settled st -> consistent g -> settled (set_flags (set_globals st g) b true).
Proof.
  intros (Hs & Hg & Hr & Hf) Hc. unfold set_flags, set_globals, settled, globals.
  destruct (rebound st) as [r|] eqn:Hreb; simpl.
  - split; [done|]. split; [by apply consistent_keyed|]. split; [|done].
    intros _. apply Hr. by eexists.
  - split; [done|]. split; [by apply consistent_keyed|]. split; [|done].
    intros [x Hx]. discriminate.
Qed.

(** Every state of the module is settled. *)
Lemma reachable_settled st : reachable R st -> settled st.
Proof.
  induction 1 as [|w st Hreach IH|w st Hreach IH].
  - split; [apply consistent_empty|]. split; [split; constructor|].
    split; simpl; [intros [x Hx]; discriminate|done].
  - unfold initialize_handlers.
    destruct (initialized st) eqn:Hi; [done|].
    destruct (metadata_file w) as [| | | |entries];
      apply settled_set_globals; try done; try apply consistent_empty.
    apply consistent_fold, consistent_empty.
  - unfold _initialize_factory.
    destruct (provider_metadata_map (globals st)) as [|kv metas] eqn:Hm; [|done].
    destruct IH as (Hs & Hg & Hr & Hf).
    assert (Hv : vacant (shared st)).
    { unfold globals in Hm. destruct (rebound st) as [r|] eqn:Hreb.
      - apply Hr. by eexists.
      - by apply consistent_vacant. }
    destruct (load_metadata_map w) as [|kv loaded] eqn:Hl.
    + unfold settled, set_flags, globals. simpl. fold (globals st).
      rewrite Hm. split; [done|]. split; [split; constructor|]. done.
    + unfold settled, globals. cbn [rebound shared initialized project_root].
      rewrite fold_register_loaded_map. cbn [provider_metadata_map]. rewrite <- Hl.
      split; [done|]. split; [apply keyed_load_metadata_map|]. done.
Qed.

Lemma initialize_handlers_twice w (st : state Class) :
  initialize_handlers R w (initialize_handlers R w st) = initialize_handlers R w st.
Proof.
  unfold initialize_handlers at 2 3.
  destruct (initialized st) eqn:Hi.
  - unfold initialize_handlers. by rewrite Hi.
  - destruct (metadata_file w) as [| | | |entries] eqn:Hw;
      unfold initialize_handlers; rewrite Hw;
      unfold set_flags, set_globals; destruct (rebound st); reflexivity.
Qed.

(** The state in which a function that starts with
    [if not _initialized: initialize_handlers()] goes on. *)
Lemma ensure_initialized_twice w (st : state Class) :
  let st1 := if initialized st then st else initialize_handlers R w st in
  (if initialized st1 then st1 else initialize_handlers R w st1) = st1.
Proof.
  simpl. destruct (initialized st) eqn:Hi.
  - by rewrite Hi.
  - destruct (initialized (initialize_handlers R w st)); [done|].
    apply initialize_handlers_twice.
Qed.

Lemma ensure_initialized_reachable w (st : state Class) :
  reachable R st ->
  reachable R (if initialized st then st else initialize_handlers R w st).
Proof. intros H. destruct (initialized st); [done|by constructor]. Qed.

Lemma initialize_handlers_rebound w (st : state Class) :
  is_Some (rebound st) ->
  is_Some (rebound (initialize_handlers R w st))
  /\ shared (initialize_handlers R w st) = shared st.
Proof.
  intros [r Hr]. unfold initialize_handlers.
  destruct (initialized st); [by rewrite Hr; eauto|].
  destruct (metadata_file w); unfold set_flags, set_globals; rewrite Hr; simpl; eauto.
Qed.

(** X1.  [initialize_handlers] is idempotent: a second call in the
    same world changes nothing, whether the first one succeeded or
    failed; and it leaves [_initialized] set exactly when it was set
    before or the metadata file holds a JSON list. *)
Theorem initialize_handlers_idempotent w (st : state Class) :
  initialize_handlers R w (initialize_handlers R w st) = initialize_handlers R w st
  /\ (initialized (initialize_handlers R w st) = true
      <-> initialized st = true \/ exists entries, metadata_file w = MetaList entries).
Proof.
  split; [apply initialize_handlers_twice|].
  unfold initialize_handlers. destruct (initialized st) eqn:Hi.
  - rewrite Hi. split; auto.
  - destruct (metadata_file w) as [| | | |entries]; simpl; split;
      try done; try (intros [H|[x H]]; done); eauto.
Qed.

Lemma standardize_outcome w (st : state Class) provider :
  initialized st = true ->
  standardize_provider_name R w st provider
  = (if negb (Py.nonempty provider) then Raise empty_provider_error
     else match provider_aliases (shared st) !! normalize provider with
          | Some std => Ok std
          | None =>
              match handlers (shared st) !! normalize provider with
              | Some _ => Ok (normalize provider)
              | None => Raise (unknown_provider_error provider)
              end
          end, st).
Proof.
  intros Hi. unfold standardize_provider_name. rewrite Hi.
  destruct (negb _); [done|].
  destruct (provider_aliases _ !! _); [done|]. by destruct (handlers _ !! _).
Qed.

Lemma standardize_registered w (st : state Class) provider std :
  consistent (shared st) -> initialized st = true ->
  fst (standardize_provider_name R w st provider) = Ok std ->
  exists cls meta,
    handlers (shared st) !! std = Some cls
    /\ dict_get std (provider_metadata_map (shared st)) = Some meta
    /\ standard_name meta = std
    /\ complete meta = true.
Proof.
  intros Hc Hi. rewrite standardize_outcome by done. simpl.
  destruct (negb _); [done|].
  assert (Hreg : is_Some (handlers (shared st) !! std) ->
                 exists cls meta,
                   handlers (shared st) !! std = Some cls
                   /\ dict_get std (provider_metadata_map (shared st)) = Some meta
                   /\ standard_name meta = std /\ complete meta = true).
  { intros Hs. destruct Hc as (Ha & Hh & Hk & Hcm).
    pose proof Hs as [cls Hcls]. apply Hh in Hs. destruct Hs as [meta Hmeta].
    exists cls, meta. split; [done|]. split; [done|].
    split; [by eapply dict_get_keyed|].
    apply dict_get_elem in Hmeta. rewrite Forall_forall in Hcm.
    by apply (Hcm _ Hmeta). }
  destruct (provider_aliases (shared st) !! normalize provider) as [s|] eqn:Ea.
  - intros [= ->]. apply Hreg. destruct Hc as (Ha & _). by eapply Ha.
  - destruct (handlers (shared st) !! normalize provider) eqn:Eh; [|done].
    intros [= <-]. apply Hreg. by eexists.
Qed.

(** X2.  In every state of the module, [APIHandlerFactory.get_handler]
    has one of these outcomes: the [RuntimeError] of a failed
    initialization, the [ValueError] of an empty name, the [ValueError]
    of an unknown name, or, for a name it resolves, what follows the
    read of the [.env] file under the non-empty prefix of the
    provider's metadata: the exception of [dotenv_values] when the file
    cannot be read, else the attempt to construct the registered class
    on the configuration read.  The [ValueError] for a known provider
    without class and the [None] for a class without metadata never
    occur. *)
Theorem class_get_handler_outcomes w (st : state Class) provider :
  reachable R st ->
  fst (APIHandlerFactory_get_handler B R w st provider) = Raise init_failed_error
  \/ fst (APIHandlerFactory_get_handler B R w st provider) = Raise empty_provider_error
  \/ fst (APIHandlerFactory_get_handler B R w st provider)
     = Raise (unknown_provider_error provider)
  \/ exists std cls meta,
       handlers (shared (snd (APIHandlerFactory_get_handler B R w st provider))) !! std
       = Some cls
       /\ dict_get std
            (provider_metadata_map
               (shared (snd (APIHandlerFactory_get_handler B R w st provider))))
          = Some meta
       /\ standard_name meta = std
       /\ Py.nonempty (env_prefix meta) = true
       /\ fst (APIHandlerFactory_get_handler B R w st provider)
          = match dotenv_values_raises (dotenv_from_module w)
                    (dotenv_from_module_raises w) with
            | Some e => Raise e
            | None => Ok (instantiate R cls (load_config B w (env_prefix meta) std))
            end.
Proof.
  intros Hreach. unfold APIHandlerFactory_get_handler.
  pose proof (ensure_initialized_reachable w st Hreach) as Hreach1.
  set (st1 := if initialized st then st else initialize_handlers R w st) in *.
  apply reachable_settled in Hreach1. destruct Hreach1 as (Hc & _).
  destruct (initialized st1) eqn:Hi1; simpl; [|by left].
  pose proof (standardize_registered w st1 provider) as Hreg.
  rewrite standardize_outcome in * by done. simpl in Hreg.
  destruct (negb (Py.nonempty provider)); [by right; left|].
  destruct (provider_aliases (shared st1) !! normalize provider) as [s|] eqn:Ea.
  - destruct (Hreg s Hc Hi1 eq_refl) as (cls & meta & Hh & Hm & Hn & Hcm).
    assert (Hp : Py.nonempty (env_prefix meta) = true).
    { unfold complete in Hcm. by apply andb_prop in Hcm as [_ ?]. }
    rewrite Hh, Hm. unfold read_env_raises. rewrite Hp.
    right. right. right. exists s, cls, meta.
    destruct (dotenv_values_raises _ _); simpl; repeat split; done.
  - destruct (handlers (shared st1) !! normalize provider) as [c|] eqn:Eh.
    + destruct (Hreg _ Hc Hi1 eq_refl) as (cls & meta & Hh & Hm & Hn & Hcm).
      assert (Hp : Py.nonempty (env_prefix meta) = true).
      { unfold complete in Hcm. by apply andb_prop in Hcm as [_ ?]. }
      rewrite Hh, Hm. unfold read_env_raises. rewrite Hp.
      right. right. right. exists (normalize provider), cls, meta.
      destruct (dotenv_values_raises _ _); simpl; repeat split; done.
    + by right; right; left.
Qed.

Lemma standardize_ensured w (st : state Class) provider :
  fst (standardize_provider_name R w
         (if initialized st then st else initialize_handlers R w st) provider)
  = fst (standardize_provider_name R w st provider)
  /\ (Py.nonempty provider = true ->
      snd (standardize_provider_name R w st provider)
      = (if initialized st then st else initialize_handlers R w st))
  /\ snd (standardize_provider_name R w
            (if initialized st then st else initialize_handlers R w st) provider)
     = (if initialized st then st else initialize_handlers R w st).
Proof.
  pose proof (ensure_initialized_twice w st) as Htwice. simpl in Htwice.
  unfold standardize_provider_name.
  destruct (Py.nonempty provider); simpl.
  2:{ repeat split; try done. }
  rewrite Htwice.
  set (st1 := if initialized st then st else initialize_handlers R w st).
  destruct (provider_aliases (shared st1) !! normalize provider); [done|].
  by destruct (handlers (shared st1) !! normalize provider).
Qed.

Lemma vacant_standardize w (st : state Class) provider :
  vacant (shared (if initialized st then st else initialize_handlers R w st)) ->
  exists e, fst (standardize_provider_name R w st provider) = Raise e
            /\ exn_cls e = ValueError_.
Proof.
  intros (Hh & Ha & _). unfold standardize_provider_name.
  destruct (negb (Py.nonempty provider)); [by eexists|].
  rewrite Ha, Hh, !lookup_empty. by eexists.
Qed.

Lemma ensure_initialized_rebound w (st : state Class) :
  is_Some (rebound st) ->
  is_Some (rebound (if initialized st then st else initialize_handlers R w st))
  /\ shared (if initialized st then st else initialize_handlers R w st) = shared st.
Proof.
  intros Hr. destruct (initialized st); [done|].
  by apply initialize_handlers_rebound.
Qed.

(** X3.  In every state of the module, [get_handler_for_provider]
    fails exactly when [standardize_provider_name] fails, with the same
    [ValueError]; otherwise it returns the class that
    [get_handler_classes] lists under the standard name.  Its own
    [ValueError] for a name without registered class never occurs. *)
Theorem get_handler_for_provider_resolves w (st : state Class) provider :
  reachable R st ->
  match fst (get_handler_for_provider R w st provider) with
  | Ok cls =>
      exists std, fst (standardize_provider_name R w st provider) = Ok std
                  /\ fst (get_handler_classes R w st) !! std = Some cls
  | Raise e => fst (standardize_provider_name R w st provider) = Raise e
  end.
Proof.
  intros Hreach. unfold get_handler_for_provider, get_handler_classes.
  pose proof (ensure_initialized_reachable w st Hreach) as Hreach1.
  destruct (standardize_ensured w st provider) as (Hfst & _ & Hsnd).
  set (st1 := if initialized st then st else initialize_handlers R w st) in *.
  apply reachable_settled in Hreach1. destruct Hreach1 as (Hc & _ & Hr & _).
  destruct (standardize_provider_name R w st1 provider) as [[std|e] st2] eqn:Hstd;
    simpl in *; [|done]. subst st2.
  destruct (rebound st1) as [r|] eqn:Hreb.
  { exfalso. destruct (vacant_standardize w st provider) as (e & He & _).
    - apply Hr. by eexists.
    - congruence. }
  unfold globals. rewrite Hreb.
  assert (Hin : is_Some (handlers (shared st1) !! std)).
  { clear Hfst. unfold standardize_provider_name in Hstd.
    destruct (negb _); [done|].
    pose proof (ensure_initialized_twice w st) as Htwice. simpl in Htwice.
    fold st1 in Htwice. rewrite Htwice in Hstd.
    destruct (provider_aliases (shared st1) !! normalize provider) as [s|] eqn:Ea.
    - injection Hstd as ->. destruct Hc as (Ha & _). by eapply Ha.
    - destruct (handlers (shared st1) !! normalize provider) eqn:Eh; [|done].
      injection Hstd as <-. by eexists. }
  destruct Hin as [cls Hcls]. rewrite Hcls. simpl. by exists std.
Qed.

Lemma dict_get_of_elem {A} k (v : A) d :
  NoDup (map fst d) -> (k, v) ∈ d -> dict_get k d = Some v.
Proof.
  induction d as [|[k' v'] d IH]; simpl; intros Hnd Hin;
    [by apply elem_of_nil in Hin|].
  apply NoDup_cons in Hnd as [Hk Hnd].
  apply elem_of_cons in Hin as [[= -> ->]|Hin].
  - by rewrite String.eqb_refl.
  - destruct (String.eqb k k') eqn:E; [|by apply IH].
    apply String.eqb_eq in E. subst. exfalso. apply Hk.
    apply (list_elem_of_fmap_2 fst) in Hin. done.
Qed.

(** X4.  In every state of the module, the list that
    [get_all_provider_metadata] returns names each provider once, also
    when the metadata file repeats a standard name; and as long as the
    module globals name the dictionaries of the class, every listed
    provider is complete and has a registered handler class. *)
Theorem get_all_provider_metadata_distinct w (st : state Class) :
  reachable R st ->
  NoDup (map standard_name (fst (get_all_provider_metadata R w st)))
  /\ (rebound (snd (get_all_provider_metadata R w st)) = None ->
      Forall (fun m => complete m = true
                       /\ is_Some (handlers
                                     (globals (snd (get_all_provider_metadata R w st)))
                                     !! standard_name m))
             (fst (get_all_provider_metadata R w st))).
Proof.
  intros Hreach. unfold get_all_provider_metadata.
  pose proof (ensure_initialized_reachable w st Hreach) as Hreach1.
  set (st1 := if initialized st then st else initialize_handlers R w st) in *.
  apply reachable_settled in Hreach1. destruct Hreach1 as (Hc & Hk & _). simpl.
  split.
  - rewrite keyed_names by done. by destruct Hk.
  - intros Hreb. unfold globals in *. rewrite Hreb in *.
    destruct Hc as (_ & Hh & Hkey & Hcm).
    apply List.Forall_map. destruct Hkey as [Hnd Hkey].
    rewrite Forall_forall in *. intros [k m] Hin. simpl.
    split; [by apply (Hcm _ Hin)|].
    apply Hh. pose proof (Hkey _ Hin) as Hn. simpl in Hn. rewrite Hn.
    rewrite (dict_get_of_elem _ _ _ Hnd Hin). by eexists.
Qed.

Lemma replace_char_absent c new s :
  Py.has_char c s = false -> Py.replace_char c new s = s.
Proof.
  induction s as [|d s IH]; simpl; [done|].
  intros H. apply orb_false_elim in H as [Hd Hs].
  rewrite Ascii.eqb_sym, Hd. by rewrite IH.
Qed.

Lemma lower_char_space c : Ascii.eqb " " (Py.lower_char c) = Ascii.eqb " " c.
Proof.
  destruct c as [[] [] [] [] [] [] [] []]; vm_compute; reflexivity.
Qed.

Lemma has_char_lower_space s : Py.has_char " " (Py.lower s) = Py.has_char " " s.
Proof.
  unfold Py.lower. induction s as [|c s IH]; [done|].
  cbn [Py.map_chars Py.has_char]. by rewrite lower_char_space, IH.
Qed.

Lemma normalize_without_space provider :
  Py.has_char " " provider = false -> normalize provider = normalize_hyphens provider.
Proof.
  intros H. unfold normalize, normalize_hyphens.
  rewrite (replace_char_absent " "); [done|]. by rewrite has_char_lower_space.
Qed.

(** X5.  After a start-up in which [initialize_handlers] registered at
    least one provider, the module-level [get_handler] and
    [APIHandlerFactory.get_handler] agree on every non-empty name
    without a space.  On a name that [standardize_provider_name]
    resolves they have the same outcome: the same instance, [None], or
    the exception of the [.env] read.  On a name it does not resolve,
    the class method raises that [ValueError] and the function returns
    [None].  So when the [.env] file can be read: where the class
    method returns, the function returns the same; where the class
    method raises, the function returns [None].  Neither changes the
    state of the module. *)
Theorem get_handler_agrees_with_class_method w (st : state Class) provider :
  reachable R st ->
  initialized st = true ->
  provider_metadata_map (shared st) <> [] ->
  Py.nonempty provider = true ->
  Py.has_char " " provider = false ->
  get_handler B R w st provider
  = (match fst (standardize_provider_name R w st provider) with
     | Ok _ => fst (APIHandlerFactory_get_handler B R w st provider)
     | Raise _ => Ok None
     end, st)
  /\ (forall e, fst (standardize_provider_name R w st provider) = Raise e ->
        fst (APIHandlerFactory_get_handler B R w st provider) = Raise e)
  /\ (dotenv_values_raises (dotenv_from_module w) (dotenv_from_module_raises w) = None ->
      get_handler B R w st provider
      = (match fst (APIHandlerFactory_get_handler B R w st provider) with
         | Ok h => Ok h
         | Raise _ => Ok None
         end, st))
  /\ snd (APIHandlerFactory_get_handler B R w st provider) = st.
Proof.
  intros Hreach Hi Hne Hp Hsp.
  pose proof (reachable_settled st Hreach) as (Hc & Hk & Hr & Hf).
  assert (Hreb : rebound st = None).
  { destruct (rebound st) eqn:E; [|done]. exfalso.
    destruct Hr as (_ & _ & Hm); [by eexists|]. done. }
  assert (Hg : globals st = shared st) by (unfold globals; by rewrite Hreb).
  assert (Hif : _initialize_factory R w st = st).
  { unfold _initialize_factory. rewrite Hg.
    by destruct (provider_metadata_map (shared st)). }
  assert (Hread : dotenv_values_raises (dotenv_from_module w)
                    (dotenv_from_module_raises w) = None ->
                  forall prefix, read_env_raises w prefix = None).
  { intros H prefix. unfold read_env_raises. by destruct (Py.nonempty prefix). }
  unfold get_handler, APIHandlerFactory_get_handler.
  rewrite Hif, Hg, Hi, (Hf Hi). simpl.
  rewrite standardize_outcome by done. rewrite Hp. simpl.
  rewrite <- normalize_without_space by done.
  destruct Hc as (Ha & Hh & Hkey & Hcm).
  destruct (provider_aliases (shared st) !! normalize provider) as [s|] eqn:Ea; simpl.
  - destruct (Ha _ _ Ea) as [cls Hcls]. rewrite Hcls.
    rewrite find_meta_keyed by done. rewrite ?Hi. simpl.
    destruct (dict_get s (provider_metadata_map (shared st))) as [meta|];
      [|repeat split; done].
    split; [by destruct (read_env_raises w (env_prefix meta))|].
    split; [done|]. split; [|by destruct (read_env_raises w (env_prefix meta))].
    intros H. by rewrite (Hread H).
  - rewrite ?Hi. simpl.
    destruct (handlers (shared st) !! normalize provider) as [cls|] eqn:Eh;
      [|split; [done|split; [by intros e [= <-]|split; done]]].
    rewrite ?Eh. rewrite find_meta_keyed by done.
    destruct (dict_get (normalize provider) (provider_metadata_map (shared st)))
      as [meta|]; [|repeat split; done].
    split; [by destruct (read_env_raises w (env_prefix meta))|].
    split; [done|]. split; [|by destruct (read_env_raises w (env_prefix meta))].
    intros H. by rewrite (Hread H).
Qed.

(** X6.  Once the module globals are bound to fresh dictionaries
    (which the module-level [get_handler] does when it is the first to
    load a metadata file with a named entry), the class methods keep
    reading the empty dictionaries created at import:
    [APIHandlerFactory.standardize_provider_name] raises [ValueError]
    for every name, in this and in every later state;
    [get_provider_metadata] returns [None]; and [get_current_param]
    returns its default whatever the [.env] file holds. *)
Theorem class_registry_stale_after_rebinding w (st : state Class) provider P T D :
  reachable R st ->
  is_Some (rebound st) ->
  (exists e, fst (standardize_provider_name R w st provider) = Raise e
             /\ exn_cls e = ValueError_)
  /\ is_Some (rebound (snd (standardize_provider_name R w st provider)))
  /\ fst (get_provider_metadata R w st provider) = None
  /\ fst (fst (Base.get_current_param B R w st (VStr provider) P T D)) = D
  /\ (forall w0 p0,
        load_metadata_map w0 <> [] ->
        is_Some (rebound (snd (get_handler B R w0 initial_state p0)))).
Proof.
  intros Hreach Hreb.
  pose proof (reachable_settled st Hreach) as (_ & _ & Hr & _).
  destruct (ensure_initialized_rebound w st Hreb) as [Hreb1 Hsh1].
  assert (Hv1 : vacant (shared (if initialized st then st
                                else initialize_handlers R w st))).
  { rewrite Hsh1. by apply Hr. }
  assert (Hmeta : fst (get_provider_metadata R w st provider) = None).
  { unfold get_provider_metadata.
    destruct (standardize_ensured w st provider) as (Hfst & _).
    destruct (vacant_standardize w st provider Hv1) as (e & He & _).
    rewrite He in Hfst.
    by destruct (standardize_provider_name R w _ provider) as [[?|?] ?];
      simpl in *. }
  split; [by apply vacant_standardize|]. split; [|split; [done|split]].
  - unfold standardize_provider_name.
    destruct (negb (Py.nonempty provider)); [done|].
    set (st1 := if initialized st then st else initialize_handlers R w st) in *.
    destruct (provider_aliases (shared st1) !! normalize provider); [done|].
    by destruct (handlers (shared st1) !! normalize provider).
  - unfold Base.get_current_param.
    by destruct (get_provider_metadata R w st provider) as [[m|] st2]; simpl in *.
  - intros w0 p0 Hl. rewrite FactoryFacts.get_handler_state.
    unfold _initialize_factory. simpl.
    destruct (load_metadata_map w0); [done|]. simpl. by eexists.
Qed.

(** The keys of a configuration: [provider_name], and the variables of
    the merged environment with the prefix. *)
Lemma load_config_keys w prefix std k :
  load_config B w prefix std !! "provider_name" = Some (VStr std)
  /\ (is_Some (load_config B w prefix std !! k)
      <-> k = "provider_name"
          \/ (Py.nonempty prefix = true /\ Py.startswith k prefix = true
              /\ is_Some (all_env_vars w !! k))).
Proof.
  split; [apply lookup_insert_eq|].
  destruct (decide (k = "provider_name")) as [->|Hk].
  - split; [by left|]. intros _. unfold load_config. rewrite lookup_insert_eq.
    by eexists.
  - rewrite FactoryFacts.load_config_lookup by done.
    destruct (Py.nonempty prefix); simpl.
    2:{ split; [by intros [x Hx]|]. by intros [?|[? _]]. }
    destruct (Py.startswith k prefix); simpl.
    2:{ split; [by intros [x Hx]|]. by intros [?|(_ & ? & _)]. }
    rewrite fmap_is_Some. split; [by right|]. by intros [?|(_ & _ & ?)].
Qed.

(** X7.  The instance the module-level [get_handler] returns for a
    name is of the class registered under the standard name the alias
    table gives for it; its configuration binds [provider_name] to that
    standard name and holds, converted, the variables of the merged
    environment whose name starts with the prefix of the provider's
    metadata, and nothing else: no variable of another prefix reaches
    the handler, and without a prefix nothing is read. *)
Theorem instance_config_keys w (st : state Class) name h :
  fst (get_handler B R w st name) = Ok (Some h) ->
  let stm := _initialize_factory R w st in
  let std := default (normalize_hyphens name)
                     (provider_aliases (globals stm) !! normalize_hyphens name) in
  exists meta,
    find_meta std (provider_metadata_map (globals stm)) = Some meta
    /\ handlers (globals stm) !! std = Some (handler_class h)
    /\ init_raises R (handler_class h) (config h) = None
    /\ config h !! "provider_name" = Some (VStr std)
    /\ (forall k,
          is_Some (config h !! k)
          <-> k = "provider_name"
              \/ (Py.nonempty (env_prefix meta) = true
                  /\ Py.startswith k (env_prefix meta) = true
                  /\ is_Some (all_env_vars w !! k)))
    /\ (forall k v,
          k <> "provider_name" -> config h !! k = Some v ->
          exists x, all_env_vars w !! k = Some x /\ v = process_value B x).
Proof.
  intros Hh stm std. revert Hh. unfold get_handler. fold stm.
  destruct (project_root stm); simpl; [|done]. fold std.
  destruct (handlers (globals stm) !! std) as [cls|] eqn:Hcls; [|done].
  destruct (find_meta std (provider_metadata_map (globals stm))) as [meta|] eqn:Hm;
    [|done].
  destruct (read_env_raises w (env_prefix meta)); [done|]. simpl.
  unfold instantiate.
  destruct (init_raises R cls (load_config B w (env_prefix meta) std)) eqn:Hi;
    [done|].
  intros [= <-]. cbn [handler_class config]. exists meta.
  split; [done|]. split; [done|]. split; [done|].
  split; [apply (load_config_keys w (env_prefix meta) std "")|].
  split; [intros k; apply (load_config_keys w (env_prefix meta) std k)|].
  intros k v Hk. rewrite FactoryFacts.load_config_lookup by done.
  destruct (_ && _); [|done].
  destruct (all_env_vars w !! k) as [x|]; [|done]. simpl. intros [= <-]. eauto.
Qed.
End Facts.

(** X2 (witness): the sample registry and the alias "deepseek". *)
Lemma class_get_handler_outcomes_witness :
  fst (APIHandlerFactory_get_handler Sample.builtins Sample.runtime Sample.world
         Sample.state "deepseek") = Raise init_failed_error
  \/ fst (APIHandlerFactory_get_handler Sample.builtins Sample.runtime Sample.world
            Sample.state "deepseek") = Raise empty_provider_error
  \/ fst (APIHandlerFactory_get_handler Sample.builtins Sample.runtime Sample.world
            Sample.state "deepseek") = Raise (unknown_provider_error "deepseek")
  \/ exists std cls meta,
       handlers (shared (snd (APIHandlerFactory_get_handler Sample.builtins
                                Sample.runtime Sample.world Sample.state "deepseek")))
         !! std = Some cls
       /\ dict_get std
            (provider_metadata_map
               (shared (snd (APIHandlerFactory_get_handler Sample.builtins
                               Sample.runtime Sample.world Sample.state "deepseek"))))
          = Some meta
       /\ standard_name meta = std
       /\ Py.nonempty (env_prefix meta) = true
       /\ fst (APIHandlerFactory_get_handler Sample.builtins Sample.runtime
                 Sample.world Sample.state "deepseek")
          = Ok (instantiate Sample.runtime cls
                  (load_config Sample.builtins Sample.world (env_prefix meta) std)).
Proof.
  apply (class_get_handler_outcomes Sample.runtime Sample.builtins Sample.world
           Sample.state "deepseek").
  apply reachable_initialize_handlers, reachable_initial.
Defined.

(** X3 (witness): the alias "Deep Seek" asked for before any
    initialization. *)
Lemma get_handler_for_provider_resolves_witness :
  match fst (get_handler_for_provider Sample.runtime Sample.world initial_state
               "Deep Seek") with
  | Ok cls =>
      exists std,
        fst (standardize_provider_name Sample.runtime Sample.world initial_state
               "Deep Seek") = Ok std
        /\ fst (get_handler_classes Sample.runtime Sample.world initial_state) !! std
           = Some cls
  | Raise e =>
      fst (standardize_provider_name Sample.runtime Sample.world initial_state
             "Deep Seek") = Raise e
  end.
Proof.
  apply (get_handler_for_provider_resolves Sample.runtime Sample.world initial_state
           "Deep Seek").
  apply reachable_initial.
Defined.

Example get_handler_for_provider_sample :
  fst (get_handler_for_provider Sample.runtime Sample.world initial_state "Deep Seek")
  = Ok Sample.DeepseekClass
  /\ fst (get_handler_for_provider Sample.runtime Sample.world initial_state
            "totally-unknown-vendor")
     = Raise (unknown_provider_error "totally-unknown-vendor").
Proof. split; vm_compute; reflexivity. Qed.

(** X4 (witness): the sample metadata file. *)
Lemma get_all_provider_metadata_distinct_witness :
  NoDup (map standard_name
           (fst (get_all_provider_metadata Sample.runtime Sample.world initial_state)))
  /\ (rebound (snd (get_all_provider_metadata Sample.runtime Sample.world
                      initial_state)) = None ->
      Forall (fun m =>
                complete m = true
                /\ is_Some (handlers
                              (globals (snd (get_all_provider_metadata Sample.runtime
                                               Sample.world initial_state)))
                              !! standard_name m))
             (fst (get_all_provider_metadata Sample.runtime Sample.world
                     initial_state))).
Proof.
  apply (get_all_provider_metadata_distinct Sample.runtime Sample.world initial_state).
  apply reachable_initial.
Defined.

(** A file that names "deepseek_ai" twice: the provider is listed once,
    at the place of its first entry, with the metadata of the last. *)
Example repeated_standard_name_is_listed_once :
  fst (get_all_provider_metadata Sample.runtime
         {| metadata_file :=
              MetaList [Entry Sample.deepseek_meta; Entry Sample.silicon_meta;
                        Entry Cases.deepseek_again];
            dotenv_from_module := None; dotenv_from_cwd := None;
            os_environ := ∅;
            dotenv_from_module_raises := None; dotenv_from_cwd_raises := None |}
         initial_state)
  = [Cases.deepseek_again; Sample.silicon_meta].
Proof. vm_compute. reflexivity. Qed.

(** X5 (witness): the sample registry and the alias "deepseek". *)
Lemma get_handler_agrees_with_class_method_witness :
  get_handler Sample.builtins Sample.runtime Sample.world Sample.state "deepseek"
  = (match fst (APIHandlerFactory_get_handler Sample.builtins Sample.runtime
                  Sample.world Sample.state "deepseek") with
     | Ok h => Ok h
     | Raise _ => Ok None
     end, Sample.state)
  /\ snd (APIHandlerFactory_get_handler Sample.builtins Sample.runtime Sample.world
            Sample.state "deepseek") = Sample.state.
Proof.
  destruct (get_handler_agrees_with_class_method Sample.runtime Sample.builtins
              Sample.world Sample.state "deepseek") as (_ & _ & Hsame & Hstate).
  - apply reachable_initialize_handlers, reachable_initial.
  - reflexivity.
  - intros H. vm_compute in H. discriminate H.
  - reflexivity.
  - reflexivity.
  - split; [apply Hsame; reflexivity|exact Hstate].
Defined.

(** With a space in the name the two differ: the class method removes
    it, the function does not. *)
Example get_handler_keeps_spaces :
  fst (get_handler Sample.builtins Sample.runtime Sample.world Sample.state "Deep Seek")
  = Ok None
  /\ fst (APIHandlerFactory_get_handler Sample.builtins Sample.runtime Sample.world
            Sample.state "Deep Seek")
     = Ok (Some Sample.deepseek_handler).
Proof. split; vm_compute; reflexivity. Qed.

(** X6 (witness): a process in which the module-level [get_handler] is
    called first. *)
Lemma class_registry_stale_after_rebinding_witness :
  (exists e,
      fst (standardize_provider_name Sample.runtime Sample.world Cases.rebound_state
             "deepseek") = Raise e
      /\ exn_cls e = ValueError_)
  /\ is_Some (rebound (snd (standardize_provider_name Sample.runtime Sample.world
                              Cases.rebound_state "deepseek")))
  /\ fst (get_provider_metadata Sample.runtime Sample.world Cases.rebound_state
            "deepseek") = None
  /\ fst (fst (Base.get_current_param Sample.builtins Sample.runtime Sample.world
                 Cases.rebound_state (VStr "deepseek") "temperature" (Some "float")
                 (VFloat 0.7%float)))
     = VFloat 0.7%float
  /\ (forall w0 p0,
        load_metadata_map w0 <> [] ->
        is_Some (rebound (snd (get_handler Sample.builtins Sample.runtime w0
                                 initial_state p0)))).
Proof.
  apply (class_registry_stale_after_rebinding Sample.runtime Sample.builtins
           Sample.world Cases.rebound_state "deepseek" "temperature" (Some "float")
           (VFloat 0.7%float)).
  - unfold Cases.rebound_state. rewrite FactoryFacts.get_handler_state.
    apply reachable__initialize_factory, reachable_initial.
  - vm_compute. eexists. reflexivity.
Defined.

(** In that process the function still builds handlers, while the class
    method knows no provider, although [initialize_handlers] has run by
    then. *)
Example get_handler_first :
  fst (get_handler Sample.builtins Sample.runtime Sample.world initial_state "deepseek")
  = Ok (Some Sample.deepseek_handler)
  /\ fst (get_handler Sample.builtins Sample.runtime Sample.world Cases.rebound_state
            "deepseek")
     = Ok (Some Sample.deepseek_handler)
  /\ fst (APIHandlerFactory_get_handler Sample.builtins Sample.runtime Sample.world
            Cases.rebound_state "deepseek")
     = Raise (unknown_provider_error "deepseek")
  /\ initialized
       (snd (APIHandlerFactory_get_handler Sample.builtins Sample.runtime Sample.world
               Cases.rebound_state "deepseek")) = true.
Proof. repeat split; vm_compute; reflexivity. Qed.

(** X7 (witness): the instance built for "deepseek" in the sample
    world. *)
Lemma instance_config_keys_witness :
  exists meta,
    find_meta "deepseek_ai"
      (provider_metadata_map
         (globals (_initialize_factory Sample.runtime Sample.world initial_state)))
    = Some meta
    /\ handlers (globals (_initialize_factory Sample.runtime Sample.world
                            initial_state)) !! "deepseek_ai"
       = Some (handler_class Sample.deepseek_handler)
    /\ init_raises Sample.runtime (handler_class Sample.deepseek_handler)
         (config Sample.deepseek_handler) = None
    /\ config Sample.deepseek_handler !! "provider_name" = Some (VStr "deepseek_ai")
    /\ (forall k,
          is_Some (config Sample.deepseek_handler !! k)
          <-> k = "provider_name"
              \/ (Py.nonempty (env_prefix meta) = true
                  /\ Py.startswith k (env_prefix meta) = true
                  /\ is_Some (all_env_vars Sample.world !! k)))
    /\ (forall k v,
          k <> "provider_name" -> config Sample.deepseek_handler !! k = Some v ->
          exists x, all_env_vars Sample.world !! k = Some x
                    /\ v = process_value Sample.builtins x).
Proof.
  apply (instance_config_keys Sample.runtime Sample.builtins Sample.world
           initial_state "deepseek" Sample.deepseek_handler).
  vm_compute. reflexivity.
Defined.

Example instance_config_sample :
  config Sample.deepseek_handler !! "HOME" = None
  /\ all_env_vars Sample.world !! "HOME" = Some (Some "/root")
  /\ config Sample.deepseek_handler !! "DEEPSEEK_API_KEY"
     = Some (VStr "from-environment").
Proof. repeat split; vm_compute; reflexivity. Qed.

End RegistryFacts.

(* ===================================================================== *)
(** ** Properties of the utilities                                        *)
(* ===================================================================== *)

Module UtilsFacts.
Import RetryUtil.

Section Facts.
Context (B : builtins) (d : decorator) (sleep : float -> option exn)
        (func : nat -> result value).

Lemma attempts_bounds remaining attempt current_delay :
  Z.of_nat (attempt + remaining) = Z.max 0 (max_attempts d) ->
  let r := attempts B d sleep func remaining attempt current_delay in
  attempt <= calls r <= attempt + remaining
  /\ (0 < remaining -> attempt < calls r)
  /\ length (slept r) <= calls r - S attempt
  /\ (forall v, returned r = Ok v -> attempt < calls r /\ func (calls r - 1) = Ok v).
Proof.
  revert attempt current_delay.
  induction remaining as [|remaining IH]; intros attempt current_delay Hmax; simpl.
  { split; [lia|]. split; [lia|]. split; [lia|]. by intros v. }
  assert (Hstop : forall e : exn,
             attempt <= S attempt <= attempt + S remaining
             /\ (0 < S remaining -> attempt < S attempt)
             /\ 0 <= S attempt - S attempt
             /\ (forall v, @Raise value e = Ok v ->
                           attempt < S attempt /\ func (S attempt - 1) = Ok v)).
  { intros e. split; [lia|]. split; [lia|]. split; [lia|]. by intros v. }
  destruct (func attempt) as [v|e] eqn:Hf; simpl.
  { split; [lia|]. split; [lia|]. split; [lia|]. intros v' [= <-]. split; [lia|].
    rewrite <- Hf. f_equal. lia. }
  destruct (caught d e); simpl; [|apply Hstop].
  destruct (Z.of_nat attempt =? max_attempts d - 1)%Z eqn:E; simpl; [apply Hstop|].
  destruct (sleep current_delay); simpl; [apply Hstop|].
  apply Z.eqb_neq in E.
  specialize (IH (S attempt) (current_delay * backoff d)%float ltac:(lia)).
  simpl in IH. destruct IH as ((Hlo & Hhi) & Hpos & Hs & Hv).
  specialize (Hpos ltac:(lia)).
  split; [lia|]. split; [lia|]. split; [lia|].
  intros v Hr. destruct (Hv v Hr). split; [lia|done].
Qed.

Lemma attempts_decisive k : forall remaining attempt current_delay,
  Z.of_nat (attempt + remaining) = max_attempts d ->
  k < remaining ->
  (forall j, j < k -> decisive d (func (attempt + j)) = false) ->
  decisive d (func (attempt + k)) = true ->
  (forall x, sleep x = None) ->
  attempts B d sleep func remaining attempt current_delay
  = {| returned := func (attempt + k); calls := S (attempt + k);
       slept := schedule current_delay (backoff d) k |}.
Proof.
  induction k as [|k IH]; intros remaining attempt current_delay Hmax Hk Hpre Hdec Hsl;
    (destruct remaining as [|remaining]; [lia|]); simpl.
  - rewrite Nat.add_0_r in *. destruct (func attempt) as [v|e]; [done|].
    simpl in Hdec. apply negb_true_iff in Hdec. by rewrite Hdec.
  - pose proof (Hpre 0 ltac:(lia)) as H0. rewrite Nat.add_0_r in H0.
    destruct (func attempt) as [v|e]; [done|]. simpl in H0.
    apply negb_false_iff in H0. rewrite H0.
    destruct (Z.of_nat attempt =? max_attempts d - 1)%Z eqn:E;
      [apply Z.eqb_eq in E; lia|].
    rewrite Hsl. rewrite (IH remaining (S attempt)); try lia; try done.
    + simpl. by rewrite <- !Nat.add_succ_comm.
    + intros j Hj. rewrite Nat.add_succ_comm. apply Hpre. lia.
    + by rewrite Nat.add_succ_comm.
Qed.

Lemma attempts_exhaust n : forall attempt current_delay,
  Z.of_nat (attempt + S n) = max_attempts d ->
  (forall j, j <= n -> exists e, func (attempt + j) = Raise e /\ caught d e = true) ->
  (forall x, sleep x = None) ->
  exists e, func (attempt + n) = Raise e
            /\ attempts B d sleep func (S n) attempt current_delay
               = {| returned := Raise (failed_error B d e); calls := S (attempt + n);
                    slept := schedule current_delay (backoff d) n |}.
Proof.
  induction n as [|n IH]; intros attempt current_delay Hmax Hall Hsl.
  - destruct (Hall 0 ltac:(lia)) as (e & He & Hc). exists e. split; [done|].
    rewrite Nat.add_0_r in *. simpl. rewrite He, Hc.
    destruct (Z.of_nat attempt =? max_attempts d - 1)%Z eqn:E; [done|].
    apply Z.eqb_neq in E. lia.
  - destruct (Hall 0 ltac:(lia)) as (e0 & He0 & Hc0). rewrite Nat.add_0_r in He0.
    destruct (IH (S attempt) (current_delay * backoff d)%float) as (e & He & Hrun).
    + lia.
    + intros j Hj. rewrite Nat.add_succ_comm. apply Hall. lia.
    + done.
    + exists e. rewrite <- Nat.add_succ_comm. split; [done|].
      change (attempts B d sleep func (S (S n)) attempt current_delay)
        with (match func attempt with
              | Ok v => {| returned := Ok v; calls := S attempt; slept := [] |}
              | Raise e =>
                  if caught d e then
                    if (Z.of_nat attempt =? max_attempts d - 1)%Z then
                      {| returned := Raise (failed_error B d e); calls := S attempt;
                         slept := [] |}
                    else
                      match sleep current_delay with
                      | Some e' =>
                          {| returned := Raise e'; calls := S attempt; slept := [] |}
                      | None =>
                          let r := attempts B d sleep func (S n) (S attempt)
                                     (current_delay * backoff d)%float in
                          {| returned := returned r; calls := calls r;
                             slept := current_delay :: slept r |}
                      end
                  else {| returned := Raise e; calls := S attempt; slept := [] |}
              end).
      rewrite He0, Hc0.
      destruct (Z.of_nat attempt =? max_attempts d - 1)%Z eqn:E;
        [apply Z.eqb_eq in E; lia|].
      rewrite Hsl, Hrun. reflexivity.
Qed.

(** X8.  Whatever the wrapped function and [time.sleep] do, the
    function decorated with [retry] calls the wrapped function at most
    [max_attempts] times and sleeps only between two calls; a value it
    returns is the value of the last call; and with [max_attempts] of
    zero or less it never calls the wrapped function and raises
    "Operation failed after maximum retry attempts". *)
Theorem wrapper_bounds :
  calls (wrapper B d sleep func) <= Z.to_nat (max_attempts d)
  /\ length (slept (wrapper B d sleep func)) <= calls (wrapper B d sleep func) - 1
  /\ (forall v, returned (wrapper B d sleep func) = Ok v ->
                0 < calls (wrapper B d sleep func)
                /\ func (calls (wrapper B d sleep func) - 1) = Ok v)
  /\ ((max_attempts d <= 0)%Z ->
      wrapper B d sleep func
      = {| returned := Raise exhausted_error; calls := 0; slept := [] |}).
Proof.
  unfold wrapper.
  destruct (attempts_bounds (Z.to_nat (max_attempts d)) 0 (delay d))
    as ((_ & Hhi) & _ & Hs & Hv); [lia|].
  split; [done|]. split; [done|]. split; [done|].
  intros Hle. by replace (Z.to_nat (max_attempts d)) with 0 by lia.
Qed.

(** X9.  When every call of the wrapped function raises an exception
    the decorator catches, the function decorated with [retry] and
    [max_attempts = n >= 1] calls it exactly [n] times, sleeps [n - 1]
    times for [delay], [delay * backoff], [delay * backoff * backoff],
    ..., and raises the [APIError] of src/utils/error_handler.py with
    the message "Operation failed after n attempts", whose detail is
    the text of the last exception; [is_retryable_exception] holds of
    that error. *)
Theorem wrapper_exhausts n :
  max_attempts d = Z.of_nat (S n) ->
  (forall k, k <= n -> exists e, func k = Raise e /\ caught d e = true) ->
  (forall x, sleep x = None) ->
  exists e,
    func n = Raise e
    /\ wrapper B d sleep func
       = {| returned := Raise (failed_error B d e); calls := S n;
            slept := schedule (delay d) (backoff d) n |}
    /\ GlyphMind.attribute (failed_error B d e) "detail" = Ok (VStr (exn_str e))
    /\ GlyphMind.attribute (failed_error B d e) "code" = Ok (VInt 500)
    /\ Retry.is_retryable_exception (Retry.ExnObj (failed_error B d e)) = true.
Proof.
  intros Hmax Hall Hsl. unfold wrapper. rewrite Hmax, Nat2Z.id.
  destruct (attempts_exhaust n 0 (delay d)) as (e & He & Hrun).
  - by rewrite Hmax.
  - intros j Hj. by apply Hall.
  - done.
  - exists e. simpl in He. repeat split; try done.
Qed.

(** X10.  The first call of the wrapped function that returns, or
    raises an exception the decorator does not catch, decides the
    outcome: if that is call number [k + 1 <= max_attempts], the
    function decorated with [retry] returns that value or raises that
    very exception, after [k + 1] calls and [k] sleeps of the backoff
    schedule. *)
Theorem wrapper_decisive_attempt k :
  (Z.of_nat k < max_attempts d)%Z ->
  (forall j, j < k -> decisive d (func j) = false) ->
  decisive d (func k) = true ->
  (forall x, sleep x = None) ->
  wrapper B d sleep func
  = {| returned := func k; calls := S k;
       slept := schedule (delay d) (backoff d) k |}.
Proof.
  intros Hk Hpre Hdec Hsl. unfold wrapper.
  rewrite (attempts_decisive k); try done.
  - simpl. lia.
  - lia.
Qed.

End Facts.

(** X11.  [handle_error] answers every exception of the validation
    module with its text as "error" and one of three codes: 400 for a
    [ConfigurationError], 502 for an [APIError], 500 for any other, which
    then has no "detail"; the status code of an [APIResponseError] is
    not passed on.  For the errors of its own module the message, detail
    and code given to the constructor come back. *)
Theorem handle_error_codes (e : exn) message code detail provider_name :
  isinstance e BaseText2AlpacaError = true ->
  GlyphMind.handle_error (GlyphMind.Exn e)
  = Ok (VDict (("error", VStr (exn_str e))
               :: (if exn_class_eqb (exn_cls e) ConfigurationError
                   then [("detail", VNone); ("code", VInt 400)]
                   else if exn_class_eqb (exn_cls e) APIError
                        then [("detail", VNone); ("code", VInt 502)]
                        else [("code", VInt 500)])))
  /\ GlyphMind.handle_error
       (GlyphMind.Exn (GlyphMind.new_APIError message code detail provider_name))
     = Ok (VDict [("error", VStr message); ("detail", detail); ("code", code)])
  /\ GlyphMind.handle_error
       (GlyphMind.Exn (GlyphMind.new_GlyphMindError message code detail))
     = Ok (VDict [("error", VStr message); ("detail", detail); ("code", code)]).
Proof.
  intros H. split; [|split; reflexivity].
  destruct e as [c s attrs]. unfold isinstance in H. simpl in H.
  destruct c; try discriminate H; reflexivity.
Qed.

(** X9 (witness): three attempts at a call that always fails. *)
Lemma wrapper_exhausts_witness :
  exists e,
    Cases.failing_call 2 = Raise e
    /\ wrapper Sample.builtins Cases.three_attempts Cases.sleeps Cases.failing_call
       = {| returned := Raise (failed_error Sample.builtins Cases.three_attempts e);
            calls := 3;
            slept := schedule (delay Cases.three_attempts)
                       (backoff Cases.three_attempts) 2 |}
    /\ GlyphMind.attribute (failed_error Sample.builtins Cases.three_attempts e)
         "detail" = Ok (VStr (exn_str e))
    /\ GlyphMind.attribute (failed_error Sample.builtins Cases.three_attempts e)
         "code" = Ok (VInt 500)
    /\ Retry.is_retryable_exception
         (Retry.ExnObj (failed_error Sample.builtins Cases.three_attempts e)) = true.
Proof.
  apply (wrapper_exhausts Sample.builtins Cases.three_attempts Cases.sleeps
           Cases.failing_call 2).
  - reflexivity.
  - intros k Hk. eexists. split; reflexivity.
  - reflexivity.
Defined.

Example three_failed_attempts :
  wrapper Sample.builtins Cases.three_attempts Cases.sleeps Cases.failing_call
  = {| returned :=
         Raise {| exn_cls := GlyphMindAPIError;
                  exn_str := "Operation failed after 3 attempts";
                  exn_attrs := [("provider_name", VStr "Unknown");
                                ("message", VStr "Operation failed after 3 attempts");
                                ("code", VInt 500);
                                ("detail", VStr "connection reset")] |};
       calls := 3;
       slept := [1%float; 2%float] |}.
Proof. vm_compute. reflexivity. Qed.

(** X10 (witness): a call that fails once and then answers. *)
Lemma wrapper_decisive_attempt_witness :
  wrapper Sample.builtins Cases.three_attempts Cases.sleeps Cases.second_call_answers
  = {| returned := Cases.second_call_answers 1; calls := 2;
       slept := schedule (delay Cases.three_attempts) (backoff Cases.three_attempts) 1 |}.
Proof.
  apply (wrapper_decisive_attempt Sample.builtins Cases.three_attempts Cases.sleeps
           Cases.second_call_answers 1).
  - reflexivity.
  - intros j Hj. assert (j = 0) as -> by lia. reflexivity.
  - reflexivity.
  - reflexivity.
Defined.

(** An exception outside [exceptions] is raised at once, unchanged. *)
Example uncaught_exception_is_not_retried :
  wrapper Sample.builtins
    {| exceptions := [ValueError_]; max_attempts := 3; delay := 1; backoff := 2 |}
    Cases.sleeps Cases.failing_call
  = {| returned := Cases.failing_call 0; calls := 1; slept := [] |}.
Proof. vm_compute. reflexivity. Qed.

(** X11 (witness): the error of a 404 answer. *)
Lemma handle_error_codes_witness :
  GlyphMind.handle_error (GlyphMind.Exn Cases.not_found)
  = Ok (VDict (("error", VStr (exn_str Cases.not_found))
               :: (if exn_class_eqb (exn_cls Cases.not_found) ConfigurationError
                   then [("detail", VNone); ("code", VInt 400)]
                   else if exn_class_eqb (exn_cls Cases.not_found) APIError
                        then [("detail", VNone); ("code", VInt 502)]
                        else [("code", VInt 500)])))
  /\ GlyphMind.handle_error
       (GlyphMind.Exn (GlyphMind.new_APIError "teapot" (VInt 418) (VStr "short")
                         (VStr "Unknown")))
     = Ok (VDict [("error", VStr "teapot"); ("detail", VStr "short");
                  ("code", VInt 418)])
  /\ GlyphMind.handle_error
       (GlyphMind.Exn (GlyphMind.new_GlyphMindError "teapot" (VInt 418) (VStr "short")))
     = Ok (VDict [("error", VStr "teapot"); ("detail", VStr "short");
                  ("code", VInt 418)]).
Proof.
  apply (handle_error_codes Cases.not_found "teapot" (VInt 418) (VStr "short")
           (VStr "Unknown")).
  reflexivity.
Defined.

Example not_found_becomes_500 :
  GlyphMind.handle_error (GlyphMind.Exn Cases.not_found)
  = Ok (VDict [("error",
                VStr "API Response Error (deepseek_ai) Status Code: 404 Details: HTTP 404");
               ("code", VInt 500)]).
Proof. vm_compute. reflexivity. Qed.

End UtilsFacts.

(* ===================================================================== *)
(** ** Properties of the chat route                                       *)
(* ===================================================================== *)

Module RouteFacts.
Import Factory ChatRoute.

Section Facts.
Context {Class : Type} (R : runtime Class) (B : builtins).

Lemma forward_all dumps chunks raised :
  Forall (fun c => content_delta_escapes c = None) chunks ->
  forward dumps chunks raised
  = (map (sse dumps) chunks
     ++ match raised with
        | Some e => [sse dumps (error_response e)]
        | None => []
        end)%list.
Proof.
  induction 1 as [|c chunks Hc _ IH]; simpl; [done|]. by rewrite Hc, IH.
Qed.

Lemma forward_cut dumps pre c post raised e :
  Forall (fun c => content_delta_escapes c = None) pre ->
  content_delta_escapes c = Some e ->
  forward dumps (pre ++ c :: post)%list raised
  = (map (sse dumps) pre ++ [sse dumps (error_response e)])%list.
Proof.
  induction 1 as [|x pre Hx _ IH]; simpl; intros Hc.
  - by rewrite Hc.
  - by rewrite Hx, IH.
Qed.

(** X12.  The event stream of the chat route ends with
    [data: [DONE]] whatever the handler does, also when there is no
    handler.  Before it come the chunks of the handler, each as one
    event and in order, then one error event if the handler raised;
    a chunk whose "choices" is a JSON object cuts the stream: it and
    the chunks behind it are replaced by one error event. *)
Theorem event_generator_forwards dumps stream_chat request :
  (exists events,
      event_generator dumps stream_chat request = (events ++ [done_event])%list)
  /\ event_generator dumps None request
     = [sse dumps (error_response (Dyn.attribute_error VNone "stream_chat"));
        done_event]
  /\ (forall f,
        stream_chat = Some f ->
        Forall (fun c => content_delta_escapes c = None)
               (Gen.yielded (f (messages request) (VStr (model request))
                               (stream_chat_kwargs request))) ->
        event_generator dumps stream_chat request
        = (map (sse dumps)
               (Gen.yielded (f (messages request) (VStr (model request))
                               (stream_chat_kwargs request)))
           ++ match Gen.raised (f (messages request) (VStr (model request))
                                  (stream_chat_kwargs request)) with
              | Some e => [sse dumps (error_response e)]
              | None => []
              end
           ++ [done_event])%list)
  /\ (forall f pre c post e,
        stream_chat = Some f ->
        Gen.yielded (f (messages request) (VStr (model request))
                       (stream_chat_kwargs request))
        = (pre ++ c :: post)%list ->
        Forall (fun c => content_delta_escapes c = None) pre ->
        content_delta_escapes c = Some e ->
        event_generator dumps stream_chat request
        = (map (sse dumps) pre ++ [sse dumps (error_response e); done_event])%list).
Proof.
  split; [|split; [done|split]].
  - destruct stream_chat as [f|]; simpl.
    + by eexists.
    + by exists [sse dumps (error_response (Dyn.attribute_error VNone "stream_chat"))].
  - intros f -> Hall. simpl. rewrite forward_all by done. by rewrite <- app_assoc.
  - intros f pre c post e -> Hy Hpre Hc. simpl. rewrite Hy.
    rewrite (forward_cut _ _ _ _ _ e) by done. by rewrite <- app_assoc.
Qed.

Lemma silicon_final_api_params_lookup w st h kwargs P :
  NoDup (map fst kwargs) ->
  is_Some (dict_get P kwargs) ->
  NoDup (map fst (fst (fst (SiliconFlow.final_api_params B R w st h kwargs))))
  /\ dict_get P (fst (fst (SiliconFlow.final_api_params B R w st h kwargs)))
     = dict_get P kwargs.
Proof.
  intros Hnd [v Hv]. unfold SiliconFlow.final_api_params.
  destruct (Base.get_current_param B R w st _ "temperature" _ _) as [[t l1] st1].
  destruct (Base.get_current_param B R w st1 _ "max_tokens" _ _) as [[m l2] st2].
  destruct (Base.get_current_param B R w st2 _ "top_p" _ _) as [[p l3] st3].
  simpl. split.
  - apply BaseFacts.dict_update_nodup. simpl.
    repeat (constructor; [set_solver|]). constructor.
  - rewrite BaseFacts.dict_get_update by done. by rewrite Hv.
Qed.

(** X13.  Through the chat route the parameters kept in the [.env]
    file and the defaults of the handler never reach the provider: the
    route passes [temperature], [max_tokens] and [top_p] to
    [stream_chat] whether the request gives them or not, so the payload
    of SiliconFlow's [stream_chat] holds each of them exactly when the
    request does, with the request's value, and Ollama's [stream_chat]
    sends the request's value, [None] included. *)
Theorem route_parameters_override_defaults w st hs ho request target_model msgs P :
  In P ["temperature"; "max_tokens"; "top_p"] ->
  dict_get P
    (SiliconFlow.build_payload target_model msgs
       (fst (fst (SiliconFlow.final_api_params B R w st hs
                    (stream_chat_kwargs request)))))
  = (match dict_get P (stream_chat_kwargs request) with
     | Some v => if is_not_none v then Some v else None
     | None => None
     end)
  /\ is_Some (dict_get P (stream_chat_kwargs request))
  /\ Ollama.param ho (stream_chat_kwargs request) "temperature" (VFloat 0.7%float)
     = temperature request
  /\ Ollama.param ho (stream_chat_kwargs request) "max_tokens" (VInt 16000)
     = max_tokens request.
Proof.
  intros HP.
  assert (Hnd : NoDup (map fst (stream_chat_kwargs request))).
  { simpl. repeat (constructor; [set_solver|]). constructor. }
  assert (Hin : is_Some (dict_get P (stream_chat_kwargs request))).
  { simpl in HP. destruct HP as [<-|[<-|[<-|[]]]]; simpl; by eexists. }
  destruct (silicon_final_api_params_lookup w st hs _ P Hnd Hin) as [Hnd' Hget].
  split; [|split; [done|split; reflexivity]].
  unfold SiliconFlow.build_payload. rewrite BaseFacts.payload_lookup.
  - by rewrite Hget.
  - done.
  - simpl in HP. destruct HP as [<-|[<-|[<-|[]]]]; reflexivity.
  - simpl in HP. destruct HP as [<-|[<-|[<-|[]]]]; reflexivity.
Qed.
End Facts.

(** SiliconFlow's answer to a 500 reaches the client as one error event
    and the closing event; the error is reported through the second
    [except] clause, the [APIError] of the handlers being another class
    than the one the route imports. *)
Example overloaded_provider_events dumps :
  event_generator dumps
    (Some (fun msgs model kwargs =>
             SiliconFlow.generated
               (SiliconFlow.stream_chat Sample.builtins Sample.runtime Sample.world
                  Sample.state Sample.silicon Sample.overloaded msgs model kwargs)))
    Cases.plain_request
  = [sse dumps
       (VDict
          [("error",
            VDict
              [("message",
                VStr "Unexpected streaming error: API Response Error (silicon_flow) Status Code: 500 Details: Stream chat error: HTTP 500 Response Body Preview: <object>... (silicon_flow): API Response Error (silicon_flow) Status Code: 500 Details: Stream chat error: HTTP 500 Response Body Preview: <object>...");
               ("type", VStr "APIError")])]);
     done_event].
Proof. reflexivity. Qed.

Example finished_stream_events dumps :
  event_generator dumps
    (Some (fun msgs model kwargs =>
             SiliconFlow.generated
               (SiliconFlow.stream_chat Sample.builtins Sample.runtime Sample.world
                  Sample.state Sample.silicon Sample.finished msgs model kwargs)))
    Cases.plain_request
  = [sse dumps (VList [VInt 1]); sse dumps SiliconFlow.done_marker; done_event].
Proof. reflexivity. Qed.

(** X13 (witness): a request that gives [max_tokens] only. *)
Lemma route_parameters_override_defaults_witness :
  dict_get "temperature"
    (SiliconFlow.build_payload "Qwen/Qwen2.5-7B-Instruct" Sample.question
       (fst (fst (SiliconFlow.final_api_params Sample.builtins Sample.runtime
                    Sample.world Sample.state Sample.silicon
                    (stream_chat_kwargs Cases.plain_request)))))
  = (match dict_get "temperature" (stream_chat_kwargs Cases.plain_request) with
     | Some v => if is_not_none v then Some v else None
     | None => None
     end)
  /\ is_Some (dict_get "temperature" (stream_chat_kwargs Cases.plain_request))
  /\ Ollama.param Sample.ollama (stream_chat_kwargs Cases.plain_request) "temperature"
       (VFloat 0.7%float)
     = temperature Cases.plain_request
  /\ Ollama.param Sample.ollama (stream_chat_kwargs Cases.plain_request) "max_tokens"
       (VInt 16000)
     = max_tokens Cases.plain_request.
Proof.
  apply (route_parameters_override_defaults Sample.runtime Sample.builtins
           Sample.world Sample.state Sample.silicon Sample.ollama Cases.plain_request
           "Qwen/Qwen2.5-7B-Instruct" Sample.question "temperature").
  simpl. auto.
Defined.

(** The request gives no temperature: none is sent, although the
    handler has a default and a direct call would send it. *)
Example temperature_is_left_out :
  dict_get "temperature"
    (SiliconFlow.build_payload "Qwen/Qwen2.5-7B-Instruct" Sample.question
       (fst (fst (SiliconFlow.final_api_params Sample.builtins Sample.runtime
                    Sample.world Sample.state Sample.silicon
                    (stream_chat_kwargs Cases.plain_request)))))
  = None
  /\ dict_get "temperature"
       (SiliconFlow.build_payload "Qwen/Qwen2.5-7B-Instruct" Sample.question
          (fst (fst (SiliconFlow.final_api_params Sample.builtins Sample.runtime
                       Sample.world Sample.state Sample.silicon []))))
     = Some (VFloat 0.7%float).
Proof. split; vm_compute; reflexivity. Qed.

End RouteFacts.

(* ===================================================================== *)
(** ** Properties of [DeepseekAIHandler.generate_text] and of the         *)
(** ** constructors of the handlers                                       *)
(* ===================================================================== *)

Module RequestFacts.
Import Factory.

Section Facts.
Context {Class : Type} (R : runtime Class) (B : builtins).

Lemma generate_text_except_unexpected h e :
  isinstance e APIError = false -> isinstance e RetryError = false ->
  Deepseek.generate_text_except B h e = Raise (DeepseekErrors.unexpected B h e).
Proof.
  intros H1 H2. unfold Deepseek.generate_text_except. by rewrite H1, H2.
Qed.

(** X14.  Given a model, [generate_text] of a Deepseek handler without
    API key sends no request: whatever the transport would answer, the
    call raises the [APIError] "Unexpected internal error" around the
    [ConfigurationError] of [_get_headers], not that
    [ConfigurationError]. *)
Theorem generate_text_without_api_key w st h transport prompt model kwargs :
  truthy (py_or model (Deepseek.default_model h)) = true ->
  truthy (Deepseek.api_key h) = false ->
  Deepseek.returned (Deepseek.generate_text B R w st h transport prompt model kwargs)
  = Raise (DeepseekErrors.unexpected B h (DeepseekErrors.missing_key_error B))
  /\ exn_cls (DeepseekErrors.unexpected B h (DeepseekErrors.missing_key_error B)) = APIError
  /\ (forall transport',
        Deepseek.generate_text B R w st h transport' prompt model kwargs
        = Deepseek.generate_text B R w st h transport prompt model kwargs).
Proof.
  intros Hm Hk.
  assert (Hbody : forall t payload,
             Deepseek._make_request_body B h t "/chat/completions" payload "POST" 1
             = Raise (DeepseekErrors.missing_key_error B)).
  { intros t payload. unfold Deepseek._make_request_body, Deepseek._get_headers.
    rewrite Hk. reflexivity. }
  split; [|split; [done|]].
  - destruct (DeepseekFacts.generate_text_single_attempt R B w st h transport prompt
                model kwargs Hm) as [_ [payload ->]].
    by rewrite Hbody.
  - intros t'. unfold Deepseek.generate_text. rewrite Hm. simpl negb. cbv iota.
    destruct (Deepseek.final_api_params B R w st h kwargs) as [[params logs] st1].
    rewrite !DeepseekFacts._make_request_single_attempt, !Hbody. reflexivity.
Qed.

(** X15.  Given a model, [generate_text] of the Deepseek handler makes
    one attempt and never a second one.  With an API key, an answer
    with a status other than 200 comes out as the [APIError]
    "Unexpected internal error" around the [APIResponseError], and a
    timeout as the one around the [APITimeoutError], although
    [is_retryable_exception] accepts the timeout itself. *)
Theorem failed_request_is_not_retried w st h transport prompt model kwargs :
  truthy (py_or model (Deepseek.default_model h)) = true ->
  truthy (Deepseek.api_key h) = true ->
  Deepseek.attempts_made
    (Deepseek.generate_text B R w st h transport prompt model kwargs) = 1
  /\ (forall status text,
        (forall req, transport 1 req = Http.Responds status text) ->
        status <> 200%Z ->
        Deepseek.returned
          (Deepseek.generate_text B R w st h transport prompt model kwargs)
        = Raise (DeepseekErrors.unexpected B h (DeepseekErrors.status_error B h status text)))
  /\ (forall e,
        (forall req, transport 1 req = Http.Fails e) ->
        isinstance e ClientConnectorError = false ->
        isinstance e TimeoutError_ = true ->
        Deepseek.returned
          (Deepseek.generate_text B R w st h transport prompt model kwargs)
        = Raise (DeepseekErrors.unexpected B h (DeepseekErrors.timeout_error B h))
        /\ Retry.is_retryable_exception (Retry.ExnObj e) = true).
Proof.
  intros Hm Hk.
  destruct (DeepseekFacts.generate_text_single_attempt R B w st h transport prompt
              model kwargs Hm) as [Hn [payload Hr]].
  split; [done|]. rewrite Hr. clear Hr. split.
  - intros status text Ht Hs.
    unfold Deepseek._make_request_body, Deepseek._get_headers.
    rewrite Hk. simpl negb. cbv iota. unfold bind at 2. rewrite Ht.
    apply Z.eqb_neq in Hs. rewrite Hs. reflexivity.
  - intros e Ht Hc Hto.
    unfold Deepseek._make_request_body, Deepseek._get_headers.
    rewrite Hk. simpl negb. cbv iota. unfold bind at 2. rewrite Ht.
    unfold Deepseek._make_request_except. rewrite Hc, Hto.
    split; [reflexivity|]. simpl. by rewrite Hto, orb_true_r.
Qed.


Lemma append_assoc a b c : (a ++ b) ++ c = a ++ (b ++ c).
Proof.
  induction a as [|x a IH]; [done|]. by rewrite !ReportFacts.append_cons, IH.
Qed.



Lemma init_body_class c kwargs : exn_cls (Errors.init_body B c kwargs) = c.
Proof. by destruct c. Qed.

Lemma raise_new_class {A} c kwargs e :
  @Errors.raise_new A B c kwargs = Raise e -> exn_cls e = TypeError_ \/ exn_cls e = c.
Proof.
  unfold Errors.raise_new, Errors.new. destruct (Errors.unexpected_keyword c kwargs).
  - intros [= <-]. by left.
  - intros [= <-]. right. apply init_body_class.
Qed.

Lemma isinstance_APIError e : isinstance e APIError = true -> exn_cls e = APIError.
Proof. destruct e as [c s a]. unfold isinstance. simpl. by destruct c. Qed.

Lemma contains_raises k v e :
  Dyn.contains k v = Raise e -> exn_cls e = TypeError_.
Proof. destruct v; simpl; try done; by intros [= <-]. Qed.

Lemma getitem_raises v k e :
  Dyn.getitem v k = Raise e -> exn_cls e = TypeError_ \/ exn_cls e = KeyError_.
Proof.
  destruct v; simpl; try (intros [= <-]; by left).
  destruct (dict_get k entries); [done|]. intros [= <-]. by right.
Qed.

Lemma concat_contents_raises choices acc e :
  Deepseek.concat_contents choices acc = Raise e ->
  exn_cls e = TypeError_ \/ exn_cls e = KeyError_.
Proof.
  revert acc. induction choices as [|c choices IH]; intros acc; simpl; [done|].
  destruct (Dyn.contains "message" c) as [[]|e1] eqn:H1; simpl.
  - destruct (Dyn.getitem c "message") as [m|e2] eqn:H2; simpl.
    + destruct (Dyn.contains "content" m) as [[]|e3] eqn:H3; simpl.
      * destruct (Dyn.getitem m "content") as [x|e4] eqn:H4; simpl.
        -- destruct x; try (intros [= <-]; by left). apply IH.
        -- intros [= <-]. by eapply getitem_raises.
      * apply IH.
      * intros [= <-]. left. by eapply contains_raises.
    + intros [= <-]. by eapply getitem_raises.
  - apply IH.
  - intros [= <-]. left. by eapply contains_raises.
Qed.

Lemma read_response_raises h v e :
  Deepseek.read_response B h v = Raise e ->
  exn_cls e = TypeError_ \/ exn_cls e = KeyError_
  \/ exn_cls e = APIResponseFormatError.
Proof.
  assert (Hu : forall e, Deepseek.unexpected_format B h v = Raise e ->
               exn_cls e = TypeError_ \/ exn_cls e = KeyError_
               \/ exn_cls e = APIResponseFormatError).
  { intros e' H. apply raise_new_class in H as [?|?]; auto. }
  unfold Deepseek.read_response.
  destruct (Dyn.contains "choices" v) as [[]|e1] eqn:H1; cbn [bind].
  - destruct (Dyn.getitem v "choices") as [m|e2] eqn:H2; cbn [bind].
    + destruct m as [| | | | |[|c cs]|]; try apply Hu.
      destruct (Deepseek.concat_contents (c :: cs) "") as [s|e3] eqn:H3.
      * cbn [bind]. destruct (Py.nonempty s); [done|apply Hu].
      * cbn [bind]. intros [= <-].
        apply concat_contents_raises in H3 as [?|?]; auto.
    + intros [= <-]. apply getitem_raises in H2 as [?|?]; auto.
  - apply Hu.
  - intros [= <-]. left. by eapply contains_raises.
Qed.

Lemma _make_request_body_raises h transport path payload method n e :
  (forall req e0, transport n req = Http.Fails e0 -> isinstance e0 RetryError = false) ->
  Deepseek._make_request_body B h transport path payload method n = Raise e ->
  isinstance e RetryError = false.
Proof.
  intros Ht. unfold Deepseek._make_request_body.
  assert (Hnew : forall A c kwargs e' e,
             @Errors.raise_new A B c kwargs = Raise e' ->
             In c [ConfigurationError; APIResponseError; APIResponseFormatError] ->
             Deepseek._make_request_except B h e' = Raise e ->
             isinstance e RetryError = false).
  { intros A c kwargs e' e'' H Hc. apply raise_new_class in H.
    unfold Deepseek._make_request_except.
    assert (Hcls : In (exn_cls e') [TypeError_; ConfigurationError; APIResponseError;
                                    APIResponseFormatError]).
    { simpl in *. destruct H as [->| ->]; [by left|]. by right. }
    destruct e' as [c' ? ?]. unfold isinstance. simpl in *.
    destruct Hcls as [<-|[<-|[<-|[<-|[]]]]]; simpl; by intros [= <-]. }
  destruct (Deepseek._get_headers B h) as [headers|e1] eqn:Hh; cbn [bind].
  2:{ unfold Deepseek._get_headers in Hh. destruct (negb _); [|done].
      eapply Hnew; [exact Hh|simpl; auto]. }
  match goal with |- context [transport n ?req] =>
    destruct (transport n req) as [e0|status text] eqn:Hreq end.
  - apply Ht in Hreq. unfold Deepseek._make_request_except.
    destruct (isinstance e0 ClientConnectorError).
    { intros H. apply raise_new_class in H.
      destruct e as [c ? ?]. simpl in H. unfold isinstance. simpl.
      by destruct H as [->| ->]. }
    destruct (isinstance e0 TimeoutError_).
    { intros H. apply raise_new_class in H.
      destruct e as [c ? ?]. simpl in H. unfold isinstance. simpl.
      by destruct H as [->| ->]. }
    destruct (isinstance e0 ClientError).
    { intros H. apply raise_new_class in H.
      destruct e as [c ? ?]. simpl in H. unfold isinstance. simpl.
      by destruct H as [->| ->]. }
    by intros [= <-].
  - destruct (negb (status =? 200)%Z).
    + destruct (Errors.raise_new B APIResponseError _) as [x|e1] eqn:H1; [done|].
      eapply Hnew; [exact H1|simpl; auto].
    + destruct (json_loads B text); [done|].
      destruct (Errors.raise_new B APIResponseFormatError _) as [x|e1] eqn:H1; [done|].
      eapply Hnew; [exact H1|simpl; auto].
Qed.

(** X17.  Whatever the transport does short of raising a [RetryError],
    an exception that leaves [generate_text] of the Deepseek handler is
    a [ConfigurationError], and then no model was given or configured,
    or it is an [APIError] itself, never one of its sibling classes. *)
Theorem generate_text_error_classes w st h transport prompt model kwargs e :
  (forall n req e0, transport n req = Http.Fails e0 ->
                    isinstance e0 RetryError = false) ->
  Deepseek.returned (Deepseek.generate_text B R w st h transport prompt model kwargs)
  = Raise e ->
  (exn_cls e = ConfigurationError
   /\ truthy (py_or model (Deepseek.default_model h)) = false)
  \/ exn_cls e = APIError.
Proof.
  intros Ht.
  destruct (truthy (py_or model (Deepseek.default_model h))) eqn:Hm.
  - destruct (DeepseekFacts.generate_text_single_attempt R B w st h transport prompt
                model kwargs Hm) as [_ [payload ->]].
    assert (Hex : forall e', isinstance e' RetryError = false ->
                  Deepseek.generate_text_except B h e' = Raise e ->
                  exn_cls e = APIError).
    { intros e' Hr. unfold Deepseek.generate_text_except. rewrite Hr.
      destruct (isinstance e' APIError) eqn:Ha.
      - intros [= <-]. by apply isinstance_APIError.
      - intros [= <-]. reflexivity. }
    destruct (Deepseek._make_request_body B h transport _ _ _ 1) as [v|e1] eqn:Hb;
      cbn [bind].
    + destruct (Deepseek.read_response B h v) as [s|e2] eqn:Hr; [done|].
      intros H. right. eapply Hex; [|exact H].
      apply read_response_raises in Hr. destruct e2 as [c ? ?]. simpl in Hr.
      unfold isinstance. simpl. by destruct Hr as [->|[->| ->]].
    + intros H. right. eapply Hex; [|exact H].
      eapply _make_request_body_raises; [|exact Hb]. intros req e0. apply Ht.
  - unfold Deepseek.generate_text. rewrite Hm. simpl. intros [= <-]. by left.
Qed.

Lemma rstrip_char_end c s : Py.endswith_char c (Py.rstrip_char c s) = false.
Proof.
  induction s as [|d s IH]; [done|]. simpl.
  destruct (Py.rstrip_char c s) as [|x r] eqn:E.
  - destruct (Ascii.eqb d c) eqn:Ed; [done|]. simpl. done.
  - exact IH.
Qed.

Lemma rstrip_char_unchanged c s :
  Py.endswith_char c s = false -> Py.rstrip_char c s = s.
Proof.
  induction s as [|d s IH]; [done|]. simpl.
  destruct s as [|x t].
  - simpl. by intros ->.
  - intros H. by rewrite (IH H).
Qed.

Lemma trailing_slashes_removed s :
  (if Py.endswith_char "/" s then Py.rstrip_char "/" s else s) = Py.rstrip_char "/" s
  /\ Py.endswith_char "/" (Py.rstrip_char "/" s) = false.
Proof.
  split; [|apply rstrip_char_end].
  destruct (Py.endswith_char "/" s) eqn:E; [done|]. by rewrite rstrip_char_unchanged.
Qed.

(** X18.  The endpoint of a handler never ends in a slash: the
    constructors of the Deepseek, SiliconFlow and Ollama handlers strip
    every trailing slash of a configured endpoint, and the defaults
    have none. *)
Theorem handler_endpoint_has_no_trailing_slash cfg environ s :
  (forall h, Deepseek.__init__ cfg = Ok h ->
             (Deepseek.endpoint h = VStr s -> Py.endswith_char "/" s = false)
             /\ (forall s0, cfg !! "DEEPSEEK_ENDPOINT" = Some (VStr s0) ->
                            Deepseek.endpoint h = VStr (Py.rstrip_char "/" s0)))
  /\ (forall h, SiliconFlow.__init__ cfg = Ok h ->
                (SiliconFlow.endpoint h = VStr s -> Py.endswith_char "/" s = false)
                /\ (forall s0, cfg !! "SILICONFLOW_ENDPOINT" = Some (VStr s0) ->
                               SiliconFlow.endpoint h = VStr (Py.rstrip_char "/" s0)))
  /\ (forall h, Ollama.__init__ B environ cfg = Ok h ->
                (Ollama.endpoint h = VStr s -> Py.endswith_char "/" s = false)
                /\ (forall s0, cfg !! "endpoint" = Some (VStr s0) -> s0 <> "" ->
                               Ollama.endpoint h = VStr (Py.rstrip_char "/" s0))).
Proof.
  split; [|split].
  - intros h. unfold Deepseek.__init__, Dyn.cfg_get.
    destruct (cfg !! "DEEPSEEK_ENDPOINT") as [v|] eqn:E; simpl.
    + destruct (truthy v) eqn:Hv.
      * destruct v; try done. cbn [bind]. intros [= <-]. simpl.
        destruct (trailing_slashes_removed s0) as [-> Hend]. split.
        -- by intros [= <-].
        -- by intros ? [= <-].
      * cbn [bind]. intros [= <-]. simpl. split.
        -- intros ->. by destruct s.
        -- intros s0 [= ->]. by destruct s0.
    + intros [= <-]. simpl. split; [by intros [= <-]|done].
  - intros h. unfold SiliconFlow.__init__, Dyn.cfg_get.
    destruct (cfg !! "SILICONFLOW_ENDPOINT") as [v|] eqn:E; simpl.
    + destruct (truthy v) eqn:Hv.
      * destruct v; try done. cbn [bind]. intros [= <-]. simpl.
        destruct (trailing_slashes_removed s0) as [-> Hend]. split.
        -- by intros [= <-].
        -- by intros ? [= <-].
      * cbn [bind]. intros [= <-]. simpl. split.
        -- intros ->. by destruct s.
        -- intros s0 [= ->]. by destruct s0.
    + intros [= <-]. simpl. split; [by intros [= <-]|done].
  - intros h. unfold Ollama.__init__, Dyn.cfg_get, py_or.
    destruct (cfg !! "endpoint") as [v|] eqn:E; simpl.
    + destruct (truthy v) eqn:Hv.
      * destruct v; try done. cbn [bind]. intros [= <-]. simpl.
        destruct (trailing_slashes_removed s0) as [-> Hend]. split.
        -- by intros [= <-].
        -- by intros ? [= <-] _.
      * cbn [bind]. intros [= <-]. simpl. split.
        -- by intros [= <-].
        -- intros s0 [= ->] Hne. by destruct s0.
    + intros [= <-]. simpl. split; [by intros [= <-]|done].
Qed.
End Facts.

(** X14 (witness): a handler without key, and a transport that would
    refuse the connection. *)
Lemma generate_text_without_api_key_witness :
  Deepseek.returned
    (Deepseek.generate_text Sample.builtins Sample.runtime Sample.world Sample.state
       Cases.keyless Sample.refusing "hi" VNone [])
  = Raise (DeepseekErrors.unexpected Sample.builtins Cases.keyless
             (DeepseekErrors.missing_key_error Sample.builtins))
  /\ exn_cls (DeepseekErrors.unexpected Sample.builtins Cases.keyless
                (DeepseekErrors.missing_key_error Sample.builtins)) = APIError
  /\ (forall transport',
        Deepseek.generate_text Sample.builtins Sample.runtime Sample.world Sample.state
          Cases.keyless transport' "hi" VNone []
        = Deepseek.generate_text Sample.builtins Sample.runtime Sample.world
            Sample.state Cases.keyless Sample.refusing "hi" VNone []).
Proof.
  apply (generate_text_without_api_key Sample.runtime Sample.builtins Sample.world
           Sample.state Cases.keyless Sample.refusing "hi" VNone []); reflexivity.
Defined.

Example text_of_the_missing_key_error :
  exn_str (DeepseekErrors.unexpected Sample.builtins Cases.keyless
             (DeepseekErrors.missing_key_error Sample.builtins))
  = "Unexpected internal error: API key (DEEPSEEK_API_KEY) is missing for DeepseekAIHandler headers. (deepseek_ai): API key (DEEPSEEK_API_KEY) is missing for DeepseekAIHandler headers.".
Proof. reflexivity. Qed.

(** X15 (witness): a 503 answer. *)
Lemma failed_request_is_not_retried_witness :
  Deepseek.attempts_made
    (Deepseek.generate_text Sample.builtins Sample.runtime Sample.world Sample.state
       Sample.deepseek Cases.unavailable "hi" VNone []) = 1
  /\ Deepseek.returned
       (Deepseek.generate_text Sample.builtins Sample.runtime Sample.world Sample.state
          Sample.deepseek Cases.unavailable "hi" VNone [])
     = Raise (DeepseekErrors.unexpected Sample.builtins Sample.deepseek
                (DeepseekErrors.status_error Sample.builtins Sample.deepseek 503 "busy")).
Proof.
  destruct (failed_request_is_not_retried Sample.runtime Sample.builtins Sample.world
              Sample.state Sample.deepseek Cases.unavailable "hi" VNone [])
    as [Hone [Hstatus _]]; [reflexivity|reflexivity|].
  split; [exact Hone|]. apply Hstatus; [reflexivity|lia].
Defined.

Example timeout_is_not_retried :
  Deepseek.generate_text Sample.builtins Sample.runtime Sample.world Sample.state
    Sample.deepseek Cases.timing_out "hi" VNone []
  = {| Deepseek.returned :=
         Raise (DeepseekErrors.unexpected Sample.builtins Sample.deepseek
                  (DeepseekErrors.timeout_error Sample.builtins Sample.deepseek));
       Deepseek.attempts_made := 1;
       Deepseek.payload_sent :=
         Deepseek.payload_sent
           (Deepseek.generate_text Sample.builtins Sample.runtime Sample.world
              Sample.state Sample.deepseek Cases.timing_out "hi" VNone []);
       Deepseek.logged :=
         Deepseek.logged
           (Deepseek.generate_text Sample.builtins Sample.runtime Sample.world
              Sample.state Sample.deepseek Cases.timing_out "hi" VNone []);
       Deepseek.state_after :=
         Deepseek.state_after
           (Deepseek.generate_text Sample.builtins Sample.runtime Sample.world
              Sample.state Sample.deepseek Cases.timing_out "hi" VNone []) |}.
Proof. vm_compute. reflexivity. Qed.


Example joined_contents_are_stripped : Py.strip (PyStr.join [" Hello "; ""]) = "Hello".
Proof. reflexivity. Qed.

(** X17 (witness): the connection is refused. *)
Lemma generate_text_error_classes_witness :
  (exn_cls (Deepseek.wrapped Sample.builtins Sample.deepseek APIConnectionError)
   = ConfigurationError
   /\ truthy (py_or VNone (Deepseek.default_model Sample.deepseek)) = false)
  \/ exn_cls (Deepseek.wrapped Sample.builtins Sample.deepseek APIConnectionError)
     = APIError.
Proof.
  apply (generate_text_error_classes Sample.runtime Sample.builtins Sample.world
           Sample.state Sample.deepseek Sample.refusing "hi" VNone []).
  - intros n req e0 [= <-]. reflexivity.
  - reflexivity.
Defined.

End RequestFacts.

(* ===================================================================== *)
(** ** Properties of the list of models and of the status of a provider   *)
(* ===================================================================== *)

Module StatusFacts.
Import Factory.

Section Facts.
Context {Class : Type} (R : runtime Class) (B : builtins).

Lemma length_append a b : String.length (a ++ b) = String.length a + String.length b.
Proof.
  induction a as [|c a IH]; [done|]. rewrite ReportFacts.append_cons. simpl. by rewrite IH.
Qed.

Lemma take_drop n s : s = String.substring 0 n s ++ Py.drop n s.
Proof.
  revert s. induction n as [|n IH]; intros s.
  - by destruct s.
  - destruct s as [|c s]; [done|]. simpl. rewrite ReportFacts.append_cons.
    by rewrite <- IH.
Qed.

Lemma endswith_split s suffix :
  PyStr.endswith s suffix = true <-> exists p, s = p ++ suffix.
Proof.
  unfold PyStr.endswith. split.
  - intros [_ H]%andb_prop. apply String.eqb_eq in H.
    set (n := String.length s - String.length suffix) in *.
    exists (String.substring 0 n s). rewrite <- H. apply take_drop.
  - intros [p ->]. rewrite length_append. apply andb_true_intro. split.
    + apply Nat.leb_le. lia.
    + replace (String.length p + String.length suffix - String.length suffix)
        with (String.length p) by lia.
      rewrite ReportFacts.drop_append. apply String.eqb_refl.
Qed.

Lemma endswith_append s suffix t :
  PyStr.endswith s suffix = true -> PyStr.endswith (s ++ t) (suffix ++ t) = true.
Proof.
  intros [p ->]%endswith_split. apply endswith_split. exists p.
  apply RequestFacts.append_assoc.
Qed.

(** X19.  [get_available_models] of a Deepseek handler whose endpoint is
    a string asks an address that ends in "api.deepseek.com/v1/models",
    whatever that endpoint is: one that, without "/v1" and trailing
    slashes, does not end in the host of DeepSeek is replaced by the
    official address. *)
Theorem models_are_asked_of_deepseek h url :
  DeepseekModels.models_list_endpoint h = Ok url ->
  PyStr.endswith url "api.deepseek.com/v1/models" = true
  /\ (forall s, Deepseek.endpoint h = VStr s ->
        PyStr.endswith (Py.rstrip_char "/" (PyStr.replace "/v1" "" s))
          "api.deepseek.com" = false ->
        url = "https://api.deepseek.com/v1/models").
Proof.
  unfold DeepseekModels.models_list_endpoint.
  destruct (Deepseek.endpoint h) as [| | | |s| |]; try done.
  intros [= <-].
  destruct (PyStr.endswith (Py.rstrip_char "/" (PyStr.replace "/v1" "" s))
              "api.deepseek.com") eqn:E.
  - split; [|intros ? [= <-] H; congruence].
    by apply (endswith_append _ "api.deepseek.com" "/v1/models").
  - split; [reflexivity|]. by intros.
Qed.

(** X20.  [get_available_models] of a Deepseek handler whose endpoint is
    a string returns the empty list when the handler has no API key and
    when the service answers with a status other than 200;
    [check_status] then reports the connection test of a configured
    provider as "warning", with the text that the list was fetched and
    is empty, not as "error". *)
Theorem unreachable_models_read_as_an_empty_list h transport url msg :
  DeepseekModels.models_list_endpoint h = Ok url ->
  truthy (Deepseek.api_key h) = false
  \/ (exists status text, status <> 200%Z
                          /\ forall req, transport req = Http.Responds status text) ->
  DeepseekModels.get_available_models B h transport = Ok []
  /\ ApiManager.check_status (true, msg)
       (DeepseekModels.get_available_models B h transport)
     = VDict [("is_configured", VBool true);
              ("status_message", VStr msg);
              ("models_available", VInt 0);
              ("connection_test", VStr "warning");
              ("connection_warning", VStr "获取模型列表成功，但模型列表为空")].
Proof.
  intros Hu Hc.
  assert (H : DeepseekModels.get_available_models B h transport = Ok []).
  { unfold DeepseekModels.get_available_models. rewrite Hu. cbn [bind].
    destruct Hc as [Hk|(status & text & Hs & Ht)].
    - unfold Deepseek._get_headers. rewrite Hk. reflexivity.
    - unfold Deepseek._get_headers.
      destruct (negb (truthy (Deepseek.api_key h))); [reflexivity|].
      cbn [bind]. rewrite Ht. apply Z.eqb_neq in Hs. rewrite Hs. reflexivity. }
  split; [exact H|]. by rewrite H.
Qed.

Lemma endswith_char_append c a t :
  t <> "" -> Py.endswith_char c (a ++ t) = Py.endswith_char c t.
Proof.
  intros Ht. induction a as [|d a IH]; [done|].
  rewrite ReportFacts.append_cons. simpl.
  destruct (a ++ t) eqn:E; [|exact IH].
  destruct a; [change (t = "") in E; congruence|].
  rewrite ReportFacts.append_cons in E. discriminate.
Qed.

Lemma required_var_not_provider_name std prefix :
  ApiManager.required_var std prefix <> "provider_name".
Proof.
  unfold ApiManager.required_var. intros H.
  assert (Hc : Py.endswith_char "e" (ApiManager.required_var std prefix) = false).
  { unfold ApiManager.required_var.
    destruct (String.eqb std "ollama_local"); by rewrite endswith_char_append. }
  unfold ApiManager.required_var in Hc. rewrite H in Hc. discriminate.
Qed.

Lemma nonempty_iff s : Py.nonempty s = true <-> s <> "".
Proof. by destruct s. Qed.

(** X21.  For a provider that resolves to metadata with a prefix,
    [is_provider_configured] answers [True] exactly when the [.env] file
    holds a value that is not empty for the required variable; the
    process environment is not looked at, although a handler built by
    [get_handler] takes that variable from it. *)
Theorem configured_by_the_file_alone w st env_values name std st1 meta st2 :
  standardize_provider_name R w st name = (Ok std, st1) ->
  get_provider_metadata R w st1 std = (Some meta, st2) ->
  Py.nonempty (env_prefix meta) = true ->
  (fst (fst (ApiManager.is_provider_configured B R w st env_values (VStr name))) = true
   <-> exists v, env_values !! ApiManager.required_var std (env_prefix meta)
                 = Some (Some v) /\ v <> "")
  /\ (forall v, os_environ w !! ApiManager.required_var std (env_prefix meta) = Some v ->
        load_config B w (env_prefix meta) std
          !! ApiManager.required_var std (env_prefix meta)
        = Some (process_value B (Some v))).
Proof.
  intros Hs Hm Hp. split.
  - unfold ApiManager.is_provider_configured. rewrite Hs, Hm, Hp. simpl negb. cbv iota.
    destruct (bool_decide (env_values = ∅)) eqn:He.
    + apply bool_decide_eq_true in He. subst. simpl. split; [done|].
      intros [v [H _]]. by rewrite lookup_empty in H.
    + destruct (env_values !! ApiManager.required_var std (env_prefix meta))
        as [[v|]|] eqn:Hv; simpl.
      * destruct (Py.nonempty v) eqn:Hn; simpl.
        -- split; [|done]. intros _. exists v. split; [done|]. by apply nonempty_iff.
        -- split; [done|]. intros [v' [[= <-] Hne]]. apply nonempty_iff in Hne.
           congruence.
      * split; [done|]. by intros [v' [[=] _]].
      * split; [done|]. by intros [v' [[=] _]].
  - intros v Hv.
    rewrite (FactoryFacts.load_config_lookup B)
      by apply required_var_not_provider_name.
    assert (Hpre : Py.startswith (ApiManager.required_var std (env_prefix meta))
                     (env_prefix meta) = true)
      by apply ReportFacts.prefix_append.
    rewrite Hp, Hpre. simpl.
    by rewrite (FactoryFacts.all_env_vars_environ _ _ _ Hv).
Qed.
End Facts.

(** X19 (witness): an endpoint behind a proxy. *)
Lemma models_are_asked_of_deepseek_witness :
  PyStr.endswith "https://api.deepseek.com/v1/models" "api.deepseek.com/v1/models" = true
  /\ (forall s, Deepseek.endpoint Cases.proxied = VStr s ->
        PyStr.endswith (Py.rstrip_char "/" (PyStr.replace "/v1" "" s))
          "api.deepseek.com" = false ->
        "https://api.deepseek.com/v1/models" = "https://api.deepseek.com/v1/models").
Proof.
  apply (models_are_asked_of_deepseek Cases.proxied "https://api.deepseek.com/v1/models").
  reflexivity.
Defined.

Example endpoint_with_version_and_slash :
  DeepseekModels.models_list_endpoint
    {| Deepseek.provider_name := VStr "deepseek_ai";
       Deepseek.api_key := VStr "k";
       Deepseek.endpoint := VStr "https://eu.api.deepseek.com/v1/";
       Deepseek.default_model := VNone;
       Deepseek.default_api_params := [];
       Deepseek.request_timeout := VInt 30 |}
  = Ok "https://eu.api.deepseek.com/v1/models".
Proof. reflexivity. Qed.

(** X20 (witness): a handler without API key. *)
Lemma unreachable_models_read_as_an_empty_list_witness :
  DeepseekModels.get_available_models Sample.builtins Cases.keyless (Cases.unavailable 1)
  = Ok []
  /\ ApiManager.check_status (true, "ok")
       (DeepseekModels.get_available_models Sample.builtins Cases.keyless
          (Cases.unavailable 1))
     = VDict [("is_configured", VBool true);
              ("status_message", VStr "ok");
              ("models_available", VInt 0);
              ("connection_test", VStr "warning");
              ("connection_warning", VStr "获取模型列表成功，但模型列表为空")].
Proof.
  apply (unreachable_models_read_as_an_empty_list Sample.builtins Cases.keyless
           (Cases.unavailable 1) "https://api.deepseek.com/v1/models" "ok").
  - reflexivity.
  - left. reflexivity.
Defined.

(** A refused connection, by contrast, is reported as an error: the
    [TypeError] of the constructor call in the [except] clause. *)
Example refused_connection_status :
  ApiManager.check_status (true, "ok")
    (DeepseekModels.get_available_models Sample.builtins Sample.deepseek
       (Sample.refusing 1))
  = VDict [("is_configured", VBool true);
           ("status_message", VStr "ok");
           ("connection_test", VStr "error");
           ("connection_error",
            VStr "APIConnectionError.__init__() got an unexpected keyword argument 'message'")].
Proof. reflexivity. Qed.

(** X21 (witness): "deepseek" with the sample [.env] file. *)
Lemma configured_by_the_file_alone_witness :
  (fst (fst (ApiManager.is_provider_configured Sample.builtins Sample.runtime
               Sample.world Sample.state Sample.dotenv (VStr "deepseek"))) = true
   <-> exists v, Sample.dotenv
                   !! ApiManager.required_var "deepseek_ai"
                        (env_prefix Sample.deepseek_meta)
                 = Some (Some v) /\ v <> "")
  /\ (forall v, os_environ Sample.world
                  !! ApiManager.required_var "deepseek_ai"
                       (env_prefix Sample.deepseek_meta) = Some v ->
        load_config Sample.builtins Sample.world (env_prefix Sample.deepseek_meta)
          "deepseek_ai"
          !! ApiManager.required_var "deepseek_ai" (env_prefix Sample.deepseek_meta)
        = Some (process_value Sample.builtins (Some v))).
Proof.
  apply (configured_by_the_file_alone Sample.runtime Sample.builtins Sample.world
           Sample.state Sample.dotenv "deepseek" "deepseek_ai" Sample.state
           Sample.deepseek_meta Sample.state); reflexivity.
Defined.

(** A key that is exported and not written in the file: the provider
    counts as not configured, the handler has the key. *)
Example exported_key_is_not_configured :
  fst (ApiManager.is_provider_configured Sample.builtins Sample.runtime Sample.world
         Sample.state Cases.file_without_key (VStr "deepseek"))
  = (false, "提供商 'deepseek_ai' 未配置，缺少环境变量: DEEPSEEK_API_KEY。")
  /\ Factory.load_config Sample.builtins Sample.world "DEEPSEEK_" "deepseek_ai"
       !! "DEEPSEEK_API_KEY"
     = Some (VStr "from-environment").
Proof. split; reflexivity. Qed.

End StatusFacts.

(* ===================================================================== *)
(** ** Properties of the Ollama handlers                                  *)
(* ===================================================================== *)

Module OllamaFacts.
Import Factory.

Section Facts.
Context {Class : Type} (R : runtime Class) (B : builtins).

(** The loop of [options] is the loop that fills a payload, over the
    parameters under the names they are sent under. *)
Lemma options_renamed (name : string -> string) (l init : list (string * value)) :
  fold_left
    (fun opts kv =>
       if existsb (String.eqb (name (fst kv))) OllamaText.valid_options
          && is_not_none (snd kv)
       then dict_set (name (fst kv)) (snd kv) opts else opts)
    l init
  = fold_left
      (fun payload kv =>
         if existsb (String.eqb (fst kv)) OllamaText.valid_options
            && is_not_none (snd kv)
         then dict_set (fst kv) (snd kv) payload else payload)
      (map (fun kv => (name (fst kv), snd kv)) l) init.
Proof. revert init. induction l as [|kv l IH]; intros init; [done|]. simpl. apply IH. Qed.

Lemma dict_get_none_iff {A} k (d : list (string * A)) :
  dict_get k d = None <-> k ∉ map fst d.
Proof.
  induction d as [|[k0 v0] d IH]; simpl.
  - split; [set_solver|done].
  - destruct (String.eqb_spec k k0) as [->|Hne].
    + split; [done|set_solver].
    + rewrite IH. set_solver.
Qed.

Lemma renamed_keys (l : list (string * value)) k :
  k ∈ map fst (map (fun kv => (OllamaText.to_num_predict (fst kv), snd kv)) l) ->
  k <> "max_tokens"
  /\ (k ∈ map fst l \/ (k = "num_predict" /\ "max_tokens" ∈ map fst l)).
Proof.
  induction l as [|[k0 v0] l IH]; simpl; [set_solver|].
  intros [->|H]%elem_of_cons.
  - unfold OllamaText.to_num_predict. destruct (String.eqb_spec k0 "max_tokens") as [->|Hne].
    + split; [done|]. right. split; [done|set_solver].
    + split; [done|]. left. set_solver.
  - destruct (IH H) as [? [?|[? ?]]]; split; try done; set_solver.
Qed.

Lemma renamed_nodup (l : list (string * value)) :
  NoDup (map fst l) -> "num_predict" ∉ map fst l ->
  NoDup (map fst (map (fun kv => (OllamaText.to_num_predict (fst kv), snd kv)) l)).
Proof.
  induction l as [|[k0 v0] l IH]; simpl; intros Hnd Hnp; [constructor|].
  apply NoDup_cons in Hnd as [Hk Hnd]. apply NoDup_cons. split.
  - intros H. apply renamed_keys in H as [Hne [H|[H1 H2]]].
    + unfold OllamaText.to_num_predict in *.
      destruct (String.eqb_spec k0 "max_tokens") as [->|Hne2]; set_solver.
    + unfold OllamaText.to_num_predict in *.
      destruct (String.eqb_spec k0 "max_tokens") as [->|Hne2]; set_solver.
  - apply IH; [done|set_solver].
Qed.

Lemma renamed_get (l : list (string * value)) k :
  "num_predict" ∉ map fst l ->
  dict_get k (map (fun kv => (OllamaText.to_num_predict (fst kv), snd kv)) l)
  = if String.eqb k "num_predict" then dict_get "max_tokens" l
    else if String.eqb k "max_tokens" then None
    else dict_get k l.
Proof.
  induction l as [|[k0 v0] l IH]; cbn [map dict_get fst snd]; intros Hnp.
  - by repeat destruct (String.eqb _ _).
  - assert (Hk0 : k0 <> "num_predict") by set_solver.
    rewrite IH by set_solver. clear IH. unfold OllamaText.to_num_predict.
    destruct (String.eqb_spec k0 "max_tokens") as [->|Hmt].
    + destruct (String.eqb_spec k "num_predict") as [->|Hk]; [done|].
      by destruct (String.eqb k "max_tokens").
    + assert (Hmt' : "max_tokens" <> k0) by congruence.
      apply String.eqb_neq in Hmt, Hmt', Hk0. rewrite Hmt'.
      destruct (String.eqb_spec k k0) as [->|Hkk]; [|done].
      by rewrite Hk0, Hmt.
Qed.

Lemma options_lookup (fp : list (string * value)) k :
  NoDup (map fst fp) ->
  existsb (String.eqb k) OllamaText.valid_options = true ->
  dict_get k (OllamaText.options fp)
  = OllamaText.sent (if String.eqb k "num_predict"
          then match dict_get "num_predict" fp with
               | Some v => Some v
               | None => dict_get "max_tokens" fp
               end
          else dict_get k fp).
Proof.
  intros Hnd Hk. unfold OllamaText.options.
  destruct (dict_get "num_predict" fp) as [v|] eqn:Hnp.
  - rewrite (options_renamed (OllamaText.option_name fp)).
    assert (Hid : map (fun kv : string * value =>
                         (OllamaText.option_name fp (fst kv), snd kv)) fp = fp).
    { etrans; [|apply List.map_id]. apply List.map_ext. intros [k0 v0].
      unfold OllamaText.option_name. rewrite Hnp. cbn [fst snd].
      by destruct (String.eqb k0 "max_tokens"). }
    rewrite Hid, (BaseFacts.payload_lookup) by done.
    destruct (String.eqb_spec k "num_predict") as [->|]; [by rewrite Hnp|done].
  - rewrite (options_renamed (OllamaText.option_name fp)).
    assert (Hre : map (fun kv : string * value =>
                         (OllamaText.option_name fp (fst kv), snd kv)) fp
                  = map (fun kv => (OllamaText.to_num_predict (fst kv), snd kv)) fp).
    { apply List.map_ext. intros [k0 v0].
      unfold OllamaText.option_name, OllamaText.to_num_predict. by rewrite Hnp. }
    apply dict_get_none_iff in Hnp.
    rewrite Hre, (BaseFacts.payload_lookup), renamed_get by
      (done || by apply renamed_nodup).
    destruct (String.eqb_spec k "num_predict") as [->|]; [done|].
    destruct (String.eqb_spec k "max_tokens") as [->|]; [done|done].
Qed.

Lemma payload_invalid (valid : list string) k (params init : list (string * value)) :
  existsb (String.eqb k) valid = false ->
  dict_get k (fold_left
                (fun payload kv =>
                   if existsb (String.eqb (fst kv)) valid && is_not_none (snd kv)
                   then dict_set (fst kv) (snd kv) payload else payload)
                params init)
  = dict_get k init.
Proof.
  intros Hk. revert init. induction params as [|[k0 v0] params IH]; intros init; [done|].
  simpl. rewrite IH. destruct (existsb (String.eqb k0) valid) eqn:Hv; [|done].
  destruct (is_not_none v0); [|done]. simpl. rewrite BaseFacts.dict_get_set.
  destruct (String.eqb_spec k k0) as [->|]; [congruence|done].
Qed.

Lemma max_tokens_is_not_sent (fp : list (string * value)) :
  dict_get "max_tokens" (OllamaText.options fp) = None.
Proof.
  unfold OllamaText.options.
  rewrite (options_renamed (OllamaText.option_name fp)).
  by rewrite payload_invalid.
Qed.

Lemma env_default_get environ name parse key params k :
  k <> key ->
  dict_get k (OllamaText.env_default environ name parse key params)
  = dict_get k params.
Proof.
  intros Hk. unfold OllamaText.env_default.
  destruct (environ !! name) as [s|]; [|done].
  destruct (Py.nonempty s); [|done]. destruct (parse s); [|done].
  rewrite BaseFacts.dict_get_set. apply String.eqb_neq in Hk. by rewrite Hk.
Qed.

Lemma env_default_nodup environ name parse key params :
  NoDup (map fst params) ->
  NoDup (map fst (OllamaText.env_default environ name parse key params)).
Proof.
  intros H. unfold OllamaText.env_default.
  destruct (environ !! name) as [s|]; [|done].
  destruct (Py.nonempty s); [|done]. destruct (parse s); [|done].
  by apply BaseFacts.dict_set_nodup.
Qed.

Lemma final_params_nodup environ h kwargs :
  NoDup (map fst (Ollama.default_api_params h)) ->
  NoDup (map fst (OllamaText.final_params B environ h kwargs)).
Proof.
  intros H. unfold OllamaText.final_params.
  by apply BaseFacts.dict_update_nodup, env_default_nodup, env_default_nodup.
Qed.

(** X22.  The options [generate_text] and [chat] of the Ollama handler
    send never hold [max_tokens].  When [OLLAMA_MAX_TOKENS] is set in the
    process environment to an integer, [num_predict] is that integer,
    whatever [max_tokens] the caller gives; without the variable,
    [num_predict] is the [max_tokens] of the caller, else that of the
    handler, and is left out when that is [None].  (The dictionaries
    have distinct keys, and neither the caller nor the handler gives
    [num_predict] itself.) *)
Theorem environment_max_tokens_beats_the_call_site environ h kwargs :
  NoDup (map fst (Ollama.default_api_params h)) ->
  NoDup (map fst kwargs) ->
  dict_get "num_predict" (Ollama.default_api_params h) = None ->
  dict_get "num_predict" kwargs = None ->
  (forall request prompt model payload,
     OllamaText.payload_sent
       (OllamaText.generate_text B environ h request prompt model kwargs)
     = Some payload ->
     dict_get "options" payload
     = Some (VDict (OllamaText.options (OllamaText.final_params B environ h kwargs))))
  /\ (forall request messages model payload,
        OllamaText.payload_sent
          (OllamaText.chat B environ h request messages model kwargs)
        = Some payload ->
        dict_get "options" payload
        = Some (VDict (OllamaText.options
                         (OllamaText.final_params B environ h kwargs))))
  /\ dict_get "max_tokens"
       (OllamaText.options (OllamaText.final_params B environ h kwargs)) = None
  /\ (forall s n,
        environ !! "OLLAMA_MAX_TOKENS" = Some s -> s <> "" -> py_int B s = Some n ->
        dict_get "num_predict"
          (OllamaText.options (OllamaText.final_params B environ h kwargs))
        = Some (VInt n))
  /\ (environ !! "OLLAMA_MAX_TOKENS" = None ->
      dict_get "num_predict"
        (OllamaText.options (OllamaText.final_params B environ h kwargs))
      = OllamaText.sent (match dict_get "max_tokens" kwargs with
              | Some v => Some v
              | None => dict_get "max_tokens" (Ollama.default_api_params h)
              end)).
Proof.
  intros Hd Hk Hnd Hnk.
  split; [|split; [|split; [apply max_tokens_is_not_sent|split]]].
  - intros request prompt model payload. unfold OllamaText.generate_text.
    destruct (OllamaText.target_model h model) as [t|e]; [|done].
    destruct (negb (Py.nonempty t)); [done|]. by intros [= <-].
  - intros request messages model payload. unfold OllamaText.chat.
    destruct (OllamaText.target_model h model) as [t|e]; [|done].
    destruct (negb (Py.nonempty t)); [done|]. by intros [= <-].
  - intros s n Hs Hne Hn.
    rewrite options_lookup by (by apply final_params_nodup || done).
    cbn [String.eqb Ascii.eqb Bool.eqb]. unfold OllamaText.final_params.
    rewrite BaseFacts.dict_get_update, Hnk by done.
    unfold OllamaText.env_default at 1. rewrite Hs.
    apply StatusFacts.nonempty_iff in Hne. rewrite Hne. simpl. rewrite Hn. simpl.
    by rewrite BaseFacts.dict_get_set.
  - intros Hs.
    rewrite options_lookup by (by apply final_params_nodup || done).
    cbn [String.eqb Ascii.eqb Bool.eqb]. unfold OllamaText.final_params.
    rewrite !BaseFacts.dict_get_update, Hnk by done.
    unfold OllamaText.env_default at 1 3. rewrite Hs.
    rewrite !env_default_get by done. by rewrite Hnd.
Qed.

Lemma raise_new_init {A} c kwargs :
  Errors.unexpected_keyword c kwargs = None ->
  @Errors.raise_new A B c kwargs = Raise (Errors.init_body B c kwargs).
Proof. intros H. unfold Errors.raise_new, Errors.new. by rewrite H. Qed.

Lemma target_model_resolved h model s :
  py_or model (py_or (Ollama.default_model h) (VStr "")) = VStr s ->
  OllamaText.target_model h model = Ok (Py.strip s).
Proof. intros H. unfold OllamaText.target_model. by rewrite H. Qed.

(** X23.  Once a model is resolved, every exception that leaves [chat]
    of the Ollama handler is an [APIConnectionError], whose details are
    the text of what the request raised, be that an HTTP error or a
    timeout; [generate_text] lets what the request raises pass
    unchanged, a [RetryError] apart. *)
Theorem chat_failures_are_connection_errors
    environ h request messages model kwargs s :
  py_or model (py_or (Ollama.default_model h) (VStr "")) = VStr s ->
  Py.strip s <> "" ->
  (forall e,
     OllamaText.returned (OllamaText.chat B environ h request messages model kwargs)
     = Raise e ->
     exn_cls e = APIConnectionError)
  /\ (forall payload e,
        OllamaText.payload_sent
          (OllamaText.chat B environ h request messages model kwargs) = Some payload ->
        request "/api/chat" payload = Raise e ->
        OllamaText.returned
          (OllamaText.chat B environ h request messages model kwargs)
        = Raise (Errors.init_body B APIConnectionError
                   [("provider_name", Ollama.provider_name h);
                    ("details", VStr (exn_str e))]))
  /\ (forall prompt payload e,
        OllamaText.payload_sent
          (OllamaText.generate_text B environ h request prompt model kwargs)
        = Some payload ->
        request "/api/generate" payload = Raise e ->
        isinstance e RetryError = false ->
        OllamaText.returned
          (OllamaText.generate_text B environ h request prompt model kwargs)
        = Raise e).
Proof.
  intros Hm Hne. apply StatusFacts.nonempty_iff in Hne.
  unfold OllamaText.chat, OllamaText.generate_text.
  rewrite (target_model_resolved _ _ _ Hm), Hne. cbn [negb].
  split; [|split].
  - intros e. cbn [OllamaText.returned].
    match goal with |- context [bind ?a ?f] => destruct (bind a f) as [v|e0] end;
      [done|].
    rewrite raise_new_init by reflexivity. by intros [= <-].
  - intros payload e [= <-] Hr. cbn [OllamaText.returned]. by rewrite Hr.
  - intros prompt payload e [= <-] Hr Hre. cbn [OllamaText.returned].
    by rewrite Hr; cbn [bind]; rewrite Hre.
Qed.

Lemma model_entries_dicts h models :
  forallb OllamaText.is_dict models = true ->
  OllamaText.model_entries h models = Ok (omap (OllamaText.listed h) models).
Proof.
  induction models as [|m models IH]; [done|]. simpl.
  destruct m; try done. simpl. intros H. rewrite (IH H). simpl.
  by destruct (truthy _).
Qed.

Lemma model_entries_other h models :
  forallb OllamaText.is_dict models = false ->
  exists e, OllamaText.model_entries h models = Raise e.
Proof.
  induction models as [|m models IH]; [done|]. simpl.
  destruct m; simpl; eauto. intros H. destruct (IH H) as [e ->]. simpl. eauto.
Qed.

Lemma model_entries_named h models entries :
  OllamaText.model_entries h models = Ok entries ->
  Forall (fun v => exists name, truthy name = true
                                /\ v = OllamaText.model_entry h name) entries.
Proof.
  revert entries. induction models as [|m models IH]; intros entries; simpl.
  - intros [= <-]. constructor.
  - destruct m; try done.
    destruct (OllamaText.model_entries h models) as [more|e]; [|done]. simpl.
    destruct (truthy _) eqn:Ht; intros [= <-]; [|by apply IH].
    constructor; [eauto|by apply IH].
Qed.

(** X24.  [get_available_models] of the Ollama handler returns entries
    of models with a name that is not empty, and nothing else; the
    empty list when the request fails; and for an answer that lists
    models, the entries of the named ones in order when every model is
    a dictionary, and the empty list as soon as one is not. *)
Theorem listed_models h made :
  Forall (fun v => exists name, truthy name = true
                                /\ v = OllamaText.model_entry h name)
         (OllamaText.get_available_models h made)
  /\ (forall e, made = Raise e -> OllamaText.get_available_models h made = [])
  /\ (forall response models,
        made = Ok (VDict response) ->
        dict_get "models" response = Some (VList models) ->
        OllamaText.get_available_models h made
        = if forallb OllamaText.is_dict models then omap (OllamaText.listed h) models else []).
Proof.
  split; [|split].
  - unfold OllamaText.get_available_models.
    destruct made as [[| | | | | |[|e es]]|e]; try by constructor.
    destruct (dict_get "models" (e :: es)) as [models|]; [|by constructor].
    destruct (DeepseekModels.iter models) as [items|e0]; [|by constructor]. simpl.
    destruct (OllamaText.model_entries h items) as [entries|e0] eqn:E;
      [|by constructor].
    by eapply model_entries_named.
  - by intros e ->.
  - intros response models -> Hm. unfold OllamaText.get_available_models.
    destruct response as [|e es]; [done|]. rewrite Hm. simpl.
    destruct (forallb OllamaText.is_dict models) eqn:E.
    + by rewrite model_entries_dicts.
    + by destruct (model_entries_other h models E) as [e0 ->].
Qed.

(** X27.  Whatever the request returns or raises, an exception that
    leaves [chat] of the report handler is an [APIError].  An answer
    that is not a dictionary holding a dictionary under "message" does
    not come out as the format error the code names: the call of its
    constructor fails, and [chat] raises the [APIError] around that
    [TypeError]. *)
Theorem report_chat_raises_api_errors (h : Ollama.handler) model now now_ms made :
  (forall e, OllamaReport.chat B h model now now_ms made = Raise e ->
             exn_cls e = APIError)
  /\ (forall v,
        made = Ok v ->
        (forall entries m, v = VDict entries ->
                           dict_get "message" entries <> Some (VDict m)) ->
        let text :=
          exn_str (Errors.unexpected_keyword_error APIResponseFormatError "message") in
        OllamaReport.chat B h model now now_ms made
        = Raise (Errors.init_body B APIError
                   [("message",
                     VStr ("Ollama Report Handler chat failed: " ++ text));
                    ("provider_name", Ollama.provider_name h);
                    ("details", VStr text)])).
Proof.
  split.
  - intros e. unfold OllamaReport.chat.
    match goal with |- context [bind ?a ?f] => destruct (bind a f) as [v|e0] end;
      [done|].
    destruct (isinstance e0 APIError) eqn:Ha.
    + intros [= <-]. by apply RequestFacts.isinstance_APIError.
    + by intros [= <-].
  - intros v -> Hv text. unfold OllamaReport.chat. cbn [bind].
    assert (Hr : OllamaReport.read_response B (Ollama.provider_name h)
                   (py_or model (Ollama.default_model h)) now now_ms v
                 = Raise (Errors.unexpected_keyword_error APIResponseFormatError
                            "message")).
    { unfold OllamaReport.read_response.
      destruct v as [| | | | | |[|e es]]; try reflexivity.
      destruct (dict_get "message" (e :: es)) as [[| | | | | |m]|] eqn:Hm;
        try reflexivity.
      by destruct (Hv (e :: es) m). }
    rewrite Hr. reflexivity.
Qed.

(** X29.  The Ollama handler made of the configuration [get_handler]
    loads takes nothing of it but the provider name: its endpoint is
    "http://localhost:11434", its default model "deepseek-r1:8b" and
    its timeout 60, whatever the [.env] file and the environment hold,
    provided the prefix of the provider is no prefix of "endpoint",
    "default_model" and "request_timeout", the keys the constructor
    reads (as "OLLAMA_" is not). *)
Theorem ollama_handler_ignores_the_configured_endpoint w prefix std environ :
  Py.startswith "endpoint" prefix = false ->
  Py.startswith "default_model" prefix = false ->
  Py.startswith "request_timeout" prefix = false ->
  exists h,
    Ollama.__init__ B environ (load_config B w prefix std) = Ok h
    /\ Ollama.provider_name h = VStr std
    /\ Ollama.endpoint h = VStr "http://localhost:11434"
    /\ Ollama.default_model h = VStr "deepseek-r1:8b"
    /\ Ollama.request_timeout h = VInt 60.
Proof.
  intros He Hd Ht.
  assert (Hnone : forall k, k <> "provider_name" -> Py.startswith k prefix = false ->
            load_config B w prefix std !! k = None).
  { intros k Hk Hs. rewrite (FactoryFacts.load_config_lookup B) by done.
    by rewrite Hs, andb_false_r. }
  unfold Ollama.__init__, Dyn.cfg_get.
  rewrite (Hnone "endpoint"), (Hnone "default_model"), (Hnone "request_timeout")
    by done.
  cbn [default py_or truthy Py.nonempty bind].
  eexists. split; [reflexivity|]. cbn.
  unfold load_config. by rewrite lookup_insert_eq.
Qed.
End Facts.

(** X22 (witness): the environment says 77, the caller 5. *)
Lemma environment_max_tokens_beats_the_call_site_witness :
  dict_get "max_tokens"
    (OllamaText.options
       (OllamaText.final_params Sample.builtins Cases.exported Sample.ollama
          [("max_tokens", VInt 5)])) = None
  /\ dict_get "num_predict"
       (OllamaText.options
          (OllamaText.final_params Sample.builtins Cases.exported Sample.ollama
             [("max_tokens", VInt 5)])) = Some (VInt 77).
Proof.
  destruct (environment_max_tokens_beats_the_call_site Sample.builtins Cases.exported
              Sample.ollama [("max_tokens", VInt 5)])
    as (_ & _ & Hmax & Henv & _).
  - apply (bool_decide_unpack _). vm_compute. exact I.
  - apply (bool_decide_unpack _). vm_compute. exact I.
  - reflexivity.
  - reflexivity.
  - split; [exact Hmax|]. apply (Henv "77" 77%Z); [reflexivity|discriminate|reflexivity].
Defined.

Example options_sent_without_the_variable :
  OllamaText.payload_sent
    (OllamaText.generate_text Sample.builtins ∅ Sample.ollama Cases.failing_request
       "hi" VNone [("max_tokens", VInt 5)])
  = Some [("model", VStr "deepseek-r1:8b");
          ("prompt", VStr "hi");
          ("stream", VBool false);
          ("options",
           VDict [("temperature", VFloat 0.7%float);
                  ("top_p", VFloat 1.0%float);
                  ("num_predict", VInt 5)])].
Proof. reflexivity. Qed.

(** X23 (witness): the request fails with the error of a 404 answer. *)
Lemma chat_failures_are_connection_errors_witness :
  OllamaText.returned
    (OllamaText.chat Sample.builtins ∅ Sample.ollama Cases.failing_request
       Sample.question VNone [])
  = Raise (Errors.init_body Sample.builtins APIConnectionError
             [("provider_name", Ollama.provider_name Sample.ollama);
              ("details", VStr (exn_str Cases.not_found))])
  /\ OllamaText.returned
       (OllamaText.generate_text Sample.builtins ∅ Sample.ollama Cases.failing_request
          "hi" VNone [])
     = Raise Cases.not_found.
Proof.
  destruct (chat_failures_are_connection_errors Sample.builtins ∅ Sample.ollama
              Cases.failing_request Sample.question VNone [] "deepseek-r1:8b")
    as (_ & Hchat & Htext); [reflexivity|discriminate|].
  split.
  - eapply Hchat; reflexivity.
  - eapply Htext; reflexivity.
Defined.

Example filtered_messages_are_replaced :
  OllamaText.payload_sent
    (OllamaText.chat Sample.builtins ∅ Sample.ollama Cases.failing_request
       [{| Gen.role := "tool"; Gen.content := "42" |}] VNone [])
  = Some [("model", VStr "deepseek-r1:8b");
          ("messages", VList [OllamaText.hello]);
          ("stream", VBool false);
          ("options",
           VDict [("temperature", VFloat 0.7%float);
                  ("top_p", VFloat 1.0%float);
                  ("num_predict", VInt 16000)])].
Proof. reflexivity. Qed.

Example models_with_names :
  OllamaText.get_available_models Sample.ollama (Ok Cases.tags)
  = [OllamaText.model_entry Sample.ollama (VStr "llama3:8b");
     OllamaText.model_entry Sample.ollama (VStr "qwen2:7b")].
Proof. reflexivity. Qed.

Example one_string_hides_the_models :
  OllamaText.get_available_models Sample.ollama (Ok Cases.tags_with_a_string) = [].
Proof. reflexivity. Qed.

Example empty_answer_of_the_report_handler :
  OllamaReport.chat Sample.builtins Sample.ollama VNone 0 0 (Ok (VDict []))
  = Raise (Errors.init_body Sample.builtins APIError
             [("message",
               VStr "Ollama Report Handler chat failed: APIResponseFormatError.__init__() got an unexpected keyword argument 'message'");
              ("provider_name", VStr "ollama_local");
              ("details",
               VStr "APIResponseFormatError.__init__() got an unexpected keyword argument 'message'")]).
Proof. reflexivity. Qed.

(** X29 (witness): the prefix "OLLAMA_". *)
Lemma ollama_handler_ignores_the_configured_endpoint_witness :
  exists h,
    Ollama.__init__ Sample.builtins Cases.exported
      (Factory.load_config Sample.builtins Sample.world "OLLAMA_" "ollama_local") = Ok h
    /\ Ollama.provider_name h = VStr "ollama_local"
    /\ Ollama.endpoint h = VStr "http://localhost:11434"
    /\ Ollama.default_model h = VStr "deepseek-r1:8b"
    /\ Ollama.request_timeout h = VInt 60.
Proof.
  apply (ollama_handler_ignores_the_configured_endpoint Sample.builtins Sample.world
           "OLLAMA_" "ollama_local" Cases.exported); reflexivity.
Defined.

End OllamaFacts.

(* ===================================================================== *)
(** ** Properties of the SiliconFlow handler                              *)
(* ===================================================================== *)

Module SiliconFacts.
Import Factory.

Section Facts.
Context {Class : Type} (R : runtime Class) (B : builtins).

Lemma silicon_make_request_single_attempt h transport path payload method :
  SiliconFlowText._make_request B h transport path payload method
  = (SiliconFlowText._make_request_body B h transport path payload method 1, 1).
Proof. reflexivity. Qed.

Lemma silicon_generate_text_single_attempt
    w st h transport prompt model kwargs s :
  py_or model (py_or (SiliconFlow.default_model h) (VStr "")) = VStr s ->
  Py.strip s <> "" ->
  SiliconFlowText.attempts_made
    (SiliconFlowText.generate_text B R w st h transport prompt model kwargs) = 1
  /\ exists payload,
       SiliconFlowText.returned
         (SiliconFlowText.generate_text B R w st h transport prompt model kwargs)
       = match (let* decoded :=
                  SiliconFlowText._make_request_body B h transport
                    "/chat/completions" payload "POST" 1 in
                SiliconFlowText.read_response B h decoded) with
         | Ok content => Ok content
         | Raise e => SiliconFlowText.generate_text_except B h e
         end.
Proof.
  intros Hm Hne. unfold SiliconFlowText.generate_text. rewrite Hm.
  destruct (Py.strip s) eqn:Hs; [done|]. cbn [Py.nonempty negb].
  destruct (SiliconFlow.final_api_params B R w st h kwargs) as [[params logs] st1].
  rewrite silicon_make_request_single_attempt. simpl. eauto.
Qed.


Lemma silicon_generate_text_except_class h e0 e :
  SiliconFlowText.generate_text_except B h e0 = Raise e -> exn_cls e = APIError.
Proof.
  unfold SiliconFlowText.generate_text_except.
  destruct (isinstance e0 APIError) eqn:Ha.
  - intros [= <-]. by apply RequestFacts.isinstance_APIError.
  - destruct (isinstance e0 RetryError); by intros [= <-].
Qed.

(** X26.  An exception that leaves [generate_text] of the SiliconFlow
    handler is an [APIError], whatever the transport does; or the
    [ConfigurationError] of a call without model, raised before any
    request; or the [AttributeError] of a model that is no string. *)
Theorem silicon_generate_text_error_classes
    w st h transport prompt model kwargs e :
  SiliconFlowText.returned
    (SiliconFlowText.generate_text B R w st h transport prompt model kwargs)
  = Raise e ->
  exn_cls e = APIError
  \/ (exn_cls e = ConfigurationError
      /\ SiliconFlowText.attempts_made
           (SiliconFlowText.generate_text B R w st h transport prompt model kwargs) = 0)
  \/ (exn_cls e = AttributeError_
      /\ forall s, py_or model (py_or (SiliconFlow.default_model h) (VStr "")) <> VStr s).
Proof.
  destruct (py_or model (py_or (SiliconFlow.default_model h) (VStr ""))) as [| | | |s| |]
    eqn:Hm;
    try (unfold SiliconFlowText.generate_text; rewrite Hm; intros [= <-];
         right; right; by split).
  destruct (Py.strip s) eqn:Hs.
  - unfold SiliconFlowText.generate_text. rewrite Hm, Hs. simpl.
    intros [= <-]. right. left. by split.
  - assert (Hne : Py.strip s <> "") by by rewrite Hs.
    destruct (silicon_generate_text_single_attempt w st h transport prompt model kwargs
                s Hm Hne) as [_ [payload ->]].
    match goal with |- context [bind ?a ?f] => destruct (bind a f) as [v|e0] end;
      [done|].
    intros H. left. by eapply silicon_generate_text_except_class.
Qed.

Lemma omap_cons (f : string -> option value) line rest :
  omap f (line :: rest)
  = match f line with Some c => c :: omap f rest | None => omap f rest end.
Proof. reflexivity. Qed.

Lemma read_lines_step line rest :
  SiliconFlow.is_done_line line = false ->
  SiliconFlow.read_lines B (line :: rest)
  = match SiliconFlowText.chunk_of B line with
    | Some c => (c :: fst (SiliconFlow.read_lines B rest),
                 snd (SiliconFlow.read_lines B rest))
    | None => SiliconFlow.read_lines B rest
    end.
Proof.
  unfold SiliconFlow.is_done_line, SiliconFlowText.chunk_of. cbn [SiliconFlow.read_lines].
  destruct (Py.nonempty line); [|done].
  destruct (Py.startswith (Py.strip line) "data:"); [|done]. cbn [andb].
  intros ->. destruct (json_loads B _); [|done].
  by destruct (SiliconFlow.read_lines B rest).
Qed.

Lemma read_lines_chunks lines :
  existsb SiliconFlow.is_done_line lines = false ->
  SiliconFlow.read_lines B lines = (omap (SiliconFlowText.chunk_of B) lines, false).
Proof.
  induction lines as [|line rest IH]; [done|]. cbn [existsb].
  intros [Hl Hr]%orb_false_elim.
  rewrite read_lines_step, omap_cons, (IH Hr) by done.
  by destruct (SiliconFlowText.chunk_of B line).
Qed.

Lemma read_lines_until_done before done_line after :
  existsb SiliconFlow.is_done_line before = false ->
  SiliconFlow.is_done_line done_line = true ->
  SiliconFlow.read_lines B (before ++ done_line :: after)
  = ((omap (SiliconFlowText.chunk_of B) before ++ [SiliconFlow.done_marker])%list, true).
Proof.
  intros Hb Hd. induction before as [|line rest IH].
  - cbn [app SiliconFlow.read_lines]. unfold SiliconFlow.is_done_line in Hd.
    apply andb_prop in Hd as [[H1 H2]%andb_prop H3]. by rewrite H1, H2, H3.
  - cbn [existsb] in Hb. apply orb_false_elim in Hb as [Hl Hr].
    rewrite <- app_comm_cons, read_lines_step, omap_cons, (IH Hr) by done.
    by destruct (SiliconFlowText.chunk_of B line).
Qed.

(** X28.  A 200 answer to the request of [stream_chat] of the SiliconFlow
    handler is read up to its first [data: [DONE]] line: the stream
    yields the chunks of the [data:] lines before it that decode, in
    order, then [{"status": "done"}], and ends; the lines behind it, and
    an interruption of the connection, are not seen.  (The timeout of
    the handler is a value that can be multiplied by five.) *)
Theorem lines_after_done_are_not_read
    h exchange url payload total text before done_line after interrupted :
  SiliconFlow.times5 (SiliconFlow.request_timeout h) = Ok total ->
  (forall req,
     exchange req = Http.Streams 200 text (before ++ done_line :: after) interrupted) ->
  existsb SiliconFlow.is_done_line before = false ->
  SiliconFlow.is_done_line done_line = true ->
  SiliconFlow.exchange_stream B h exchange url payload
  = Gen.returns (omap (SiliconFlowText.chunk_of B) before ++ [SiliconFlow.done_marker])%list.
Proof.
  intros Ht He Hb Hd. unfold SiliconFlow.exchange_stream. rewrite Ht, He.
  cbn [Z.eqb Pos.eqb negb]. by rewrite read_lines_until_done.
Qed.

End Facts.


(** X26 (witness): the connection is refused. *)
Lemma silicon_generate_text_error_classes_witness :
  exn_cls Cases.silicon_refused = APIError
  \/ (exn_cls Cases.silicon_refused = ConfigurationError
      /\ SiliconFlowText.attempts_made
           (SiliconFlowText.generate_text Sample.builtins Sample.runtime Sample.world
              Sample.state Sample.silicon Sample.refusing "hi" VNone []) = 0)
  \/ (exn_cls Cases.silicon_refused = AttributeError_
      /\ forall s,
           py_or VNone (py_or (SiliconFlow.default_model Sample.silicon) (VStr ""))
           <> VStr s).
Proof.
  apply (silicon_generate_text_error_classes Sample.runtime Sample.builtins
           Sample.world Sample.state Sample.silicon Sample.refusing "hi" VNone []).
  reflexivity.
Defined.

Example unavailable_service_text :
  SiliconFlowText.returned
    (SiliconFlowText.generate_text Sample.builtins Sample.runtime Sample.world
       Sample.state Sample.silicon Cases.unavailable "hi" VNone [])
  = Raise (Errors.init_body Sample.builtins APIError
             [("message",
               VStr "Unexpected error: API Response Error (silicon_flow) Status Code: 503 Details: HTTP Error 503 Response Body Preview: <object>...");
              ("provider_name", VStr "silicon_flow");
              ("details",
               VStr "API Response Error (silicon_flow) Status Code: 503 Details: HTTP Error 503 Response Body Preview: <object>...")]).
Proof. reflexivity. Qed.

(** X28 (witness): two lines and an interruption behind the [DONE]
    line. *)
Lemma lines_after_done_are_not_read_witness :
  SiliconFlow.exchange_stream Sample.builtins Sample.silicon Cases.trailing
    "https://api.siliconflow.com/v1/chat/completions" []
  = Gen.returns (omap (SiliconFlowText.chunk_of Sample.builtins) ["data: [1]"; "ping"]
                 ++ [SiliconFlow.done_marker])%list.
Proof.
  apply (lines_after_done_are_not_read Sample.builtins Sample.silicon Cases.trailing
           "https://api.siliconflow.com/v1/chat/completions" [] (VInt 300)
           EmptyString ["data: [1]"; "ping"] "data: [DONE]" ["data: [1]"]
           (Some Cases.timed_out)); reflexivity.
Defined.

Example chunks_before_done :
  omap (SiliconFlowText.chunk_of Sample.builtins) ["data: [1]"; "ping"]
  = [VList [VInt 1]].
Proof. reflexivity. Qed.

End SiliconFacts.

(* ===================================================================== *)
(** ** Properties of the parameter resolver                               *)
(* ===================================================================== *)

Module ParamFacts.
Import Factory.

Section Facts.
Context {Class : Type} (R : runtime Class) (B : builtins).

(** The state [get_provider_metadata] leaves: the one in which a
    function that starts with [if not _initialized: initialize_handlers()]
    goes on. *)
Lemma get_provider_metadata_state w (st : state Class) name :
  snd (get_provider_metadata R w st name)
  = (if initialized st then st else initialize_handlers R w st).
Proof.
  pose proof (RegistryFacts.ensure_initialized_twice R w st) as Htwice.
  simpl in Htwice. unfold get_provider_metadata, standardize_provider_name.
  destruct (negb (Py.nonempty name)); [done|]. rewrite Htwice.
  set (st1 := if initialized st then st else initialize_handlers R w st).
  destruct (provider_aliases (shared st1) !! normalize name); [done|].
  by destruct (handlers (shared st1) !! normalize name).
Qed.



(** The value [get_current_param] resolves, in the document's terms,
    and the state it leaves. *)
Lemma get_current_param_value w (st : state Class) name P T D :
  In T ["int"; "float"; "bool"] ->
  fst (fst (Base.get_current_param B R w st (VStr name) P (Some T) D))
  = Spec.effective_value None
      (Spec.environment_default_in B (Base.store R w st name) P T) D
  /\ snd (Base.get_current_param B R w st (VStr name) P (Some T) D)
     = (if initialized st then st else initialize_handlers R w st).
Proof.
  intros HT. pose proof (get_provider_metadata_state w st name) as Hst.
  unfold Base.get_current_param, Base.store.
  destruct (get_provider_metadata R w st name) as [[meta|] st1]; simpl in *;
    [|done].
  destruct (Py.nonempty (env_prefix meta)); simpl; [|done].
  destruct (dotenv_from_cwd w) as [env|]; [|done].
  destruct (dotenv_from_cwd_raises w); [done|]. simpl.
  unfold Spec.environment_default, Spec.stored.
  destruct (Base.env_get env (env_prefix meta ++ Py.upper P)) as [v|].
  - simpl in HT. destruct HT as [<-|[<-|[<-|[]]]]; simpl;
      [destruct (py_int B v)|destruct (py_float B v)|]; done.
  - destruct (Base.env_get env _) as [v|]; [|done].
    simpl in HT. destruct HT as [<-|[<-|[<-|[]]]]; simpl;
      [destruct (py_int B v)|destruct (py_float B v)|]; done.
Qed.


(** When [get_current_param] has a store to read. *)
Lemma store_resolved w (st : state Class) name meta env :
  fst (get_provider_metadata R w st name) = Some meta ->
  Py.nonempty (env_prefix meta) = true ->
  dotenv_from_cwd w = Some env ->
  dotenv_from_cwd_raises w = None ->
  Base.store R w st name = Some (env_prefix meta, env).
Proof. intros Hm Hp He Hr. unfold Base.store. by rewrite Hm, Hp, He, Hr. Qed.

Lemma store_none w (st : state Class) name :
  Base.store R w st name = None
  <-> fst (get_provider_metadata R w st name) = None
      \/ (exists meta, fst (get_provider_metadata R w st name) = Some meta
                       /\ Py.nonempty (env_prefix meta) = false)
      \/ dotenv_from_cwd w = None
      \/ is_Some (dotenv_from_cwd_raises w).
Proof.
  unfold Base.store.
  destruct (fst (get_provider_metadata R w st name)) as [meta|]; [|by split; auto].
  destruct (Py.nonempty (env_prefix meta)) eqn:Hp; [|by split; eauto].
  destruct (dotenv_from_cwd w) as [env|]; [|by split; auto].
  destruct (dotenv_from_cwd_raises w) as [e|]; [by split; eauto|].
  split; [done|]. intros [?|[(m & [= <-] & ?)|[?|[x ?]]]]; congruence.
Qed.



Lemma bool_of_env_true v :
  Base.bool_of_env v = true <-> In (Py.lower v) ["true"; "1"; "yes"; "y"; "on"].
Proof.
  unfold Base.bool_of_env. rewrite existsb_exists. split.
  - intros (x & Hin & Hx). apply String.eqb_eq in Hx. by subst.
  - intros Hin. exists (Py.lower v). split; [done|apply String.eqb_refl].
Qed.

(** C10 (amended).  [BaseAPIHandler.get_current_param] with
    [param_type] "bool", in every state of the factory: where it has a
    store to read, a value stored under [{prefix}NAME], or else under
    [{prefix}DEFAULT_NAME], is never replaced by the default: the result
    is [True] exactly when its lowercase form is one of 'true', '1',
    'yes', 'y', 'on', and [False] otherwise; the default is returned
    when neither key holds a value.  Where it has no store to read (the
    provider's metadata does not resolve, its [env_prefix] is empty, no
    [.env] file is found, or the file cannot be read) the default is
    returned whatever the file holds.  The method that
    [OllamaLocalHandler] puts in its place takes a name and a default
    only: a call with a third positional argument, or with a keyword
    [param_type], raises [TypeError], and a call with a name and a
    default returns the stored text as it is. *)
Theorem get_current_param_bool w (st : state Class) name P D :
  fst (fst (Base.get_current_param B R w st (VStr name) P (Some "bool") D))
  = match Base.store R w st name with
    | Some (prefix, env) =>
        match Spec.stored env prefix P with
        | Some v => VBool (Base.bool_of_env v)
        | None => D
        end
    | None => D
    end
  /\ (forall v, Base.bool_of_env v = true
                <-> In (Py.lower v) ["true"; "1"; "yes"; "y"; "on"])
  /\ (forall meta env,
        fst (get_provider_metadata R w st name) = Some meta ->
        Py.nonempty (env_prefix meta) = true ->
        dotenv_from_cwd w = Some env ->
        dotenv_from_cwd_raises w = None ->
        Base.store R w st name = Some (env_prefix meta, env))
  /\ (Base.store R w st name = None
      <-> fst (get_provider_metadata R w st name) = None
          \/ (exists meta, fst (get_provider_metadata R w st name) = Some meta
                           /\ Py.nonempty (env_prefix meta) = false)
          \/ dotenv_from_cwd w = None
          \/ is_Some (dotenv_from_cwd_raises w))
  /\ (forall env_values a b c more keywords,
        exists e, OllamaParam.call B env_values (a :: b :: c :: more) keywords = Raise e
                  /\ exn_cls e = TypeError_)
  /\ (forall env_values args v keywords,
        exists e, OllamaParam.call B env_values args (("param_type", v) :: keywords)
                  = Raise e
                  /\ exn_cls e = TypeError_)
  /\ (forall env_values v,
        env_values !! ("OLLAMA_" ++ Py.upper P) = Some (Some v) ->
        OllamaParam.call B env_values [VStr P; D] [] = Ok (VStr v)).
Proof.
  split; [|split; [apply bool_of_env_true|split; [|split; [apply store_none|]]]].
  - destruct (get_current_param_value w st name P "bool" D) as [-> _];
      [simpl; tauto|].
    unfold Spec.environment_default_in, Spec.environment_default.
    destruct (Base.store R w st name) as [[prefix env]|]; [|done].
    by destruct (Spec.stored env prefix P).
  - intros meta env. apply store_resolved.
  - split; [|split].
    + intros env_values a b c more keywords. unfold OllamaParam.call.
      destruct (OllamaParam.bind_keywords _ _) as [e|] eqn:E.
      * eexists. split; [done|]. revert E. generalize (a :: b :: c :: more).
        induction keywords as [|[k x] ks IH]; intros args; simpl; [done|].
        destruct (negb _); [by intros [= <-]|].
        destruct (OllamaParam.positional args k); [by intros [= <-]|]. apply IH.
      * simpl. eexists. split; done.
    + intros env_values args v keywords. unfold OllamaParam.call. simpl.
      eexists. split; done.
    + intros env_values v Hv. unfold OllamaParam.call. simpl. by rewrite Hv.
Qed.

End Facts.



(** C10 (counterexample).  The [.env] file stores "Yes" under
    [DEEPSEEK_DEFAULT_STREAMING]; in a process in which the module-level
    [get_handler] was called first, and with a file that cannot be
    decoded, [get_current_param] returns the default [False].  On an
    Ollama handler whose file stores "true" under [OLLAMA_STREAMING], the
    call with a [param_type] raises [TypeError], and the call with a name
    and a default returns the text "true", not [True]. *)
Lemma stored_bool_is_not_returned :
  Spec.stored Sample.dotenv (env_prefix Sample.deepseek_meta) "streaming" = Some "Yes"
  /\ fst (fst (Base.get_current_param Sample.builtins Sample.runtime Sample.world
                 Sample.state (VStr "deepseek_ai") "streaming" (Some "bool")
                 (VBool false))) = VBool true
  /\ fst (fst (Base.get_current_param Sample.builtins Sample.runtime Sample.world
                 Cases.rebound_state (VStr "deepseek_ai") "streaming" (Some "bool")
                 (VBool false))) = VBool false
  /\ fst (fst (Base.get_current_param Sample.builtins Sample.runtime
                 Cases.world_undecodable Sample.state (VStr "deepseek_ai")
                 "streaming" (Some "bool") (VBool false))) = VBool false
  /\ OllamaParam.call Sample.builtins Cases.ollama_dotenv
       [VStr "streaming"; VStr "bool"; VBool false] []
     = Raise (OllamaParam.type_error
                "takes from 2 to 3 positional arguments but 4 were given")
  /\ OllamaParam.call Sample.builtins Cases.ollama_dotenv
       [VStr "streaming"] [("param_type", VStr "bool"); ("default_value", VBool false)]
     = Raise (OllamaParam.type_error "got an unexpected keyword argument 'param_type'")
  /\ OllamaParam.call Sample.builtins Cases.ollama_dotenv
       [VStr "streaming"; VBool false] []
     = Ok (VStr "true").
Proof. repeat split; vm_compute; reflexivity. Qed.

End ParamFacts.
